(** * audit.py: a shallow embedding and its verified properties

    The program is a small command-line tool: [init] copies a skeleton tree
    into a new project folder, [start] and [stop] append a file inventory to
    [logs/audit_file_list.txt], [export] gathers the shell logs into one
    HTML page and [list] prints the recognised projects.

    Everything the program does is a file-system or a console effect, so the
    embedding is an explicit model of both: a directory tree, POSIX path
    resolution over it, and a small state-and-exception monad in which the
    functions of [audit.py] are written one statement at a time.

    What the model takes from the platform:
    - paths are POSIX paths ([posixpath]); links are not followed, save for
      the dangling link, which is the one entry a listing shows and
      [os.stat] cannot examine;
    - Python [str] values are represented by Rocq strings holding their
      UTF-8 encoding, file contents are byte strings of the same type, and
      the default text encoding is UTF-8; a name is the bytes the file
      system has for it, and the bytes of a name that are not UTF-8 are the
      lone surrogates of [os.fsdecode], which a file opened with
      [encoding='utf-8'] refuses to write;
    - the standard output takes every text;
    - the values of [config], the clock, the formatting of times and the
      outcome of the [git] commands are parameters; a run happens at one
      instant, and a later run in a world whose clock has moved on;
    - where a new entry comes in the listing of its directory is the
      choice of the file system: the model lists it last, and what is
      stated of new entries does not turn on it;
    - the entry point is modelled from the parsed arguments on. *)

From Stdlib Require Import List String Ascii ZArith NArith Bool Lia Arith.
From Stdlib Require Import DecimalString.
Import ListNotations.

Local Open Scope list_scope.
Local Open Scope string_scope.

(* ================================================================== *)
(** * Python strings *)
(* ================================================================== *)

Module Py.

(** The line feed character, written ["\n"] in the source. *)
Definition nl : string := String "010"%char EmptyString.

Definition sep_char : ascii := "/"%char.

(** Truthiness of a string: the empty string is false. *)
Definition truthy (s : string) : bool :=
  match s with EmptyString => false | String _ _ => true end.

(** [s.startswith(p)] *)
Fixpoint startswith (s p : string) {struct p} : bool :=
  match p with
  | EmptyString => true
  | String c p' =>
      match s with
      | EmptyString => false
      | String d s' => andb (Ascii.eqb c d) (startswith s' p')
      end
  end.

(** [s.endswith(p)] *)
Definition endswith (s p : string) : bool :=
  let n := String.length s in
  let k := String.length p in
  if Nat.leb k n then String.eqb (String.substring (n - k) k s) p else false.

(** [s.upper()] on ASCII letters (the only ones the program uppercases). *)
Definition upper_char (c : ascii) : ascii :=
  let n := nat_of_ascii c in
  if andb (Nat.leb 97 n) (Nat.leb n 122) then ascii_of_nat (n - 32) else c.

Fixpoint upper (s : string) : string :=
  match s with
  | EmptyString => EmptyString
  | String c r => String (upper_char c) (upper r)
  end.

(** [s.split('/')]: never the empty list. *)
Fixpoint split_sep (s : string) : list string :=
  match s with
  | EmptyString => [EmptyString]
  | String c r =>
      if Ascii.eqb c sep_char then EmptyString :: split_sep r
      else match split_sep r with
           | [] => [String c EmptyString]
           | h :: t => String c h :: t
           end
  end.

(** ['/'.join(xs)] *)
Fixpoint join_sep (xs : list string) : string :=
  match xs with
  | [] => EmptyString
  | [x] => x
  | x :: r => x ++ "/" ++ join_sep r
  end.

(** [c * n] for a one-character string. *)
Fixpoint repeat_char (c : ascii) (n : nat) : string :=
  match n with O => EmptyString | S k => String c (repeat_char c k) end.

(** [len(s)]: the number of code points, that is the bytes that are not
    UTF-8 continuation bytes. *)
Fixpoint len (s : string) : nat :=
  match s with
  | EmptyString => 0
  | String c r =>
      let n := nat_of_ascii c in
      if andb (Nat.leb 128 n) (Nat.leb n 191) then len r else S (len r)
  end.

(** [format(s, '80')]: left-justified in a field of the given width. *)
Definition ljust (w : nat) (s : string) : string :=
  s ++ repeat_char " "%char (w - len s).

(** [format(s, '>10')]: right-justified. *)
Definition rjust (w : nat) (s : string) : string :=
  repeat_char " "%char (w - len s) ++ s.

(** [''.join(xs)] *)
Fixpoint cat (xs : list string) : string :=
  match xs with
  | [] => EmptyString
  | x :: r => x ++ cat r
  end.

(** [sub in s] *)
Fixpoint contains (s sub : string) : bool :=
  orb (startswith s sub)
      (match s with
       | EmptyString => false
       | String _ r => contains r sub
       end).

(** [c in s] for a character. *)
Fixpoint has_char (c : ascii) (s : string) : bool :=
  match s with
  | EmptyString => false
  | String d r => orb (Ascii.eqb c d) (has_char c r)
  end.

Definition str_of_nat (n : nat) : string :=
  NilZero.string_of_uint (Nat.to_uint n).

Definition str_of_Z (z : Z) : string :=
  if (z <? 0)%Z then "-" ++ str_of_nat (Z.to_nat (- z)) else str_of_nat (Z.to_nat z).

(** [format(n / 1024, '10.2f')] for a byte count [n]: the quotient is a
    dyadic rational, exactly representable as a float for every size below
    2^53, and the conversion to two decimals is correctly rounded, ties to
    even. *)
Definition fmt_kb (n : Z) : string :=
  let q := (n * 100 / 1024)%Z in
  let r := (n * 100 mod 1024)%Z in
  let q' := if (512 <? r)%Z then (q + 1)%Z
            else if andb (r =? 512)%Z (Z.odd q) then (q + 1)%Z else q in
  let frac := (q' mod 100)%Z in
  rjust 10 (str_of_Z (q' / 100) ++ "." ++
            (if (frac <? 10)%Z then "0" else "") ++ str_of_Z frac).

End Py.

(* ================================================================== *)
(** * [os.path] (the POSIX flavour) *)
(* ================================================================== *)

Module OsPath.
Import Py.

(** [os.path.basename]: what follows the last separator. *)
Definition basename (p : string) : string := last (split_sep p) EmptyString.

Definition isabs (p : string) : bool := startswith p "/".

(** [os.path.join(a, b)] *)
Definition join (a b : string) : string :=
  if startswith b "/" then b
  else if orb (negb (truthy a)) (endswith a "/") then a ++ b
  else a ++ "/" ++ b.

(** The component loop of [os.path.normpath]; [acc] is [new_comps] in
    reverse. *)
Fixpoint norm_comps (initial_slashes : bool) (acc : list string)
         (comps : list string) : list string :=
  match comps with
  | [] => rev acc
  | c :: r =>
      if orb (String.eqb c "") (String.eqb c ".") then norm_comps initial_slashes acc r
      else if negb (String.eqb c "..") then norm_comps initial_slashes (c :: acc) r
      else match acc with
           | [] => if initial_slashes then norm_comps initial_slashes acc r
                   else norm_comps initial_slashes (c :: acc) r
           | top :: rest =>
               if String.eqb top ".." then norm_comps initial_slashes (c :: acc) r
               else norm_comps initial_slashes rest r
           end
  end.

(** [os.path.normpath] *)
Definition normpath (p : string) : string :=
  if negb (truthy p) then "."
  else
    let initial := startswith p "/" in
    let slashes :=
      if initial then
        if andb (startswith p "//") (negb (startswith p "///")) then "//" else "/"
      else "" in
    let res := (slashes ++ join_sep (norm_comps initial [] (split_sep p)))%string in
    if truthy res then res else ".".

(** [os.path.abspath], given the value of [os.getcwd()]. *)
Definition abspath (cwd p : string) : string :=
  normpath (if isabs p then p else join cwd p).

Fixpoint strip_common (a b : list string) : list string * list string :=
  match a, b with
  | x :: a', y :: b' => if String.eqb x y then strip_common a' b' else (a, b)
  | _, _ => (a, b)
  end.

Definition nonempty_comps (p : string) : list string :=
  filter truthy (split_sep p).

(** [os.path.relpath(path, start)]; [None] is the [ValueError] raised for an
    empty [path]. *)
Definition relpath (cwd path start : string) : option string :=
  if negb (truthy path) then None
  else
    let '(s_rest, p_rest) :=
      strip_common (nonempty_comps (abspath cwd start))
                   (nonempty_comps (abspath cwd path)) in
    let rel := (map (fun _ => "..") s_rest ++ p_rest)%list in
    match rel with
    | [] => Some "."
    | _ => Some (join_sep rel)
    end.

End OsPath.

(* ================================================================== *)
(** * The file system *)
(* ================================================================== *)

Module Fs.
Import Py OsPath.
Local Open Scope list_scope.

(** A directory tree.  [Dangling] is a symbolic link whose target lies in a
    directory that does not exist: every call that follows it fails with
    [ENOENT], yet a directory listing shows it.  Entry names are single path
    components; the order of [entries] is the enumeration order of
    [os.scandir]. *)
#[local] Set Warnings "-register-all".
Inductive node : Type :=
| File (data : string) (mtime : Z)
| Dangling
| Dir (entries : list (string * node)).

(** A canonical path: the components from the root directory down. *)
Definition cpath := list string.

Inductive errno := ENOENT | ENOTDIR | EISDIR | EEXIST.

Fixpoint assoc (s : string) (es : list (string * node)) : option node :=
  match es with
  | [] => None
  | (k, v) :: r => if String.eqb k s then Some v else assoc s r
  end.

Fixpoint replace (s : string) (x : node) (es : list (string * node))
  : list (string * node) :=
  match es with
  | [] => []
  | (k, v) :: r => if String.eqb k s then (k, x) :: r else (k, v) :: replace s x r
  end.

Fixpoint lookup (p : cpath) (n : node) : option node :=
  match p with
  | [] => Some n
  | s :: r =>
      match n with
      | Dir es => match assoc s es with Some c => lookup r c | None => None end
      | _ => None
      end
  end.

(** [put p x n]: the tree [n] with [x] at [p], replacing what is there or
    adding a new entry to the parent directory.  A file system lists a new
    entry where it sees fit; here it comes last. *)
Fixpoint put (p : cpath) (x : node) (n : node) : node :=
  match p with
  | [] => x
  | s :: r =>
      match n with
      | Dir es =>
          match assoc s es with
          | Some c => Dir (replace s (put r x c) es)
          | None => match r with
                    | [] => Dir (es ++ [(s, x)])
                    | _ => n
                    end
          end
      | _ => n
      end
  end.

Definition parent (p : cpath) : cpath := removelast p.

Definition is_dir_at (t : node) (p : cpath) : bool :=
  match lookup p t with Some (Dir _) => true | _ => false end.

(** Path resolution from the directory [cur]: every component is looked up
    in a directory, [".."] steps to the parent, [""] and ["."] stay.  The
    last component need not exist. *)
Fixpoint walk_from (t : node) (cur : cpath) (segs : list string) : errno + cpath :=
  match segs with
  | [] => inr cur
  | s :: r =>
      match lookup cur t with
      | Some (Dir _) =>
          if orb (String.eqb s "") (String.eqb s ".") then walk_from t cur r
          else if String.eqb s ".." then walk_from t (parent cur) r
          else walk_from t (cur ++ [s]) r
      | Some (File _ _) => inl ENOTDIR
      | _ => inl ENOENT
      end
  end.

Definition resolve (cwd : cpath) (t : node) (path : string) : errno + cpath :=
  if negb (truthy path) then inl ENOENT
  else walk_from t (if isabs path then [] else cwd) (split_sep path).

(** [os.stat(path)], following links. *)
Definition stat (cwd : cpath) (t : node) (path : string) : errno + node :=
  match resolve cwd t path with
  | inl e => inl e
  | inr p => match lookup p t with
             | Some Dangling | None => inl ENOENT
             | Some n => inr n
             end
  end.

(** [os.path.exists(path)] *)
Definition path_exists (cwd : cpath) (t : node) (path : string) : bool :=
  match stat cwd t path with inr _ => true | inl _ => false end.

Definition is_dir (n : node) : bool :=
  match n with Dir _ => true | _ => false end.

(** The names [os.walk] reports as files of a directory: all entries that
    are not directories. *)
Definition files_of (es : list (string * node)) : list string :=
  map fst (filter (fun e => negb (is_dir (snd e))) es).

(** [os.walk(top)] over the tree [n] found at [top], top-down: one pair
    [(root, files)] per directory. *)
Fixpoint walk_node (top : string) (n : node) {struct n}
  : list (string * list string) :=
  match n with
  | Dir es =>
      (top, files_of es) ::
      (fix subdirs (l : list (string * node)) : list (string * list string) :=
         match l with
         | [] => []
         | (k, c) :: r =>
             (match c with
              | Dir _ => walk_node (join top k) c
              | _ => []
              end) ++ subdirs r
         end) es
  | _ => []
  end.

(** [os.walk(top)]: a [top] that cannot be listed yields nothing. *)
Definition os_walk (cwd : cpath) (t : node) (top : string)
  : list (string * list string) :=
  match stat cwd t top with
  | inr n => walk_node top n
  | inl _ => []
  end.

(** [os.listdir(path)] *)
Definition listdir (cwd : cpath) (t : node) (path : string) : errno + list string :=
  match stat cwd t path with
  | inl e => inl e
  | inr (Dir es) => inr (map fst es)
  | inr _ => inl ENOTDIR
  end.

(** [os.mkdir] at a canonical path. *)
Definition mkdir (t : node) (p : cpath) : errno + node :=
  match lookup p t with
  | Some _ => inl EEXIST
  | None =>
      match lookup (parent p) t with
      | Some (Dir _) => inr (put p (Dir []) t)
      | Some (File _ _) => inl ENOTDIR
      | _ => inl ENOENT
      end
  end.

(** [os.makedirs(name)]: the directories on the way are created when they
    are missing; [fresh] records that [cur] was created by this call. *)
Fixpoint makedirs_from (t : node) (cur : cpath) (fresh : bool) (segs : list string)
  : errno + node :=
  match segs with
  | [] =>
      match lookup cur t with
      | None => mkdir t cur
      | Some _ => if fresh then inr t else inl EEXIST
      end
  | s :: r =>
      let move t' made :=
        if orb (String.eqb s "") (String.eqb s ".") then makedirs_from t' cur made r
        else if String.eqb s ".." then makedirs_from t' (parent cur) false r
        else makedirs_from t' (cur ++ [s]) false r in
      match lookup cur t with
      | Some (Dir _) => move t fresh
      | Some (File _ _) => inl ENOTDIR
      | Some Dangling => inl ENOENT
      | None => match mkdir t cur with
                | inr t' => move t' true
                | inl e => inl e
                end
      end
  end.

Definition makedirs (cwd : cpath) (t : node) (path : string) : errno + node :=
  if negb (truthy path) then inl ENOENT
  else makedirs_from t (if isabs path then [] else cwd) false (split_sep path).

(** What [shutil.copytree] copies of a tree: regular files with their
    modification times, directories recursively; a dangling link cannot be
    copied. *)
Fixpoint copy_of (n : node) : node :=
  match n with
  | Dir es =>
      Dir ((fix go (l : list (string * node)) : list (string * node) :=
              match l with
              | [] => []
              | (k, Dangling) :: r => go r
              | (k, c) :: r => (k, copy_of c) :: go r
              end) es)
  | _ => n
  end.

(** [os.path.isdir(path)] *)
Definition isdir (cwd : cpath) (t : node) (path : string) : bool :=
  match stat cwd t path with inr (Dir _) => true | _ => false end.

(** [os.lstat(path)]: the entry itself, a link not followed. *)
Definition lstat (cwd : cpath) (t : node) (path : string) : option node :=
  match resolve cwd t path with
  | inr p => lookup p t
  | inl _ => None
  end.

(** No entry, or a regular file: what [open] can write to. *)
Definition regular_or_absent (o : option node) : bool :=
  match o with
  | None | Some (File _ _) => true
  | _ => false
  end.

(** The bytes of a regular file, nothing otherwise. *)
Definition content_of (o : option node) : string :=
  match o with
  | Some (File d _) => d
  | _ => EmptyString
  end.

(** [p] lies in the directory [root] or is [root] itself. *)
Fixpoint within (root p : cpath) : bool :=
  match root, p with
  | [], _ => true
  | r :: root', s :: p' => andb (String.eqb r s) (within root' p')
  | _ :: _, [] => false
  end.

(** A plain component: a name that is not empty, not a dot entry and holds
    no separator. *)
Definition plain_name (b : string) : bool :=
  negb (has_char sep_char b) && negb (String.eqb b "")
  && negb (String.eqb b ".") && negb (String.eqb b "..").

(** The entries [shutil.copytree] fails to copy, each with the name it was
    to have in the copy. *)
Fixpoint copy_errors (src dst : string) (n : node) : list (string * string) :=
  match n with
  | Dir es =>
      (fix go (l : list (string * node)) : list (string * string) :=
         match l with
         | [] => []
         | (k, Dangling) :: r => (join src k, join dst k) :: go r
         | (k, c) :: r => copy_errors (join src k) (join dst k) c ++ go r
         end) es
  | _ => []
  end.

End Fs.

(* ================================================================== *)
(** * Text decoding *)
(* ================================================================== *)

Module Codec.

(** The [errors] argument of [open]. *)
Inductive errors_policy := strict | ignore | replace.

(** U+FFFD REPLACEMENT CHARACTER, in UTF-8. *)
Definition replacement : string :=
  String (ascii_of_nat 239) (String (ascii_of_nat 191)
    (String (ascii_of_nat 189) EmptyString)).

(** What the error handler makes of one undecodable run of bytes, given the
    decoding of what follows; [None] is [UnicodeDecodeError]. *)
Definition on_error (pol : errors_policy) (rest : option string) : option string :=
  match pol with
  | strict => None
  | ignore => rest
  | replace => option_map (String.append replacement) rest
  end.

Definition between (a b c : nat) : bool := andb (Nat.leb a b) (Nat.leb b c).

(** A lead byte: how many continuation bytes follow, and the range allowed
    for the first of them. *)
Definition lead (b : nat) : option (nat * nat * nat) :=
  if between 194 b 223 then Some (1, 128, 191)
  else if Nat.eqb b 224 then Some (2, 160, 191)
  else if Nat.eqb b 237 then Some (2, 128, 159)
  else if between 225 b 239 then Some (2, 128, 191)
  else if Nat.eqb b 240 then Some (3, 144, 191)
  else if Nat.eqb b 244 then Some (3, 128, 143)
  else if between 241 b 243 then Some (3, 128, 191)
  else None.

(** The UTF-8 decoder, one byte at a time.  [need] continuation bytes are
    still expected, the next one within [lo..hi]; [pend] holds the bytes of
    the sequence read so far.  An ill-formed run is handed to the error
    handler once, and the byte that ended it is decoded afresh. *)
Fixpoint decode (pol : errors_policy) (need lo hi : nat) (pend : string)
         (bs : string) {struct bs} : option string :=
  match bs with
  | EmptyString =>
      match need with
      | O => Some EmptyString
      | S _ => on_error pol (Some EmptyString)
      end
  | String c r =>
      let b := nat_of_ascii c in
      let afresh :=
        if Nat.ltb b 128 then option_map (String c) (decode pol 0 0 0 EmptyString r)
        else match lead b with
             | Some (n, l, h) => decode pol n l h (String c EmptyString) r
             | None => on_error pol (decode pol 0 0 0 EmptyString r)
             end in
      match need with
      | O => afresh
      | S k =>
          if between lo b hi then
            let seq := (pend ++ String c EmptyString)%string in
            match k with
            | O => option_map (String.append seq) (decode pol 0 0 0 EmptyString r)
            | S _ => decode pol k 128 191 seq r
            end
          else on_error pol afresh
      end
  end.

Definition utf8_decode (pol : errors_policy) (bs : string) : option string :=
  decode pol 0 0 0 EmptyString bs.

(** A character of a [str] that holds a name or a path: a well-formed
    character, kept as its UTF-8 bytes, or the lone surrogate that
    [os.fsdecode] makes of a byte that is part of none (the
    [surrogateescape] handler: U+DC00 plus the byte). *)
Inductive point :=
| Scalar (bytes : string)
| Escaped (c : ascii).

Fixpoint escapes (bs : string) : list point :=
  match bs with
  | EmptyString => []
  | String c r => Escaped c :: escapes r
  end.

(** The decoder once more, with the [surrogateescape] handler: every byte
    of an ill-formed run is escaped on its own. *)
Fixpoint points (need lo hi : nat) (pend : string) (bs : string) {struct bs}
  : list point :=
  match bs with
  | EmptyString => escapes pend
  | String c r =>
      let b := nat_of_ascii c in
      let afresh :=
        if Nat.ltb b 128 then Scalar (String c EmptyString) :: points 0 0 0 EmptyString r
        else match lead b with
             | Some (n, l, h) => points n l h (String c EmptyString) r
             | None => Escaped c :: points 0 0 0 EmptyString r
             end in
      match need with
      | O => afresh
      | S k =>
          if between lo b hi then
            let seq := (pend ++ String c EmptyString)%string in
            match k with
            | O => Scalar seq :: points 0 0 0 EmptyString r
            | S _ => points k 128 191 seq r
            end
          else (escapes pend ++ afresh)%list
      end
  end.

Definition code_points (s : string) : list point := points 0 0 0 EmptyString s.

Fixpoint run_length (ps : list point) : nat :=
  match ps with
  | Escaped _ :: r => S (run_length r)
  | _ => 0
  end.

(** The first run of characters that UTF-8 cannot encode: the first of
    them, where the run starts and where it ends, counted in characters
    from position [i]. *)
Fixpoint first_escape (ps : list point) (i : nat) : option (ascii * nat * nat) :=
  match ps with
  | [] => None
  | Scalar _ :: r => first_escape r (S i)
  | Escaped c :: r => Some (c, i, S i + run_length r)
  end.

(** [text.encode('utf-8')], errors strict: [None] when it succeeds, else
    the arguments of the [UnicodeEncodeError]. *)
Definition encode_error (text : string) : option (ascii * nat * nat) :=
  first_escape (code_points text) 0.

Definition encodable (text : string) : bool :=
  match encode_error text with None => true | Some _ => false end.

(** A well-formed character, not an escaped byte. *)
Definition scalar (p : point) : bool :=
  match p with Scalar _ => true | Escaped _ => false end.

(** A text of ASCII characters. *)
Fixpoint ascii_text (s : string) : bool :=
  match s with
  | EmptyString => true
  | String c r => andb (Nat.ltb (nat_of_ascii c) 128) (ascii_text r)
  end.

(** A character that is a text of its own: what every well-formed
    character the decoder returns is. *)
Definition alone (p : point) : Prop :=
  match p with
  | Scalar bytes => code_points bytes = [Scalar bytes]
  | Escaped _ => True
  end.

Definition CR : ascii := "013"%char.
Definition LF : ascii := "010"%char.

(** Universal newlines on reading: ["\r\n"] and a lone ["\r"] become
    ["\n"]. *)
Fixpoint universal_newlines (s : string) : string :=
  match s with
  | EmptyString => EmptyString
  | String c r =>
      if Ascii.eqb c CR then
        String LF (match r with
                   | String c2 r2 =>
                       if Ascii.eqb c2 LF then universal_newlines r2
                       else universal_newlines r
                   | EmptyString => EmptyString
                   end)
      else String c (universal_newlines r)
  end.

(** [f.read()] on a file opened in text mode with the given [errors]
    policy; the platform's text encoding is taken to be UTF-8. *)
Definition read_text (pol : errors_policy) (bs : string) : option string :=
  option_map universal_newlines (utf8_decode pol bs).

End Codec.

(* ================================================================== *)
(** * The process state and its effects *)
(* ================================================================== *)

Module Sys.
Import Py OsPath Fs.

(** The exceptions the program meets; all derive from [Exception]. *)
Inductive exn :=
| Exception (msg : string)
| OSError (code : errno) (filename : string)
| ShutilError (failed : list (string * string * string))
| ValueError (msg : string)
| SubprocessError (msg : string)
| UnicodeEncodeError (first : ascii) (start stop : nat).

Definition quote : string := "'".
Definition dquote : string := String (ascii_of_nat 34) EmptyString.
Definition backslash : ascii := ascii_of_nat 92.

Definition hex_digit (n : nat) : ascii :=
  if Nat.ltb n 10 then ascii_of_nat (48 + n) else ascii_of_nat (87 + n).

(** [format(b, '02x')] for a byte. *)
Definition hex2 (b : nat) : string :=
  String (hex_digit (b / 16)) (String (hex_digit (b mod 16)) EmptyString).

(** One character of [repr(s)], within the quote [q].  The quote and the
    backslash are escaped, the control characters are, and so are the
    characters of Latin-1 that are not printable and the lone surrogates;
    what lies beyond Latin-1 is taken to be printable (the Unicode
    database of the interpreter decides). *)
Definition repr_point (q : ascii) (p : Codec.point) : string :=
  match p with
  | Codec.Escaped c =>
      String backslash ("udc" ++ hex2 (nat_of_ascii c))
  | Codec.Scalar (String c EmptyString) =>
      let b := nat_of_ascii c in
      if orb (Ascii.eqb c q) (Ascii.eqb c backslash)
      then String backslash (String c EmptyString)
      else if Nat.eqb b 9 then String backslash "t"
      else if Nat.eqb b 10 then String backslash "n"
      else if Nat.eqb b 13 then String backslash "r"
      else if orb (Nat.ltb b 32) (Nat.eqb b 127) then String backslash ("x" ++ hex2 b)
      else String c EmptyString
  | Codec.Scalar (String c1 (String c2 EmptyString) as bytes) =>
      let b := nat_of_ascii c2 in
      if andb (Nat.eqb (nat_of_ascii c1) 194) (orb (Nat.leb b 160) (Nat.eqb b 173))
      then String backslash ("x" ++ hex2 b)
      else bytes
  | Codec.Scalar bytes => bytes
  end.

(** [repr(s)]: in single quotes, or in double quotes when the text holds a
    single quote and no double one. *)
Definition repr (s : string) : string :=
  let q := if andb (has_char "'"%char s) (negb (has_char (ascii_of_nat 34) s))
           then ascii_of_nat 34 else "'"%char in
  String q (cat (map (repr_point q) (Codec.code_points s))) ++ String q EmptyString.

Definition strerror (e : errno) : string :=
  match e with
  | ENOENT => "[Errno 2] No such file or directory"
  | ENOTDIR => "[Errno 20] Not a directory"
  | EISDIR => "[Errno 21] Is a directory"
  | EEXIST => "[Errno 17] File exists"
  end.

Definition str_oserror (e : errno) (filename : string) : string :=
  strerror e ++ ": " ++ repr filename.

Fixpoint commas (xs : list string) : string :=
  match xs with
  | [] => EmptyString
  | [x] => x
  | x :: r => x ++ ", " ++ commas r
  end.

(** [str(e)] *)
Definition str (e : exn) : string :=
  match e with
  | Exception msg => msg
  | OSError code filename => str_oserror code filename
  | ShutilError failed =>
      "[" ++ commas (map (fun '(s, d, why) =>
                            "(" ++ repr s ++ ", " ++ repr d ++ ", " ++ repr why ++ ")")
                         failed) ++ "]"
  | ValueError msg => msg
  | SubprocessError msg => msg
  | UnicodeEncodeError first start stop =>
      if Nat.eqb stop (S start)
      then "'utf-8' codec can't encode character '"
           ++ String backslash ("udc" ++ hex2 (nat_of_ascii first))
           ++ "' in position " ++ str_of_nat start ++ ": surrogates not allowed"
      else "'utf-8' codec can't encode characters in position "
           ++ str_of_nat start ++ "-" ++ str_of_nat (stop - 1)
           ++ ": surrogates not allowed"
  end.

Inductive colour := green | yellow | red.

(** What the process writes to its standard output. *)
Inductive event :=
| Print (text : string) (c : colour)     (* print(termcolor.colored(text, c)) *)
| PrintHelp.                             (* parser.print_help() *)

(** A run of the program is taken to happen at one instant, [clock]; a run
    that follows another starts in a world whose clock has moved on
    ([later]). *)
Record world := mkWorld {
  fs : node;               (* the root directory *)
  clock : Z;               (* time.time() *)
  console : list event
}.

(** The world a later run finds: the files and the console as they were
    left, at the time [now]. *)
Definition later (now : Z) (w : world) : world :=
  mkWorld (fs w) now (console w).

(** What the process is given by its platform: the working directory, the
    folder of the script, the formatting of times, the size and time the
    system reports for a directory, and the outcome of running a command
    through the shell ([None] when it exits with status 0, else the text of
    the exception [subprocess.check_output] raises). *)
Record platform := mkPlatform {
  cwd : cpath;
  INSTALL_FOLDER : string;
  ctime : Z -> string;
  dir_size : Z;
  dir_mtime : Z;
  check_output : list string -> node -> node * option string
}.

Inductive result (A : Type) :=
| Ok (a : A)
| Raise (e : exn).
Arguments Ok {A} a.
Arguments Raise {A} e.

(** Computations over the world that may raise. *)
Definition M (A : Type) : Type := world -> result A * world.

Definition ret {A} (a : A) : M A := fun w => (Ok a, w).

Definition bind {A B} (m : M A) (k : A -> M B) : M B :=
  fun w => match m w with
           | (Ok a, w') => k a w'
           | (Raise e, w') => (Raise e, w')
           end.

Definition raise {A} (e : exn) : M A := fun w => (Raise e, w).

(** [try: m  except Exception as e: h e] *)
Definition try_except {A} (m : M A) (h : exn -> M A) : M A :=
  fun w => match m w with
           | (Ok a, w') => (Ok a, w')
           | (Raise e, w') => h e w'
           end.

Definition when (b : bool) (m : M unit) : M unit := if b then m else ret tt.

Definition get_fs : M node := fun w => (Ok (fs w), w).

Definition set_fs (t : node) : M unit :=
  fun w => (Ok tt, mkWorld t (clock w) (console w)).

Definition time : M Z := fun w => (Ok (clock w), w).

Definition emit (e : event) : M unit :=
  fun w => (Ok tt, mkWorld (fs w) (clock w) (console w ++ [e])%list).

(** Lifting a call that fails with an error number on [path]. *)
Definition os_call {A} (path : string) (r : errno + A) : M A :=
  match r with
  | inr a => ret a
  | inl e => raise (OSError e path)
  end.

End Sys.

Declare Scope audit_scope.
Delimit Scope audit_scope with audit.
Notation "x <- m ;; k" := (Sys.bind m (fun x => k))
  (at level 61, m at next level, right associativity) : audit_scope.
Notation "m ;;; k" := (Sys.bind m (fun _ => k))
  (at level 61, right associativity) : audit_scope.

Module Os.
Import Py OsPath Fs Sys.
Local Open Scope audit_scope.

Section WithPlatform.
Variable plat : platform.

(** [os.path.exists] *)
Definition exists_ (path : string) : M bool :=
  t <- get_fs ;; ret (path_exists (cwd plat) t path).

(** [os.path.getsize] *)
Definition getsize (t : node) (path : string) : exn + Z :=
  match stat (cwd plat) t path with
  | inl e => inl (OSError e path)
  | inr (File d _) => inr (Z.of_nat (String.length d))
  | inr _ => inr (dir_size plat)
  end.

(** [os.path.getmtime] *)
Definition getmtime (t : node) (path : string) : exn + Z :=
  match stat (cwd plat) t path with
  | inl e => inl (OSError e path)
  | inr (File _ m) => inr m
  | inr _ => inr (dir_mtime plat)
  end.

(** [os.getcwd()] *)
Definition getcwd : string := ("/" ++ join_sep (cwd plat))%string.

(** [open(path, 'a')] and [open(path, 'w')]: the file is created when it is
    missing and, for ['w'], emptied.  The handle is the place of the file. *)
Definition open_for_writing (truncate : bool) (path : string) : M cpath :=
  t <- get_fs ;;
  now <- time ;;
  p <- os_call path (resolve (cwd plat) t path) ;;
  match lookup p t with
  | Some (File d m) =>
      when truncate (set_fs (put p (File EmptyString now) t)) ;;; ret p
  | Some (Dir _) => raise (OSError EISDIR path)
  | Some Dangling => raise (OSError ENOENT path)
  | None =>
      match lookup (parent p) t with
      | Some (Dir _) => set_fs (put p (File EmptyString now) t) ;;; ret p
      | _ => raise (OSError ENOENT path)
      end
  end.

(** Leaving a [with open(...) as f] block: what was written to [f] goes
    through its buffer and reaches the end of the file when it is closed. *)
Definition close (f : cpath) (buffer : string) : M unit :=
  t <- get_fs ;;
  now <- time ;;
  match lookup f t with
  | Some (File d _) => set_fs (put f (File (d ++ buffer) now) t)
  | _ => set_fs (put f (File buffer now) t)
  end.

(** [f.write(text)] on a file opened with [encoding='utf-8'], given what
    the file was handed before: a text with a character that cannot be
    encoded is refused whole, with [UnicodeEncodeError]. *)
Definition write (text : string) (buffer : string) : result unit * string :=
  match Codec.encode_error text with
  | None => (Ok tt, buffer ++ text)
  | Some (c, start, stop) => (Raise (UnicodeEncodeError c start stop), buffer)
  end.

(** The bytes of a file opened for reading. *)
Definition read_bytes (t : node) (path : string) : exn + string :=
  match stat (cwd plat) t path with
  | inl e => inl (OSError e path)
  | inr (File d _) => inr d
  | inr _ => inl (OSError EISDIR path)
  end.

(** [with open(path, 'r', errors=pol) as f: f.read()] *)
Definition read_file (pol : Codec.errors_policy) (path : string) : M string :=
  t <- get_fs ;;
  match read_bytes t path with
  | inl e => raise e
  | inr d =>
      match Codec.read_text pol d with
      | Some text => ret text
      | None => raise (ValueError "'utf-8' codec can't decode bytes")
      end
  end.

(** [shutil.copytree(src, dst)]: [src] is listed, [dst] is made with
    [os.makedirs], everything that can be copied is, and the entries that
    cannot are reported together at the end. *)
Definition copytree (src dst : string) : M unit :=
  t <- get_fs ;;
  n <- os_call src (stat (cwd plat) t src) ;;
  match n with
  | Dir _ =>
      t1 <- os_call dst (makedirs (cwd plat) t dst) ;;
      p <- os_call dst (resolve (cwd plat) t1 dst) ;;
      set_fs (put p (copy_of n) t1) ;;;
      match copy_errors src dst n with
      | [] => ret tt
      | errs =>
          raise (ShutilError
                   (map (fun '(s, d) => (s, d, str_oserror ENOENT s)) errs))
      end
  | _ => raise (OSError ENOTDIR src)
  end.

(** [subprocess.check_output(args, shell=True)] *)
Definition subprocess_check_output (args : list string) : M unit :=
  t <- get_fs ;;
  let '(t', failure) := check_output plat args t in
  set_fs t' ;;;
  match failure with
  | None => ret tt
  | Some msg => raise (SubprocessError msg)
  end.

End WithPlatform.
End Os.

(* ================================================================== *)
(** * audit.py *)
(* ================================================================== *)

Module Audit.
Import Py OsPath Fs Sys Os.
Local Open Scope audit_scope.

(** The values of the [config] module; [AUDIT_FOLDER] is the path after the
    expansion of environment variables and of the home directory. *)
Record config := mkConfig {
  AUDIT_FOLDER : string;
  SCREENSHOTS : bool;
  GIT_AUTOCOMMIT : bool
}.

(** [args] as [parser.parse_args()] returns it. *)
Record Namespace := mkArgs {
  action : string;
  audit_name : option string
}.

Section Program.
Variable cfg : config.
Variable plat : platform.

(* ---------------------- Logging Utilities ---------------------- *)

Definition log_info (logstr : string) : M unit :=
  emit (Print ("[+] " ++ logstr) green).

Definition log_warning (logstr : string) : M unit :=
  emit (Print ("[!] " ++ logstr) yellow).

Definition log_error (logstr : string) : M unit :=
  emit (Print ("[X] " ++ logstr) red).

(* ---------------------- Core Utilities ---------------------- *)

Definition get_fullpath (audit_name : string) (raiseerror : bool) : M string :=
  let fullpath := join (AUDIT_FOLDER cfg) audit_name in
  present <- exists_ plat fullpath ;;
  if andb (negb present) raiseerror
  then raise (Exception ("Audit folder does not exist : " ++ fullpath))
  else ret fullpath.

(* ---------------------- File Inventory Logger ---------------------- *)

Definition log_name : string := "audit_file_list.txt".

(** The [try] block of the scan: size, time and relative path of one file,
    formatted as one line. *)
Definition describe (t : node) (audit_path file_path : string) : exn + string :=
  match getsize plat t file_path with
  | inl e => inl e
  | inr size =>
      match getmtime plat t file_path with
      | inl e => inl e
      | inr mtime =>
          let modified := ctime plat mtime in
          match relpath (getcwd plat) file_path audit_path with
          | None => inl (ValueError "no path specified")
          | Some relative_path =>
              inr (ljust 80 relative_path ++ "  " ++ fmt_kb size
                   ++ " KB   Modified: " ++ modified ++ nl)
          end
      end
  end.

(** What the loop does for one file: the line is written, and when the
    [try] block raises, be it on examining the file or on writing the line,
    the line of the error is written instead, outside any [try]. *)
Definition entry (t : node) (audit_path root file : string) (buffer : string)
  : result unit * string :=
  let file_path := join root file in
  let attempt :=                                            (* try: *)
    match describe t audit_path file_path with
    | inr line => write line buffer
    | inl e => (Raise e, buffer)
    end in
  match attempt with
  | (Ok _, buffer') => (Ok tt, buffer')
  | (Raise e, buffer') =>                                   (* except Exception as e: *)
      write ("ERROR reading " ++ file ++ ": " ++ str e ++ nl) buffer'
  end.

(** [for file in files: ...], writing to the buffer of the log; an
    exception ends the loop. *)
Fixpoint scan_files (t : node) (audit_path root : string) (files : list string)
         (buffer : string) : result unit * string :=
  match files with
  | [] => (Ok tt, buffer)
  | file :: rest =>
      if String.eqb file log_name
      then scan_files t audit_path root rest buffer            (* skip self *)
      else match entry t audit_path root file buffer with
           | (Ok _, buffer') => scan_files t audit_path root rest buffer'
           | (Raise e, buffer') => (Raise e, buffer')
           end
  end.

(** [for root, _, files in os.walk(audit_path): ...] *)
Fixpoint scan_dirs (t : node) (audit_path : string)
         (dirs : list (string * list string)) (buffer : string)
  : result unit * string :=
  match dirs with
  | [] => (Ok tt, buffer)
  | (root, files) :: rest =>
      match scan_files t audit_path root files buffer with
      | (Ok _, buffer') => scan_dirs t audit_path rest buffer'
      | (Raise e, buffer') => (Raise e, buffer')
      end
  end.

Definition header (mode audit_name : string) (now : Z) : string :=
  nl ++ "=== Audit File Inventory (" ++ upper mode ++ " SESSION) ===" ++ nl
  ++ "Audit: " ++ audit_name ++ nl
  ++ "Generated: " ++ ctime plat now ++ nl ++ nl.

(** The body of the [with] block: the three lines of the header, then the
    scan. *)
Definition with_log (t : node) (mode audit_name audit_path : string) (now : Z)
           (buffer : string) : result unit * string :=
  match write (nl ++ "=== Audit File Inventory (" ++ upper mode ++ " SESSION) ===" ++ nl)
              buffer with
  | (Raise e, buffer) => (Raise e, buffer)
  | (Ok _, buffer) =>
  match write ("Audit: " ++ audit_name ++ nl) buffer with
  | (Raise e, buffer) => (Raise e, buffer)
  | (Ok _, buffer) =>
  match write ("Generated: " ++ ctime plat now ++ nl ++ nl) buffer with
  | (Raise e, buffer) => (Raise e, buffer)
  | (Ok _, buffer) =>
      scan_dirs t audit_path (os_walk (cwd plat) t audit_path) buffer
  end end end.

(** The file is closed, and what it was given written, however the [with]
    block is left; an exception of the block goes on from there. *)
Definition generate_audit_file_log (audit_name mode : string) : M unit :=
  audit_path <- get_fullpath audit_name true ;;
  let log_file := join (join audit_path "logs") log_name in
  f <- open_for_writing plat false log_file ;;
  now <- time ;;
  t <- get_fs ;;
  let '(outcome, buffer) := with_log t mode audit_name audit_path now EmptyString in
  close f buffer ;;;
  match outcome with
  | Raise e => raise e
  | Ok _ => log_info ("Generated audit file list (" ++ mode ++ ") at: " ++ log_file)
  end.

(* ---------------------- Core Functions ---------------------- *)

Fixpoint list_each (files : list string) : M unit :=
  match files with
  | [] => ret tt
  | file :: rest =>
      marked <- exists_ plat (join (join (AUDIT_FOLDER cfg) file) ".audit") ;;
      when marked (log_info file) ;;;
      list_each rest
  end.

Definition list_audits : M unit :=
  present <- exists_ plat (AUDIT_FOLDER cfg) ;;
  if negb present
  then raise (Exception ("Main folder " ++ AUDIT_FOLDER cfg ++ " does not exist."))
  else
    t <- get_fs ;;
    files <- os_call (AUDIT_FOLDER cfg) (listdir (cwd plat) t (AUDIT_FOLDER cfg)) ;;
    list_each files.

Definition git_setup (fullpath : string) : M unit :=
  subprocess_check_output plat ["git"; "init"; fullpath] ;;;
  subprocess_check_output plat ["git"; "-C"; fullpath; "add"; "."] ;;;
  subprocess_check_output plat
    ["git"; "-C"; fullpath; "commit"; "-m"; "Initial audit project"].

Definition init (audit_name : string) : M unit :=
  present <- exists_ plat (AUDIT_FOLDER cfg) ;;
  if negb present
  then raise (Exception ("Main folder " ++ AUDIT_FOLDER cfg ++ " does not exist."))
  else
    fullpath <- get_fullpath audit_name false ;;
    taken <- exists_ plat fullpath ;;
    if taken
    then raise (Exception ("Audit folder already exists: " ++ fullpath))
    else
      copytree plat (join (INSTALL_FOLDER plat) "skel") fullpath ;;;
      when (GIT_AUTOCOMMIT cfg)
        (try_except (git_setup fullpath)
           (fun e => log_warning ("Git initialization failed: " ++ str e))) ;;;
      created <- get_fullpath audit_name true ;;
      log_info ("Created audit project in " ++ created).

Definition start (audit_name : string) : M unit :=
  log_info ("Starting audit session: " ++ audit_name) ;;;
  log_info "Logging of activities and evidence capture simulated (Windows mode)" ;;;
  generate_audit_file_log audit_name "start" ;;;
  when (SCREENSHOTS cfg)
    (log_warning
       "Screenshot automation not supported natively on Windows in this version.") ;;;
  when (GIT_AUTOCOMMIT cfg)
    (log_info "Git auto-commit active (manual Windows scheduling required).") ;;;
  log_info "Audit session started. You can now perform your tasks." ;;;
  log_info "Use 'python audit.py stop <audit_name>' to end the session.".

Definition stop (audit_name : string) : M unit :=
  log_info ("Stopping audit session: " ++ audit_name) ;;;
  generate_audit_file_log audit_name "stop" ;;;
  log_info "Audit stopped. All evidence logs and notes remain in the project folder.".

Definition separator : string := repeat_char "="%char 80.

(** [for file in files: if file.endswith(".log"): ...] *)
Fixpoint export_files (root : string) (files : list string) (all_logs : string)
  : M string :=
  match files with
  | [] => ret all_logs
  | file :: rest =>
      if endswith file ".log" then
        text <- read_file plat Codec.ignore (join root file) ;;
        export_files root rest
          (all_logs ++ nl ++ separator ++ nl ++ file ++ nl ++ separator ++ nl ++ text)
      else export_files root rest all_logs
  end.

(** [for root, _, files in os.walk(shell_dir): ...] *)
Fixpoint export_dirs (dirs : list (string * list string)) (all_logs : string)
  : M string :=
  match dirs with
  | [] => ret all_logs
  | (root, files) :: rest =>
      all_logs <- export_files root files all_logs ;;
      export_dirs rest all_logs
  end.

Definition export_shell_log (audit_name : string) : M unit :=
  audit_path <- get_fullpath audit_name true ;;
  let logs_dir := join audit_path "logs" in
  let shell_dir := join logs_dir "shell" in
  present <- exists_ plat shell_dir ;;
  if negb present
  then log_error ("No shell logs found in " ++ shell_dir)
  else
    t <- get_fs ;;
    all_logs <- export_dirs (os_walk (cwd plat) t shell_dir) "" ;;
    let html_file := join audit_path "shell_log.html" in
    f <- open_for_writing plat true html_file ;;
    close f ("<html><body><pre>" ++ all_logs ++ "</pre></body></html>") ;;;
    log_info ("Exported audit logs to " ++ html_file).

(* ---------------------- CLI Entry Point ---------------------- *)

Definition member (s : string) (l : list string) : bool :=
  existsb (String.eqb s) l.

Definition given (name : option string) : bool :=
  match name with Some s => truthy s | None => false end.

(** The [try] block of the entry point. *)
Definition dispatch (action : string) (name : string) : M unit :=
  if String.eqb action "init" then init name
  else if String.eqb action "start" then start name
  else if String.eqb action "stop" then stop name
  else if String.eqb action "export" then export_shell_log name
  else if String.eqb action "list" then list_audits
  else ret tt.

(** The body under [if __name__ == "__main__"], after the arguments are
    parsed; the result is the exit status of the process. *)
Definition main (args : Namespace) (w : world) : Z * world :=
  if negb (member (action args) ["init"; "start"; "stop"; "export"; "list"]) then
    let '(_, w1) :=
      (log_error "Invalid action. Use one of: init|start|stop|export|list" ;;;
       emit PrintHelp) w in
    (1%Z, w1)                                                   (* exit(1) *)
  else if andb (member (action args) ["init"; "start"; "stop"; "export"])
               (negb (given (audit_name args))) then
    let '(_, w1) := log_error "Specify an audit name." w in
    (1%Z, w1)                                                   (* exit(1) *)
  else
    let name :=
      match audit_name args with
      | Some s => if truthy s then basename s else s
      | None => ""
      end in
    match dispatch (action args) name w with
    | (Ok _, w1) => (0%Z, w1)
    | (Raise e, w1) =>
        let '(_, w2) := log_error (str e) w1 in
        (0%Z, w2)
    end.

End Program.
End Audit.

(* ================================================================== *)
(** * Notions used to state the properties *)
(* ================================================================== *)

Module Notions.
Import Py OsPath Fs Sys Os Audit.

(** The tree once [open] has returned: a missing file is created, and a
    file opened with ['w'] is emptied. *)
Definition opened (truncate : bool) (now : Z) (p : cpath) (t : node) : node :=
  match lookup p t with
  | Some (File _ _) => if truncate then put p (File EmptyString now) t else t
  | _ => put p (File EmptyString now) t
  end.

(** The files of a walk, each with the directory that lists it. *)
Definition pairs (dirs : list (string * list string)) : list (string * string) :=
  flat_map (fun d => map (pair (fst d)) (snd d)) dirs.

(** The files of a walk that get a line in the inventory. *)
Definition inventory (dirs : list (string * list string)) : list (string * string) :=
  filter (fun rf => negb (String.eqb (snd rf) log_name)) (pairs dirs).

(** The errors that examining a file or writing its line can raise. *)
Definition scan_error (e : exn) : Prop :=
  match e with
  | OSError _ _ | UnicodeEncodeError _ _ _ => True
  | ValueError msg => Codec.encodable msg = true
  | _ => False
  end.

(** The line that records an error met on a file. *)
Definition error_line (file : string) (e : exn) : string :=
  "ERROR reading " ++ file ++ ": " ++ str e ++ nl.

(** The text the scan has for one inventoried file: its line, or the line
    of the error met on examining the file or on writing its line. *)
Definition line_of (plat : platform) (t : node) (audit_path : string)
           (rf : string * string) : string :=
  match describe plat t audit_path (join (fst rf) (snd rf)) with
  | inr line =>
      match Codec.encode_error line with
      | None => line
      | Some (c, start, stop) => error_line (snd rf) (UnicodeEncodeError c start stop)
      end
  | inl e => error_line (snd rf) e
  end.

(** The lines of one inventory block, when all of them are written. *)
Definition inventory_body (plat : platform) (t : node) (audit_path : string) : string :=
  cat (map (line_of plat t audit_path)
           (inventory (os_walk (cwd plat) t audit_path))).

(** Texts written one after the other, up to the first that is refused. *)
Fixpoint write_all (texts : list string) (buffer : string) : result unit * string :=
  match texts with
  | [] => (Ok tt, buffer)
  | text :: rest =>
      match write text buffer with
      | (Ok _, buffer') => write_all rest buffer'
      | (Raise e, buffer') => (Raise e, buffer')
      end
  end.

(** The first line of a block of the log. *)
Definition tag (mode : string) : string :=
  nl ++ "=== Audit File Inventory (" ++ upper mode ++ " SESSION) ===" ++ nl.

(** The texts of one block, in the order they are written. *)
Definition block_texts (plat : platform) (t : node) (mode name audit_path : string)
           (now : Z) : list string :=
  tag mode :: ("Audit: " ++ name ++ nl) :: ("Generated: " ++ ctime plat now ++ nl ++ nl)
  :: map (line_of plat t audit_path) (inventory (os_walk (cwd plat) t audit_path)).

(** The files of a walk that [export] reads. *)
Definition matched (dirs : list (string * list string)) : list (string * string) :=
  filter (fun rf => endswith (snd rf) ".log") (pairs dirs).

(** What [export] adds to the page for one log file. *)
Definition log_block (file text : string) : string :=
  nl ++ separator ++ nl ++ file ++ nl ++ separator ++ nl ++ text.

(** The text [export] reads from one log file; empty when it cannot be
    read. *)
Definition text_of (plat : platform) (t : node) (rf : string * string) : string :=
  match read_bytes plat t (join (fst rf) (snd rf)) with
  | inr d => match Codec.read_text Codec.ignore d with
             | Some text => text
             | None => EmptyString
             end
  | inl _ => EmptyString
  end.

(** The blocks of the log files of a walk, one after the other. *)
Definition blocks (plat : platform) (t : node) (logs : list (string * string)) : string :=
  cat (map (fun rf => log_block (snd rf) (text_of plat t rf)) logs).

Definition page (all_logs : string) : string :=
  "<html><body><pre>" ++ all_logs ++ "</pre></body></html>".


(** A place that is the root or an entry of an existing directory. *)
Definition anchored (t : node) (p : cpath) : Prop :=
  p = [] \/ is_dir_at t (parent p) = true.

(** One tree keeps the directories of another. *)
Definition keeps_dirs (t t' : node) : Prop :=
  forall q, is_dir_at t q = true -> is_dir_at t' q = true.

(** What [generate_audit_file_log] returns and the world it leaves, given
    the one in which the log was opened at [p]: the texts that were written
    are in the file, and the line on the console is printed when all of
    them were. *)
Definition logged (cfg : config) (plat : platform) (mode name log_file : string)
           (p : cpath) (w1 : world) : result unit * world :=
  let audit_path := join (AUDIT_FOLDER cfg) name in
  let '(outcome, text) :=
    write_all (block_texts plat (fs w1) mode name audit_path (clock w1)) EmptyString in
  let t' := put p (File (content_of (lookup p (fs w1)) ++ text) (clock w1)) (fs w1) in
  match outcome with
  | Ok _ =>
      (Ok tt,
       mkWorld t' (clock w1)
         (console w1 ++ [Print ("[+] Generated audit file list (" ++ mode ++ ") at: "
                                ++ log_file) green])%list)
  | Raise e => (Raise e, mkWorld t' (clock w1) (console w1))
  end.

(** The world [export_shell_log] leaves once the page is opened at [p]. *)
Definition exported (all_logs html_file : string) (p : cpath) (w1 : world) : world :=
  mkWorld
    (put p (File (content_of (lookup p (fs w1)) ++ page all_logs) (clock w1)) (fs w1))
    (clock w1)
    (console w1 ++ [Print ("[+] Exported audit logs to " ++ html_file) green])%list.

(** The world with one more line on the console. *)
Definition printed (w : world) (e : event) : world :=
  mkWorld (fs w) (clock w) (console w ++ [e])%list.

End Notions.

(* ================================================================== *)
(** * A small installation, for the examples *)
(* ================================================================== *)

Module Demo.
Import Py OsPath Fs Sys Os Audit.

Definition ctime0 (z : Z) : string := "T+" ++ str_of_Z z.

(** No [git] on this machine: every command fails and leaves the tree as it
    is. *)
Definition no_git (args : list string) (t : node) : node * option string :=
  (t, Some "Command 'git' returned non-zero exit status 127.").

Definition plat0 : platform := mkPlatform [] "/opt/audit" ctime0 4096 0 no_git.

Definition cfg0 : config := mkConfig "/srv/audits" false true.

Definition byte_90 : string := String (ascii_of_nat 144) EmptyString.

Definition skel : node :=
  Dir [(".audit", File "" 5);
       ("logs", Dir [("shell", Dir [])]);
       ("notes.md", File "# notes" 6)].

Definition acme : node :=
  Dir [(".audit", File "" 5);
       ("logs", Dir [("shell",
                      Dir [("a.log", File "whoami" 7);
                           ("b.log", File ("a" ++ byte_90 ++ "b") 8);
                           ("readme.txt", File "not a log" 9)])]);
       ("evidence",
        Dir [("link", Dangling);
             ("shot.png", File "PNG" 10);
             ("audit_file_list.txt", File "a copy" 11)])].

Definition bare : node :=
  Dir [(".audit", File "" 5);
       ("logs", Dir [("shell", Dir [("readme.txt", File "no logs yet" 9)])]);
       ("shell_log.html", File "<html>an older export</html>" 12)].

Definition noshell : node :=
  Dir [(".audit", File "" 5);
       ("logs", Dir []);
       ("shell_log.html", File "<html>an older export</html>" 12)].

Definition t0 : node :=
  Dir [("opt", Dir [("audit", Dir [("skel", skel)])]);
       ("srv", Dir [("audits", Dir [("acme", acme); ("bare", bare);
                                    ("noshell", noshell)]);
                    ("logs", Dir [])])].

Definition w0 : world := mkWorld t0 100 [].

End Demo.

(* ================================================================== *)
(** * Further notions and installations *)
(* ================================================================== *)

Module More.
Import Py OsPath Fs Sys Os Audit Notions.

(** The line [list] prints for a project. *)
Definition listed_line (file : string) : event := Print ("[+] " ++ file) green.

(** A folder with the marker file of a project. *)
Definition marked (cfg : config) (plat : platform) (t : node) (file : string) : bool :=
  path_exists (cwd plat) t (join (join (AUDIT_FOLDER cfg) file) ".audit").

(** The world in which [start] runs the inventory: its two opening lines
    are printed. *)
Definition start_announced (name : string) (w : world) : world :=
  printed (printed w (Print ("[+] Starting audit session: " ++ name) green))
    (Print "[+] Logging of activities and evidence capture simulated (Windows mode)"
       green).

(** The world in which [stop] runs the inventory. *)
Definition stop_announced (name : string) (w : world) : world :=
  printed w (Print ("[+] Stopping audit session: " ++ name) green).

(** A configuration without version control. *)
Definition cfg_plain : config := mkConfig "/srv/audits" false false.

(** An installation whose skeleton holds a link that cannot be copied, a
    project folder without [logs], and a project with a log that cannot be
    opened. *)
Definition skel_broken : node :=
  Dir [(".audit", File "" 5); ("link", Dangling); ("notes.md", File "# notes" 6)].

Definition t_broken : node :=
  Dir [("opt", Dir [("broken", Dir [("skel", skel_broken)])]);
       ("srv", Dir [("audits",
                     Dir [("nologs", Dir [(".audit", File "" 5)]);
                          ("badlog",
                           Dir [(".audit", File "" 5);
                                ("logs", Dir [("shell", Dir [("gone.log", Dangling)])])]);
                          ("stray.txt", File "not a project" 7)])])].

Definition plat_broken : platform :=
  mkPlatform [] "/opt/broken" Demo.ctime0 4096 0 Demo.no_git.

Definition w_broken : world := mkWorld t_broken 200 [].

(** A project that holds, between two regular files, a link that leads
    nowhere and whose name, the bytes 62 90, is not UTF-8. *)
Definition odd_name : string := "b" ++ Demo.byte_90.

Definition t_odd : node :=
  Dir [("srv", Dir [("audits",
                     Dir [("odd", Dir [(".audit", File "" 5);
                                       ("logs", Dir []);
                                       ("a.txt", File "alpha" 6);
                                       (odd_name, Dangling);
                                       ("z.txt", File "omega" 7)])])])].

Definition w_odd : world := mkWorld t_odd 300 [].

End More.


(* ================================================================== *)
(** * Facts about strings, paths and trees *)
(* ================================================================== *)

(** Splitting at separators, suffixes and substrings. *)
Module PyFacts.
Import Py OsPath.

Lemma split_sep_nonempty s : split_sep s <> [].
Proof.
  destruct s as [|c r]; simpl; [discriminate|].
  destruct (Ascii.eqb c sep_char); [discriminate|].
  destruct (split_sep r); discriminate.
Qed.

Lemma split_sep_app_sep a b :
  split_sep (a ++ "/" ++ b) = (split_sep a ++ split_sep b)%list.
Proof.
  induction a as [|c a IH].
  - reflexivity.
  - change (split_sep (String c (a ++ "/" ++ b)) = (split_sep (String c a) ++ split_sep b)%list).
    cbn [split_sep]. rewrite IH. destruct (Ascii.eqb c sep_char); [reflexivity|].
    pose proof (split_sep_nonempty a) as Hne.
    destruct (split_sep a); [congruence|reflexivity].
Qed.

Lemma split_sep_plain b :
  has_char sep_char b = false -> split_sep b = [b].
Proof.
  induction b as [|c b IH]; cbn [split_sep has_char]; intros H; [reflexivity|].
  apply orb_false_iff in H as [Hc Hb].
  rewrite Ascii.eqb_sym in Hc. rewrite Hc, (IH Hb). reflexivity.
Qed.

Lemma substring_all s : substring 0 (String.length s) s = s.
Proof. induction s; simpl; congruence. Qed.

Lemma substring_cut s i :
  i <= String.length s ->
  s = substring 0 i s ++ substring i (String.length s - i) s.
Proof.
  revert i; induction s as [|c s IH]; intros i Hi; simpl in *.
  - destruct i; reflexivity.
  - destruct i as [|i]; simpl.
    + now rewrite substring_all.
    + f_equal. apply IH. lia.
Qed.

Lemma endswith_split s p :
  endswith s p = true -> exists s0, s = s0 ++ p.
Proof.
  unfold endswith. destruct (Nat.leb_spec (String.length p) (String.length s)) as [Hle|]; [|discriminate].
  intros H. apply String.eqb_eq in H.
  exists (substring 0 (String.length s - String.length p) s).
  pose proof (substring_cut s (String.length s - String.length p)) as Hc.
  replace (String.length s - (String.length s - String.length p))
    with (String.length p) in Hc by lia.
  rewrite H in Hc. apply Hc. lia.
Qed.
Lemma split_sep_parts s :
  Forall (fun x => has_char sep_char x = false) (split_sep s).
Proof.
  induction s as [|c r IH]; cbn [split_sep].
  - constructor; [reflexivity|constructor].
  - destruct (Ascii.eqb c sep_char) eqn:E.
    + constructor; [reflexivity|exact IH].
    + destruct (split_sep r) as [|h t].
      * constructor; [|constructor]. cbn [has_char].
        rewrite Ascii.eqb_sym, E. reflexivity.
      * inversion IH; subst. constructor; [|assumption].
        cbn [has_char]. rewrite Ascii.eqb_sym, E. assumption.
Qed.

(** What [os.path.basename] returns holds no separator. *)
Lemma basename_no_sep p : has_char sep_char (OsPath.basename p) = false.
Proof.
  unfold OsPath.basename. pose proof (split_sep_parts p) as H.
  induction H as [|x l Hx Hl IH]; [reflexivity|].
  destruct l; [exact Hx|exact IH].
Qed.

Lemma contains_here x post : startswith (x ++ post) x = true.
Proof.
  induction x as [|c x IH]; [reflexivity|].
  change (String c x ++ post)%string with (String c (x ++ post)).
  cbn [startswith]. now rewrite Ascii.eqb_refl, IH.
Qed.

Lemma contains_complete pre x post : contains (pre ++ x ++ post) x = true.
Proof.
  induction pre as [|c pre IH].
  - change ("" ++ x ++ post)%string with (x ++ post)%string.
    destruct (x ++ post)%string eqn:E; cbn [contains];
      rewrite <- E, contains_here; reflexivity.
  - change (String c pre ++ x ++ post)%string with (String c (pre ++ x ++ post)).
    cbn [contains]. rewrite IH. apply orb_true_r.
Qed.

End PyFacts.

(** Looking up and replacing entries of a tree; path resolution. *)
Module FsFacts.
Import Py OsPath Fs Notions.
Local Open Scope list_scope.

Lemma assoc_replace_same s x es :
  assoc s (replace s x es) =
  match assoc s es with Some _ => Some x | None => None end.
Proof.
  induction es as [|[k v] es IH]; simpl; [reflexivity|].
  destruct (String.eqb k s) eqn:E; simpl; rewrite E; auto.
Qed.

Lemma assoc_replace_other s s' x es :
  s' <> s -> assoc s' (replace s x es) = assoc s' es.
Proof.
  intros Hne. induction es as [|[k v] es IH]; simpl; [reflexivity|].
  destruct (String.eqb k s) eqn:E; simpl.
  - apply String.eqb_eq in E; subst k.
    destruct (String.eqb s s') eqn:E'; [apply String.eqb_eq in E'; congruence|reflexivity].
  - rewrite IH. reflexivity.
Qed.

Lemma assoc_app_new s s' x es :
  assoc s es = None ->
  assoc s' (es ++ [(s, x)]) = if String.eqb s s' then Some x else assoc s' es.
Proof.
  induction es as [|[k v] es IH]; simpl; intros H.
  - reflexivity.
  - destruct (String.eqb k s) eqn:E; [discriminate|].
    destruct (String.eqb k s') eqn:E'.
    + apply String.eqb_eq in E'; subst k. rewrite String.eqb_sym, E. reflexivity.
    + apply IH, H.
Qed.

Lemma parent_cons s r : parent (s :: r) = match r with [] => [] | _ => s :: parent r end.
Proof. destruct r; reflexivity. Qed.

Lemma parent_snoc q s : parent (q ++ [s]) = q.
Proof. apply removelast_last. Qed.

Lemma anchored_cons s r es c :
  anchored (Dir es) (s :: r) -> r <> [] -> assoc s es = Some c -> anchored c r.
Proof.
  intros [H|H] Hr Hc; [discriminate|]. right.
  rewrite parent_cons in H. destruct r as [|s' r']; [congruence|].
  unfold is_dir_at in *. simpl in H. rewrite Hc in H. exact H.
Qed.

Lemma lookup_put_same p x : forall t,
  anchored t p -> lookup p (put p x t) = Some x.
Proof.
  induction p as [|s r IH]; intros t Ha; [reflexivity|].
  destruct Ha as [Ha|Ha]; [discriminate|].
  rewrite parent_cons in Ha. unfold is_dir_at in Ha.
  destruct t as [d m| |es].
  - destruct r; simpl in Ha; discriminate.
  - destruct r; simpl in Ha; discriminate.
  - simpl. destruct (assoc s es) as [c|] eqn:Hs.
    + simpl. rewrite assoc_replace_same, Hs. apply IH.
      destruct r as [|s' r']; [left; reflexivity|right].
      unfold is_dir_at. simpl in Ha. rewrite Hs in Ha. exact Ha.
    + destruct r as [|s' r'].
      * simpl. rewrite (assoc_app_new _ _ _ _ Hs), String.eqb_refl. reflexivity.
      * simpl in Ha. rewrite Hs in Ha. discriminate.
Qed.

(** Writing a regular file where there was none, or another regular file,
    leaves every directory a directory and makes no new one. *)
Lemma put_file_is_dir p d m : forall t q,
  match lookup p t with None | Some (File _ _) => True | _ => False end ->
  is_dir_at (put p (File d m) t) q = is_dir_at t q.
Proof.
  induction p as [|s r IH]; intros t q Hp.
  - simpl in *. destruct t; try contradiction. destruct q; reflexivity.
  - destruct t as [d0 m0| |es]; try reflexivity.
    simpl in Hp |- *. destruct (assoc s es) as [c|] eqn:Hs.
    + destruct q as [|s' q']; [reflexivity|].
      unfold is_dir_at. simpl.
      destruct (string_dec s' s) as [->|Hne].
      * rewrite assoc_replace_same, Hs. apply (IH c q' Hp).
      * rewrite (assoc_replace_other _ _ _ _ Hne). reflexivity.
    + destruct r as [|s2 r2]; [|reflexivity].
      destruct q as [|s' q']; [reflexivity|].
      unfold is_dir_at. simpl. rewrite (assoc_app_new _ _ _ _ Hs).
      destruct (String.eqb s s') eqn:E.
      * apply String.eqb_eq in E; subst s'. rewrite Hs.
        destruct q'; reflexivity.
      * reflexivity.
Qed.

Lemma walk_from_mono t t' segs : forall cur p,
  (forall q, is_dir_at t q = true -> is_dir_at t' q = true) ->
  walk_from t cur segs = inr p -> walk_from t' cur segs = inr p.
Proof.
  induction segs as [|s r IH]; intros cur p Hmono H; [exact H|].
  simpl in *. pose proof (Hmono cur) as Hc. unfold is_dir_at in Hc.
  destruct (lookup cur t) as [[| |es]|]; try discriminate.
  specialize (Hc eq_refl).
  destruct (lookup cur t') as [[| |es']|]; try discriminate.
  destruct (_ || _); [auto|]. destruct (String.eqb s ".."); auto.
Qed.

Lemma walk_from_app t l1 : forall l2 cur,
  walk_from t cur (l1 ++ l2) =
  match walk_from t cur l1 with
  | inr q => walk_from t q l2
  | inl e => inl e
  end.
Proof.
  induction l1 as [|s r IH]; intros l2 cur; [reflexivity|].
  simpl. destruct (lookup cur t) as [[| |es]|]; try reflexivity.
  destruct (_ || _); [apply IH|]. destruct (String.eqb s ".."); apply IH.
Qed.

Lemma lookup_snoc q s : forall t n,
  lookup (q ++ [s]) t = Some n -> is_dir_at t q = true.
Proof.
  induction q as [|k q IH]; intros t n H; unfold is_dir_at in *; simpl in *.
  - destruct t; try discriminate. reflexivity.
  - destruct t as [| |es]; try discriminate.
    destruct (assoc k es) as [c|]; [|discriminate]. eapply IH, H.
Qed.

Lemma dir_anchored t q : is_dir_at t q = true -> anchored t q.
Proof.
  intros H. induction q as [|s q' _] using rev_ind; [left; reflexivity|].
  right. rewrite parent_snoc. unfold is_dir_at in H.
  destruct (lookup (q' ++ [s]) t) eqn:Hl; [|discriminate].
  eapply lookup_snoc, Hl.
Qed.

Lemma dir_parent t q : is_dir_at t q = true -> is_dir_at t (parent q) = true.
Proof.
  intros H. destruct (dir_anchored _ _ H) as [->|Hp]; [exact H|exact Hp].
Qed.

Lemma walk_from_cons t cur s r :
  walk_from t cur (s :: r) =
  match lookup cur t with
  | Some (Dir _) =>
      if orb (String.eqb s "") (String.eqb s ".") then walk_from t cur r
      else if String.eqb s ".." then walk_from t (parent cur) r
      else walk_from t (cur ++ [s]) r
  | Some (File _ _) => inl ENOTDIR
  | _ => inl ENOENT
  end.
Proof. reflexivity. Qed.

(** A path that resolves names an entry of an existing directory, or the
    root. *)
Lemma walk_from_anchored t segs : forall s cur p,
  walk_from t cur (s :: segs) = inr p -> anchored t p.
Proof.
  induction segs as [|s' r IH]; intros s cur p H.
  - simpl in H. destruct (lookup cur t) as [[| |es]|] eqn:Hc; try discriminate.
    assert (Hd : is_dir_at t cur = true) by (unfold is_dir_at; now rewrite Hc).
    destruct (_ || _).
    + inversion H; subst. now apply dir_anchored.
    + destruct (String.eqb s "..").
      * inversion H; subst. apply dir_anchored, dir_parent, Hd.
      * inversion H; subst. right. now rewrite parent_snoc.
  - rewrite walk_from_cons in H.
    destruct (lookup cur t) as [[| |es]|] eqn:Hc; try discriminate.
    destruct (_ || _); [eapply IH, H|].
    destruct (String.eqb s ".."); eapply IH, H.
Qed.

Lemma resolve_anchored cwd t path p :
  resolve cwd t path = inr p -> anchored t p.
Proof.
  unfold resolve. destruct (negb (truthy path)); [discriminate|].
  pose proof (PyFacts.split_sep_nonempty path) as Hne.
  destruct (split_sep path) as [|s segs]; [congruence|].
  apply walk_from_anchored.
Qed.

End FsFacts.

(** How [os.path.join] and path resolution go together. *)
Module PathFacts.
Import Py OsPath Fs Notions FsFacts PyFacts.
Local Open Scope list_scope.

Lemma nosep_not_abs b : has_char sep_char b = false -> startswith b "/" = false.
Proof.
  destruct b as [|c r]; [reflexivity|]. cbn [has_char]. intros H.
  apply orb_false_iff in H as [Hc _]. cbn [startswith].
  unfold sep_char in Hc. rewrite Hc. reflexivity.
Qed.

Lemma startswith_app a x : truthy a = true -> startswith (a ++ x) "/" = startswith a "/".
Proof.
  destruct a as [|c r]; [discriminate|]. intros _.
  change (String c r ++ x)%string with (String c (r ++ x)).
  cbn [startswith]. reflexivity.
Qed.

Lemma truthy_app a x : truthy a = true -> truthy (a ++ x) = true.
Proof. destruct a; [discriminate|reflexivity]. Qed.

Lemma append_assoc (a b c : string) : ((a ++ b) ++ c = a ++ (b ++ c))%string.
Proof. induction a; simpl; congruence. Qed.

Lemma walk_plain t q b :
  plain_name b = true ->
  walk_from t q [b] =
  match lookup q t with
  | Some (Dir _) => inr (q ++ [b])
  | Some (File _ _) => inl ENOTDIR
  | _ => inl ENOENT
  end.
Proof.
  unfold plain_name. intros H.
  apply andb_true_iff in H as [H H3]. apply andb_true_iff in H as [H H2].
  apply andb_true_iff in H as [_ H1].
  apply negb_true_iff in H1, H2, H3.
  rewrite walk_from_cons, H1, H2, H3. reflexivity.
Qed.

Lemma walk_stay t q :
  walk_from t q [""%string] =
  match lookup q t with
  | Some (Dir _) => inr q
  | Some (File _ _) => inl ENOTDIR
  | _ => inl ENOENT
  end.
Proof. reflexivity. Qed.

(** Resolving [join a b], for a relative [b], is resolving [a] and going on
    from there through the components of [b]. *)
Lemma resolve_join_relative cwd t a b :
  truthy a = true -> startswith b "/" = false ->
  resolve cwd t (join a b) =
  match resolve cwd t a with
  | inl e => inl e
  | inr q => walk_from t q (split_sep b)
  end.
Proof.
  intros Ha Hb.
  unfold join. rewrite Hb, Ha. cbn [negb orb].
  pose proof (split_sep_nonempty b) as Hne.
  destruct (endswith a "/") eqn:He.
  - apply endswith_split in He as [a0 ->].
    unfold resolve, isabs. rewrite (truthy_app _ b Ha), Ha. cbn [negb].
    rewrite (startswith_app _ b Ha).
    rewrite append_assoc.
    rewrite (split_sep_app_sep a0 b).
    replace (a0 ++ "/")%string with (a0 ++ "/" ++ "")%string by reflexivity.
    rewrite (split_sep_app_sep a0 ""). cbn [split_sep].
    rewrite !walk_from_app.
    destruct (walk_from t _ (split_sep a0)) as [e|q]; [reflexivity|].
    rewrite walk_stay.
    destruct (split_sep b) as [|s r]; [congruence|].
    rewrite walk_from_cons.
    destruct (lookup q t) as [[| |es]|] eqn:Hq; try reflexivity.
    rewrite walk_from_cons, Hq. reflexivity.
  - unfold resolve, isabs. rewrite (truthy_app _ ("/" ++ b) Ha), Ha. cbn [negb].
    rewrite (startswith_app _ ("/" ++ b) Ha).
    rewrite (split_sep_app_sep a b).
    rewrite walk_from_app. reflexivity.
Qed.

(** Resolving [join a b] is resolving [a] and then looking the component
    [b] up in it. *)
Lemma resolve_join cwd t a b :
  truthy a = true -> has_char sep_char b = false ->
  resolve cwd t (join a b) =
  match resolve cwd t a with
  | inl e => inl e
  | inr q => walk_from t q [b]
  end.
Proof.
  intros Ha Hb.
  rewrite (resolve_join_relative _ _ _ _ Ha (nosep_not_abs _ Hb)).
  now rewrite (split_sep_plain _ Hb).
Qed.

Lemma plain_nosep b : plain_name b = true -> has_char sep_char b = false.
Proof.
  unfold plain_name. intros Hb. repeat (apply andb_true_iff in Hb as [Hb _]).
  now apply negb_true_iff in Hb.
Qed.

Lemma truthy_join a b : truthy a = true -> plain_name b = true -> truthy (join a b) = true.
Proof.
  intros Ha Hb. unfold join.
  destruct (startswith b "/").
  - unfold plain_name in Hb. destruct b; [discriminate|reflexivity].
  - destruct (_ || _); now apply truthy_app.
Qed.

(** What exists under [join a b] lies in the directory [a]. *)
Lemma stat_join cwd t a b n :
  truthy a = true -> plain_name b = true ->
  stat cwd t (join a b) = inr n ->
  exists q, resolve cwd t a = inr q /\ is_dir_at t q = true
            /\ lookup (q ++ [b]) t = Some n.
Proof.
  intros Ha Hb. unfold stat. rewrite (resolve_join _ _ _ _ Ha (plain_nosep _ Hb)).
  destruct (resolve cwd t a) as [e|q]; [discriminate|].
  rewrite (walk_plain _ _ _ Hb).
  destruct (lookup q t) as [[| |es]|] eqn:Hq; try discriminate.
  intros H. exists q. split; [reflexivity|]. split.
  - unfold is_dir_at. now rewrite Hq.
  - destruct (lookup (q ++ [b]) t) as [[| |]|]; try discriminate;
      inversion H; reflexivity.
Qed.

Lemma stat_dir_exists cwd t a q :
  resolve cwd t a = inr q -> is_dir_at t q = true -> path_exists cwd t a = true.
Proof.
  unfold path_exists, stat, is_dir_at. intros -> H.
  destruct (lookup q t) as [[| |]|]; try discriminate. reflexivity.
Qed.

Lemma within_refl q : within q q = true.
Proof. induction q as [|s q IH]; [reflexivity|]. cbn. now rewrite String.eqb_refl. Qed.

Lemma within_app q r : within q (q ++ r) = true.
Proof. induction q as [|s q IH]; [reflexivity|]. cbn. now rewrite String.eqb_refl. Qed.

(** A name made by [os.path.basename], unless it is [..], leads into the
    root folder or to the root folder itself. *)
Lemma sanitized_stays_in_root cwd t root raw q p :
  truthy root = true -> basename raw <> ".."%string ->
  resolve cwd t root = inr q ->
  resolve cwd t (join root (basename raw)) = inr p ->
  within q p = true.
Proof.
  intros Hr Hne Hq Hp.
  rewrite (resolve_join _ _ _ _ Hr (basename_no_sep raw)), Hq in Hp.
  rewrite walk_from_cons in Hp.
  destruct (lookup q t) as [[| |es]|]; try discriminate.
  destruct (_ || _).
  - inversion Hp; subst. apply within_refl.
  - destruct (String.eqb (basename raw) "..") eqn:E.
    + apply String.eqb_eq in E. contradiction.
    + inversion Hp; subst. apply within_app.
Qed.

(** What exists under [join a b], for a relative [b], is reached through
    [a]: the folder [a] exists. *)
Lemma exists_join_parent cwd t a b :
  truthy a = true -> startswith b "/" = false ->
  path_exists cwd t (join a b) = true -> path_exists cwd t a = true.
Proof.
  intros Ha Hb. unfold path_exists at 1, stat.
  rewrite (resolve_join_relative _ _ _ _ Ha Hb).
  destruct (resolve cwd t a) as [e|q] eqn:Hq; [discriminate|].
  pose proof (split_sep_nonempty b) as Hne.
  destruct (split_sep b) as [|s r]; [congruence|].
  rewrite walk_from_cons.
  destruct (lookup q t) as [[| |es]|] eqn:Hl; try discriminate.
  intros _. apply (stat_dir_exists _ _ _ q Hq). unfold is_dir_at. now rewrite Hl.
Qed.

End PathFacts.

(** Trees that grow: [os.mkdir] and [os.makedirs]. *)
Module TreeFacts.
Import Py OsPath Fs Notions FsFacts PyFacts PathFacts.
Local Open Scope list_scope.

Lemma keeps_dirs_refl t : keeps_dirs t t.
Proof. intros q H; exact H. Qed.

Lemma keeps_dirs_trans t1 t2 t3 :
  keeps_dirs t1 t2 -> keeps_dirs t2 t3 -> keeps_dirs t1 t3.
Proof. intros H12 H23 q H. apply H23, H12, H. Qed.

Lemma put_new_keeps_dirs p x : forall t,
  lookup p t = None -> keeps_dirs t (put p x t).
Proof.
  induction p as [|s r IH]; intros t Hp q Hq; [discriminate|].
  destruct t as [d m| |es]; try exact Hq.
  simpl in Hp |- *. destruct (assoc s es) as [c|] eqn:Hs.
  - destruct q as [|s' q']; [reflexivity|].
    unfold is_dir_at in *. simpl in *.
    destruct (string_dec s' s) as [->|Hne].
    + rewrite assoc_replace_same, Hs. rewrite Hs in Hq. apply (IH c Hp q' Hq).
    + rewrite (assoc_replace_other _ _ _ _ Hne). exact Hq.
  - destruct r as [|s2 r2]; [|exact Hq].
    destruct q as [|s' q']; [reflexivity|].
    unfold is_dir_at in *. simpl in *. rewrite (assoc_app_new _ _ _ _ Hs).
    destruct (String.eqb s s') eqn:E; [|exact Hq].
    apply String.eqb_eq in E; subst s'. rewrite Hs in Hq. discriminate.
Qed.

Lemma put_empty_dir_keeps_dirs p x : forall t,
  lookup p t = Some (Dir []) -> is_dir x = true -> keeps_dirs t (put p x t).
Proof.
  induction p as [|s r IH]; intros t Hp Hx q Hq.
  - simpl in *. inversion Hp; subst t. destruct q as [|s' q'].
    + unfold is_dir_at. simpl. destruct x; try discriminate. reflexivity.
    + unfold is_dir_at in Hq. simpl in Hq. discriminate.
  - destruct t as [d m| |es]; try discriminate.
    simpl in Hp |- *. destruct (assoc s es) as [c|] eqn:Hs; [|discriminate].
    destruct q as [|s' q']; [reflexivity|].
    unfold is_dir_at in *. simpl in *.
    destruct (string_dec s' s) as [->|Hne].
    + rewrite assoc_replace_same, Hs. rewrite Hs in Hq. apply (IH c Hp Hx q' Hq).
    + rewrite (assoc_replace_other _ _ _ _ Hne). exact Hq.
Qed.

Lemma mkdir_spec t p t' :
  mkdir t p = inr t' ->
  lookup p t = None /\ is_dir_at t (parent p) = true /\ t' = put p (Dir []) t.
Proof.
  unfold mkdir, is_dir_at. destruct (lookup p t); [discriminate|].
  destruct (lookup (parent p) t) as [[| |es]|]; try discriminate.
  intros H; inversion H; auto.
Qed.

Lemma mkdir_made t p t' :
  mkdir t p = inr t' -> keeps_dirs t t' /\ lookup p t' = Some (Dir []).
Proof.
  intros H. apply mkdir_spec in H as (Hn & Hd & ->). split.
  - now apply put_new_keeps_dirs.
  - apply lookup_put_same. now right.
Qed.

Lemma makedirs_from_cons t cur fresh s r :
  makedirs_from t cur fresh (s :: r) =
  let move t' made :=
    if orb (String.eqb s "") (String.eqb s ".") then makedirs_from t' cur made r
    else if String.eqb s ".." then makedirs_from t' (parent cur) false r
    else makedirs_from t' (cur ++ [s]) false r in
  match lookup cur t with
  | Some (Dir _) => move t fresh
  | Some (File _ _) => inl ENOTDIR
  | Some Dangling => inl ENOENT
  | None => match mkdir t cur with
            | inr t' => move t' true
            | inl e => inl e
            end
  end.
Proof. reflexivity. Qed.

Lemma is_dir_at_lookup t q n : lookup q t = Some n -> is_dir n = true -> is_dir_at t q = true.
Proof. unfold is_dir_at. intros ->. destruct n; auto. Qed.

(** [os.makedirs] ends with a new, empty directory where the path leads. *)
Lemma makedirs_from_spec segs : forall t cur fresh t1,
  (fresh = true -> lookup cur t = Some (Dir [])) ->
  makedirs_from t cur fresh segs = inr t1 ->
  keeps_dirs t t1 /\
  exists p, walk_from t1 cur segs = inr p /\ lookup p t1 = Some (Dir []).
Proof.
  induction segs as [|s r IH]; intros t cur fresh t1 Hf H.
  - simpl in H. destruct (lookup cur t) as [n|] eqn:Hc.
    + destruct fresh; [|discriminate]. inversion H; subst t1.
      split; [apply keeps_dirs_refl|]. exists cur. split; [reflexivity|].
      rewrite Hc. now apply Hf.
    + apply mkdir_made in H as [Hk Hl]. split; [exact Hk|].
      exists cur. split; [reflexivity|exact Hl].
  - rewrite makedirs_from_cons in H. cbv zeta in H.
    assert (Hstep : forall t' made,
      keeps_dirs t t' -> is_dir_at t' cur = true ->
      (made = true -> lookup cur t' = Some (Dir [])) ->
      (if orb (String.eqb s "") (String.eqb s ".") then makedirs_from t' cur made r
       else if String.eqb s ".." then makedirs_from t' (parent cur) false r
       else makedirs_from t' (cur ++ [s]) false r) = inr t1 ->
      keeps_dirs t t1 /\
      exists p, walk_from t1 cur (s :: r) = inr p /\ lookup p t1 = Some (Dir [])).
    { intros t' made Hk Hd Hm Hrun.
      assert (Hgo : exists cur' made',
                 makedirs_from t' cur' made' r = inr t1 /\
                 (made' = true -> lookup cur' t' = Some (Dir [])) /\
                 forall t2, is_dir_at t2 cur = true ->
                            walk_from t2 cur (s :: r) = walk_from t2 cur' r).
      { destruct (orb (String.eqb s "") (String.eqb s ".")) eqn:E1.
        - exists cur, made. repeat split; auto.
          intros t2 H2. rewrite walk_from_cons, E1. unfold is_dir_at in H2.
          destruct (lookup cur t2) as [[| |]|]; try discriminate. reflexivity.
        - destruct (String.eqb s "..") eqn:E2.
          + exists (parent cur), false. repeat split; auto; try discriminate.
            intros t2 H2. rewrite walk_from_cons, E1, E2. unfold is_dir_at in H2.
            destruct (lookup cur t2) as [[| |]|]; try discriminate. reflexivity.
          + exists (cur ++ [s]), false. repeat split; auto; try discriminate.
            intros t2 H2. rewrite walk_from_cons, E1, E2. unfold is_dir_at in H2.
            destruct (lookup cur t2) as [[| |]|]; try discriminate. reflexivity. }
      destruct Hgo as (cur' & made' & Hrun' & Hm' & Hwalk).
      destruct (IH _ _ _ _ Hm' Hrun') as (Hk' & p & Hw & Hl).
      split; [eapply keeps_dirs_trans; eauto|].
      exists p. split; [|exact Hl].
      rewrite Hwalk; [exact Hw|]. apply Hk', Hd. }
    destruct (lookup cur t) as [[d m| |es]|] eqn:Hc; try discriminate.
    + apply (Hstep t fresh).
      * apply keeps_dirs_refl.
      * unfold is_dir_at. now rewrite Hc.
      * intros Hfr. rewrite Hc. apply Hf, Hfr.
      * exact H.
    + destruct (mkdir t cur) as [e|t'] eqn:Hmk; [discriminate|].
      apply mkdir_made in Hmk as [Hk Hl].
      apply (Hstep t' true).
      * exact Hk.
      * eapply is_dir_at_lookup; [exact Hl|reflexivity].
      * intros _. exact Hl.
      * exact H.
Qed.

Lemma makedirs_spec cwd t dst t1 :
  makedirs cwd t dst = inr t1 ->
  keeps_dirs t t1 /\
  exists p, resolve cwd t1 dst = inr p /\ lookup p t1 = Some (Dir []).
Proof.
  unfold makedirs, resolve. destruct (negb (truthy dst)); [discriminate|].
  apply makedirs_from_spec. discriminate.
Qed.

Lemma resolve_mono cwd t t' path p :
  keeps_dirs t t' -> resolve cwd t path = inr p -> resolve cwd t' path = inr p.
Proof.
  unfold resolve. destruct (negb (truthy path)); [discriminate|].
  intros Hk. now apply walk_from_mono.
Qed.

End TreeFacts.

(** The decoder under [errors='ignore']. *)
Module CodecFacts.
Import Codec.

(** With [errors='ignore'] the decoder returns a text for every sequence of
    bytes. *)
Lemma decode_ignore_total bs : forall need lo hi pend,
  exists text, decode ignore need lo hi pend bs = Some text.
Proof.
  induction bs as [|c r IH]; intros need lo hi pend.
  - destruct need; cbn; eauto.
  - assert (Hfresh : exists text,
      (if Nat.ltb (nat_of_ascii c) 128
       then option_map (String c) (decode ignore 0 0 0 EmptyString r)
       else match lead (nat_of_ascii c) with
            | Some (n, l, h) => decode ignore n l h (String c EmptyString) r
            | None => on_error ignore (decode ignore 0 0 0 EmptyString r)
            end) = Some text).
    { destruct (Nat.ltb (nat_of_ascii c) 128).
      - destruct (IH 0 0 0 EmptyString) as [x ->]. cbn. eauto.
      - destruct (lead (nat_of_ascii c)) as [[[n l] h]|].
        + apply IH.
        + cbn. apply IH. }
    cbn [decode]. destruct need as [|k]; [exact Hfresh|].
    destruct (between lo (nat_of_ascii c) hi).
    + destruct k as [|k'].
      * destruct (IH 0 0 0 EmptyString) as [x ->]. cbn. eauto.
      * apply IH.
    + cbn [on_error]. exact Hfresh.
Qed.

Lemma read_text_ignore_total bs : exists text, read_text ignore bs = Some text.
Proof.
  unfold read_text, utf8_decode.
  destruct (decode_ignore_total bs 0 0 0 EmptyString) as [x ->]. cbn. eauto.
Qed.

End CodecFacts.

(* ================================================================== *)
(** * The operations, step by step *)
(* ================================================================== *)

(** The functions of the inventory, one call at a time. *)
Module Steps.
Import Py OsPath Fs Sys Os Audit Notions More.
Import FsFacts PyFacts PathFacts TreeFacts.
Local Open Scope list_scope.
Local Open Scope string_scope.

Ltac run :=
  cbv beta iota zeta delta
    [bind ret raise when get_fs set_fs time emit exists_ os_call
     try_except log_info log_warning log_error printed] in *.

Section WithConfig.
Variable cfg : config.
Variable plat : platform.

Lemma get_fullpath_ok name r w :
  path_exists (cwd plat) (fs w) (join (AUDIT_FOLDER cfg) name) = true ->
  get_fullpath cfg plat name r w = (Ok (join (AUDIT_FOLDER cfg) name), w).
Proof. intros H. unfold get_fullpath. run. rewrite H. reflexivity. Qed.

Lemma get_fullpath_lax name w :
  get_fullpath cfg plat name false w = (Ok (join (AUDIT_FOLDER cfg) name), w).
Proof. unfold get_fullpath. run. rewrite andb_false_r. reflexivity. Qed.

Lemma get_fullpath_missing name w :
  path_exists (cwd plat) (fs w) (join (AUDIT_FOLDER cfg) name) = false ->
  get_fullpath cfg plat name true w =
  (Raise (Exception ("Audit folder does not exist : " ++ join (AUDIT_FOLDER cfg) name)), w).
Proof. intros H. unfold get_fullpath. run. rewrite H. reflexivity. Qed.

Lemma append_nil_r (s : string) : s ++ "" = s.
Proof. induction s; simpl; congruence. Qed.


Lemma cat_app (l1 l2 : list string) : cat (l1 ++ l2) = cat l1 ++ cat l2.
Proof.
  induction l1 as [|x l1 IH]; [reflexivity|].
  cbn [cat app]. now rewrite IH, append_assoc.
Qed.

(* ---- opening and closing a file ---- *)

Lemma opened_same_dirs truncate now p t q :
  regular_or_absent (lookup p t) = true ->
  is_dir_at (opened truncate now p t) q = is_dir_at t q.
Proof.
  intros Hr. unfold opened.
  destruct (lookup p t) as [[d m| |es]|] eqn:Hp; try discriminate.
  - destruct truncate; [|reflexivity].
    apply put_file_is_dir. now rewrite Hp.
  - apply put_file_is_dir. now rewrite Hp.
Qed.

Lemma anchored_same_dirs t t' p :
  (forall q, is_dir_at t' q = is_dir_at t q) -> anchored t p -> anchored t' p.
Proof. intros H [Hp|Hp]; [now left|right]. now rewrite H. Qed.

Lemma opened_lookup truncate now p t :
  anchored t p -> regular_or_absent (lookup p t) = true ->
  exists m, lookup p (opened truncate now p t) =
            Some (File (if truncate then "" else content_of (lookup p t)) m).
Proof.
  intros Ha Hr. unfold opened.
  destruct (lookup p t) as [[d m| |es]|] eqn:Hp; try discriminate.
  - destruct truncate.
    + exists now. now apply lookup_put_same.
    + exists m. exact Hp.
  - exists now. rewrite (lookup_put_same _ _ _ Ha). now destruct truncate.
Qed.

Lemma open_for_writing_ok truncate path w p :
  resolve (cwd plat) (fs w) path = inr p ->
  regular_or_absent (lookup p (fs w)) = true ->
  exists w1, open_for_writing plat truncate path w = (Ok p, w1)
             /\ fs w1 = opened truncate (clock w) p (fs w)
             /\ clock w1 = clock w /\ console w1 = console w.
Proof.
  intros Hres Hreg. pose proof (resolve_anchored _ _ _ _ Hres) as Ha.
  unfold open_for_writing, opened. run. rewrite Hres.
  destruct (lookup p (fs w)) as [[d m| |es]|] eqn:Hp; try discriminate.
  - destruct truncate; eexists; repeat split; reflexivity.
  - destruct Ha as [->|Ha]; [discriminate|]. unfold is_dir_at in Ha.
    destruct (lookup (parent p) (fs w)) as [[| |]|]; try discriminate.
    eexists; repeat split; reflexivity.
Qed.

Lemma open_for_writing_inv truncate path w p w1 :
  open_for_writing plat truncate path w = (Ok p, w1) ->
  resolve (cwd plat) (fs w) path = inr p
  /\ regular_or_absent (lookup p (fs w)) = true
  /\ fs w1 = opened truncate (clock w) p (fs w)
  /\ clock w1 = clock w /\ console w1 = console w.
Proof.
  unfold open_for_writing, opened. run.
  destruct (resolve (cwd plat) (fs w) path) as [e|p0] eqn:Hres; [discriminate|].
  destruct (lookup p0 (fs w)) as [[d m| |es]|] eqn:Hp; try discriminate.
  - destruct truncate; intros H; inversion H; subst; rewrite Hp; repeat split.
  - destruct (lookup (parent p0) (fs w)) as [[| |]|]; try discriminate.
    intros H; inversion H; subst; rewrite Hp; repeat split.
Qed.

Lemma close_run f buffer w :
  close f buffer w =
  (Ok tt, mkWorld (put f (File (content_of (lookup f (fs w)) ++ buffer) (clock w)) (fs w))
                  (clock w) (console w)).
Proof.
  unfold close. run. destruct (lookup f (fs w)) as [[d m| |es]|]; reflexivity.
Qed.

(* ---- the inventory scan ---- *)

Lemma entry_write t audit_path root file buffer :
  entry plat t audit_path root file buffer
  = write (line_of plat t audit_path (root, file)) buffer.
Proof.
  unfold entry, line_of, error_line. cbn [fst snd].
  destruct (describe plat t audit_path (join root file)) as [e|line]; [reflexivity|].
  destruct (Codec.encode_error line) as [[[c a] b]|] eqn:Hline;
    unfold write; rewrite Hline; reflexivity.
Qed.

Lemma write_all_app a : forall b buffer,
  write_all (a ++ b) buffer =
  match write_all a buffer with
  | (Ok _, buffer') => write_all b buffer'
  | (Raise e, buffer') => (Raise e, buffer')
  end.
Proof.
  induction a as [|x a IH]; intros b buffer; [reflexivity|].
  cbn [app write_all]. destruct (write x buffer) as [[[]|e] buffer']; [apply IH|reflexivity].
Qed.

Lemma scan_files_spec t audit_path root files : forall buffer,
  scan_files plat t audit_path root files buffer =
  write_all (map (line_of plat t audit_path)
               (filter (fun rf => negb (String.eqb (snd rf) log_name))
                       (map (pair root) files))) buffer.
Proof.
  induction files as [|file rest IH]; intros buffer; cbn [scan_files map filter];
    [reflexivity|].
  cbn [snd]. destruct (String.eqb file log_name); cbn [negb]; [apply IH|].
  cbn [map write_all]. rewrite entry_write.
  destruct (write _ buffer) as [[[]|e] buffer']; [apply IH|reflexivity].
Qed.

Lemma scan_dirs_spec t audit_path dirs : forall buffer,
  scan_dirs plat t audit_path dirs buffer =
  write_all (map (line_of plat t audit_path) (inventory dirs)) buffer.
Proof.
  induction dirs as [|[root files] rest IH]; intros buffer; cbn [scan_dirs];
    [reflexivity|].
  unfold inventory, pairs. cbn [flat_map fst snd].
  rewrite filter_app, map_app, write_all_app, scan_files_spec.
  destruct (write_all _ buffer) as [[[]|e] buffer']; [apply IH|reflexivity].
Qed.

Lemma with_log_spec t mode name audit_path now buffer :
  with_log plat t mode name audit_path now buffer
  = write_all (block_texts plat t mode name audit_path now) buffer.
Proof.
  unfold with_log, block_texts, tag. cbn [write_all].
  destruct (write _ buffer) as [[[]|e] b1]; [|reflexivity].
  destruct (write _ b1) as [[[]|e] b2]; [|reflexivity].
  destruct (write _ b2) as [[[]|e] b3]; [|reflexivity].
  apply scan_dirs_spec.
Qed.

(** What a sequence of writes leaves: the texts before the first that is
    refused, and the error of that one. *)
Lemma write_all_inv texts : forall buffer r buffer',
  write_all texts buffer = (r, buffer') ->
  exists done rest,
    texts = (done ++ rest)%list
    /\ buffer' = buffer ++ cat done
    /\ Forall (fun text => Codec.encodable text = true) done
    /\ match r with
       | Ok _ => rest = []
       | Raise e =>
           exists text rest' c a b,
             rest = text :: rest'
             /\ Codec.encode_error text = Some (c, a, b)
             /\ e = UnicodeEncodeError c a b
       end.
Proof.
  induction texts as [|x texts IH]; intros buffer r buffer' H.
  - cbn in H. inversion H; subst. exists [], []. cbn [cat app].
    rewrite append_nil_r. repeat split; constructor.
  - cbn [write_all] in H. unfold write in H.
    destruct (Codec.encode_error x) as [[[c a] b]|] eqn:Hx.
    + inversion H; subst. exists [], (x :: texts). cbn [cat app].
      rewrite append_nil_r. repeat split; [constructor|].
      exists x, texts, c, a, b. repeat split. exact Hx.
    + destruct (IH _ _ _ H) as (done & rest & Ht & Hb & Hd & Hr).
      exists (x :: done), rest. subst texts. cbn [cat app].
      rewrite Hb, append_assoc. repeat split; [|exact Hr].
      constructor; [|exact Hd]. unfold Codec.encodable. now rewrite Hx.
Qed.

Lemma write_all_ok texts : forall buffer,
  Forall (fun text => Codec.encodable text = true) texts ->
  write_all texts buffer = (Ok tt, buffer ++ cat texts).
Proof.
  induction texts as [|x texts IH]; intros buffer H; cbn [write_all cat].
  - now rewrite append_nil_r.
  - inversion H as [|? ? Hx Hr]; subst. unfold write. unfold Codec.encodable in Hx.
    destruct (Codec.encode_error x); [discriminate|].
    rewrite (IH _ Hr). now rewrite append_assoc.
Qed.

Lemma write_all_done texts buffer buffer' :
  write_all texts buffer = (Ok tt, buffer') -> buffer' = buffer ++ cat texts.
Proof.
  intros H. destruct (write_all_inv _ _ _ _ H) as (done & rest & Ht & Hb & _ & Hr).
  subst rest. rewrite app_nil_r in Ht. now subst.
Qed.

Lemma generate_run name mode w :
  let audit_path := join (AUDIT_FOLDER cfg) name in
  let log_file := join (join audit_path "logs") log_name in
  generate_audit_file_log cfg plat name mode w =
  if path_exists (cwd plat) (fs w) audit_path then
    match open_for_writing plat false log_file w with
    | (Ok p, w1) => logged cfg plat mode name log_file p w1
    | (Raise e, w1) => (Raise e, w1)
    end
  else (Raise (Exception ("Audit folder does not exist : " ++ audit_path)), w).
Proof.
  intros audit_path log_file. unfold generate_audit_file_log.
  unfold bind at 1.
  destruct (path_exists (cwd plat) (fs w) audit_path) eqn:Hp.
  - rewrite (get_fullpath_ok _ _ _ Hp). fold audit_path. fold log_file.
    unfold bind at 1.
    destruct (open_for_writing plat false log_file w) as [[p|e] w1]; [|reflexivity].
    unfold bind at 1. unfold time at 1. cbv beta iota.
    unfold bind at 1. unfold get_fs at 1. cbv beta iota zeta.
    unfold logged. cbv zeta. fold audit_path. rewrite with_log_spec.
    destruct (write_all _ EmptyString) as [[[]|e] text];
      unfold bind at 1; rewrite close_run; cbv beta iota; reflexivity.
  - rewrite (get_fullpath_missing _ _ Hp). reflexivity.
Qed.

(** The outcome and the world of [logged]. *)
Lemma logged_inv mode name log_file p w1 r w' :
  logged cfg plat mode name log_file p w1 = (r, w') ->
  exists text,
    write_all (block_texts plat (fs w1) mode name (join (AUDIT_FOLDER cfg) name)
                 (clock w1)) EmptyString = (r, text)
    /\ fs w' = put p (File (content_of (lookup p (fs w1)) ++ text) (clock w1)) (fs w1)
    /\ clock w' = clock w1
    /\ console w' =
       (console w1 ++
        match r with
        | Ok _ => [Print ("[+] Generated audit file list (" ++ mode ++ ") at: "
                          ++ log_file) green]
        | Raise _ => []
        end)%list.
Proof.
  unfold logged. cbv zeta.
  destruct (write_all _ EmptyString) as [[[]|e] text]; intros H; inversion H; subst;
    exists text; cbn [fs clock console]; repeat split.
  now rewrite app_nil_r.
Qed.

Lemma path_exists_truthy cwd0 t path :
  path_exists cwd0 t path = true -> truthy path = true.
Proof.
  unfold path_exists, stat, resolve. destruct (truthy path); [reflexivity|].
  discriminate.
Qed.

Lemma isdir_inv cwd0 t path :
  isdir cwd0 t path = true ->
  exists q, resolve cwd0 t path = inr q /\ is_dir_at t q = true.
Proof.
  unfold isdir, stat, is_dir_at.
  destruct (resolve cwd0 t path) as [e|q]; [discriminate|].
  destruct (lookup q t) as [[| |es]|] eqn:Hq; try discriminate.
  intros _. exists q. now rewrite Hq.
Qed.

Lemma isdir_intro cwd0 t path q :
  resolve cwd0 t path = inr q -> is_dir_at t q = true -> isdir cwd0 t path = true.
Proof.
  unfold isdir, stat, is_dir_at. intros ->.
  destruct (lookup q t) as [[| |es]|]; try discriminate. reflexivity.
Qed.

Lemma isdir_exists cwd0 t path :
  isdir cwd0 t path = true -> path_exists cwd0 t path = true.
Proof.
  unfold isdir, path_exists. destruct (stat cwd0 t path) as [e|[| |]]; try discriminate.
  reflexivity.
Qed.

(** A file directly in an existing directory resolves to an entry of it. *)
Lemma resolve_in_dir cwd0 t a b q :
  truthy a = true -> plain_name b = true ->
  resolve cwd0 t a = inr q -> is_dir_at t q = true ->
  resolve cwd0 t (join a b) = inr (q ++ [b])%list.
Proof.
  intros Ha Hb Hres Hd. rewrite (resolve_join _ _ _ _ Ha (plain_nosep _ Hb)), Hres.
  rewrite (walk_plain _ _ _ Hb). unfold is_dir_at in Hd.
  destruct (lookup q t) as [[| |es]|]; try discriminate. reflexivity.
Qed.

Lemma isdir_parent cwd0 t a b :
  truthy a = true -> plain_name b = true ->
  isdir cwd0 t (join a b) = true -> isdir cwd0 t a = true.
Proof.
  intros Ha Hb Hd. apply isdir_inv in Hd as (q & Hres & _).
  rewrite (resolve_join _ _ _ _ Ha (plain_nosep _ Hb)) in Hres.
  destruct (resolve cwd0 t a) as [e|qa] eqn:Hqa; [discriminate|].
  rewrite (walk_plain _ _ _ Hb) in Hres.
  eapply isdir_intro; [exact Hqa|]. unfold is_dir_at.
  destruct (lookup qa t) as [[| |es]|]; try discriminate. reflexivity.
Qed.

(** Two trees with the same directories resolve paths alike. *)
Lemma resolve_same_dirs cwd0 t t' path p :
  (forall q, is_dir_at t' q = is_dir_at t q) ->
  resolve cwd0 t path = inr p -> resolve cwd0 t' path = inr p.
Proof.
  intros H. apply resolve_mono. intros q Hq. now rewrite H.
Qed.

Lemma isdir_same_dirs cwd0 t t' path :
  (forall q, is_dir_at t' q = is_dir_at t q) ->
  isdir cwd0 t path = true -> isdir cwd0 t' path = true.
Proof.
  intros H Hd. apply isdir_inv in Hd as (q & Hres & Hq).
  eapply isdir_intro; [eapply resolve_same_dirs; eauto|]. now rewrite H.
Qed.

Lemma inventory_in dirs root file :
  In (root, file) (inventory dirs) <->
  In (root, file) (pairs dirs) /\ file <> log_name.
Proof.
  unfold inventory. rewrite filter_In. cbn [snd].
  rewrite negb_true_iff, String.eqb_neq. reflexivity.
Qed.

(** A file that cannot be examined gets the error line of its failure. *)
Lemma line_of_unreadable t audit_path root file code :
  stat (cwd plat) t (join root file) = inl code ->
  line_of plat t audit_path (root, file)
  = "ERROR reading " ++ file ++ ": " ++ str (OSError code (join root file)) ++ nl.
Proof.
  intros H. unfold line_of, error_line, describe, getsize. cbn [fst snd].
  now rewrite H.
Qed.

Lemma header_block mode name now body :
  header plat mode name now ++ body =
  nl ++ "=== Audit File Inventory (" ++ upper mode ++ " SESSION) ===" ++ nl
  ++ "Audit: " ++ name ++ nl
  ++ "Generated: " ++ ctime plat now ++ nl ++ nl ++ body.
Proof. unfold header. rewrite !append_assoc. reflexivity. Qed.


(** A block that is written whole. *)
Lemma block_whole t mode name audit_path now text :
  write_all (block_texts plat t mode name audit_path now) EmptyString = (Ok tt, text) ->
  text = header plat mode name now ++ inventory_body plat t audit_path.
Proof.
  intros H. apply write_all_done in H. rewrite H. unfold block_texts.
  cbn [cat]. change (EmptyString ++ ?x) with x.
  rewrite header_block. unfold inventory_body, tag.
  rewrite !append_assoc. reflexivity.
Qed.

(** The run of [generate_audit_file_log] on a project laid out as it
    should be: the log is opened, and what the block could write is added
    to it, whether the block ends or raises. *)
Lemma generate_ok name mode w p :
  let audit_path := join (AUDIT_FOLDER cfg) name in
  let log_file := join (join audit_path "logs") log_name in
  path_exists (cwd plat) (fs w) audit_path = true ->
  resolve (cwd plat) (fs w) log_file = inr p ->
  regular_or_absent (lookup p (fs w)) = true ->
  exists w1 r text w',
    generate_audit_file_log cfg plat name mode w = (r, w')
    /\ fs w1 = opened false (clock w) p (fs w)
    /\ write_all (block_texts plat (fs w1) mode name audit_path (clock w)) EmptyString
       = (r, text)
    /\ fs w' = put p (File (content_of (lookup p (fs w)) ++ text) (clock w)) (fs w1)
    /\ lookup p (fs w') = Some (File (content_of (lookup p (fs w)) ++ text) (clock w))
    /\ (forall q, is_dir_at (fs w') q = is_dir_at (fs w) q)
    /\ clock w' = clock w
    /\ console w' =
       (console w ++
        match r with
        | Ok _ => [Print ("[+] Generated audit file list (" ++ mode ++ ") at: "
                          ++ log_file) green]
        | Raise _ => []
        end)%list.
Proof.
  intros audit_path log_file Hp Hres Hreg.
  destruct (open_for_writing_ok false log_file w p Hres Hreg)
    as (w1 & Hopen & Hfs & Hclock & Hcons).
  pose proof (resolve_anchored _ _ _ _ Hres) as Ha.
  destruct (opened_lookup false (clock w) p (fs w) Ha Hreg) as [m Hm].
  assert (Hsame : forall q, is_dir_at (fs w1) q = is_dir_at (fs w) q).
  { intros q. rewrite Hfs. now apply opened_same_dirs. }
  destruct (logged cfg plat mode name log_file p w1) as [r w'] eqn:Hlog.
  destruct (logged_inv _ _ _ _ _ _ _ Hlog) as (text & Hw & Hfs' & Hclock' & Hcons').
  fold audit_path in Hw. rewrite Hclock in Hw, Hfs', Hclock'.
  rewrite Hfs in Hfs' at 1. rewrite Hm in Hfs'. cbn [content_of] in Hfs'.
  exists w1, r, text, w'. repeat split.
  - rewrite generate_run. fold audit_path. fold log_file. now rewrite Hp, Hopen.
  - exact Hfs.
  - exact Hw.
  - exact Hfs'.
  - rewrite Hfs'. apply lookup_put_same. eapply anchored_same_dirs; eauto.
  - intros q. rewrite Hfs', <- Hsame. apply put_file_is_dir. rewrite Hfs, Hm. exact I.
  - exact Hclock'.
  - rewrite Hcons', Hcons. reflexivity.
Qed.

(* ---- the two sessions ---- *)

Lemma start_run name w :
  start cfg plat name w =
  match generate_audit_file_log cfg plat name "start" (start_announced name w) with
  | (Ok _, wg) =>
      (Ok tt,
       mkWorld (fs wg) (clock wg)
         (console wg
          ++ (if SCREENSHOTS cfg
              then [Print "[!] Screenshot automation not supported natively on Windows in this version." yellow]
              else [])
          ++ (if GIT_AUTOCOMMIT cfg
              then [Print "[+] Git auto-commit active (manual Windows scheduling required)." green]
              else [])
          ++ [Print "[+] Audit session started. You can now perform your tasks." green;
              Print "[+] Use 'python audit.py stop <audit_name>' to end the session."
                    green]))
  | (Raise e, wg) => (Raise e, wg)
  end.
Proof.
  unfold start.
  unfold bind at 1, log_info at 1, emit at 1. cbv beta iota.
  unfold bind at 1, log_info at 1, emit at 1. cbv beta iota.
  cbn [fs clock console]. unfold bind at 1.
  change (mkWorld (fs w) (clock w) _) with (start_announced name w).
  destruct (generate_audit_file_log cfg plat name "start" (start_announced name w))
    as [[[]|e] wg]; [|reflexivity].
  run. destruct (SCREENSHOTS cfg), (GIT_AUTOCOMMIT cfg);
    cbn [fs clock console]; repeat rewrite <- app_assoc; reflexivity.
Qed.

Lemma stop_run name w :
  stop cfg plat name w =
  match generate_audit_file_log cfg plat name "stop" (stop_announced name w) with
  | (Ok _, wg) =>
      (Ok tt,
       mkWorld (fs wg) (clock wg)
         (console wg
          ++ [Print "[+] Audit stopped. All evidence logs and notes remain in the project folder."
                    green]))
  | (Raise e, wg) => (Raise e, wg)
  end.
Proof.
  unfold stop.
  unfold bind at 1, log_info at 1, emit at 1. cbv beta iota.
  cbn [fs clock console]. unfold bind at 1.
  change (mkWorld (fs w) (clock w) _) with (stop_announced name w).
  destruct (generate_audit_file_log cfg plat name "stop" (stop_announced name w))
    as [[[]|e] wg]; reflexivity.
Qed.

End WithConfig.
End Steps.


(** The functions of the export, one call at a time. *)
Module ExportFacts.
Import Py OsPath Fs Sys Os Audit Notions.
Import FsFacts PyFacts PathFacts TreeFacts Steps CodecFacts.
Local Open Scope list_scope.
Local Open Scope string_scope.

Section WithConfig.
Variable cfg : config.
Variable plat : platform.

Lemma read_file_run pol path w :
  read_file plat pol path w =
  match read_bytes plat (fs w) path with
  | inl e => (Raise e, w)
  | inr d => match Codec.read_text pol d with
             | Some text => (Ok text, w)
             | None => (Raise (ValueError "'utf-8' codec can't decode bytes"), w)
             end
  end.
Proof.
  unfold read_file. run. destruct (read_bytes plat (fs w) path) as [e|d]; [reflexivity|].
  destruct (Codec.read_text pol d); reflexivity.
Qed.

Lemma export_files_spec root files : forall all_logs w res w',
  export_files plat root files all_logs w = (res, w') ->
  w' = w /\
  forall all, res = Ok all ->
    let logs := filter (fun rf => endswith (snd rf) ".log") (map (pair root) files) in
    all = all_logs ++ blocks plat (fs w) logs
    /\ forall rf, In rf logs ->
         exists d, read_bytes plat (fs w) (join (fst rf) (snd rf)) = inr d
                   /\ Codec.read_text Codec.ignore d = Some (text_of plat (fs w) rf).
Proof.
  induction files as [|file rest IH]; intros all_logs w res w' H.
  - cbn in H. inversion H; subst. split; [reflexivity|].
    intros all Hall. inversion Hall; subst. cbn. split.
    + now rewrite append_nil_r.
    + intros rf [].
  - cbn [export_files] in H. cbn [map filter snd].
    destruct (endswith file ".log") eqn:E.
    + unfold bind at 1 in H. rewrite read_file_run in H.
      destruct (read_bytes plat (fs w) (join root file)) as [e|d] eqn:Hd.
      { inversion H; subst. split; [reflexivity|]. intros all Hall. discriminate. }
      destruct (Codec.read_text Codec.ignore d) as [text|] eqn:Ht.
      2:{ inversion H; subst. split; [reflexivity|]. intros all Hall. discriminate. }
      destruct (IH _ _ _ _ H) as [-> Hrest]. split; [reflexivity|].
      intros all Hall. destruct (Hrest all Hall) as [Heq Hread].
      assert (Htext : text_of plat (fs w) (root, file) = text).
      { unfold text_of. cbn [fst snd]. now rewrite Hd, Ht. }
      split.
      * rewrite Heq. unfold blocks. cbn [map cat snd]. rewrite Htext.
        unfold log_block. rewrite !append_assoc. reflexivity.
      * intros rf [<-|Hin]; [|now apply Hread].
        exists d. cbn [fst snd]. rewrite Htext. now split.
    + apply (IH _ _ _ _ H).
Qed.

Lemma export_dirs_spec dirs : forall all_logs w res w',
  export_dirs plat dirs all_logs w = (res, w') ->
  w' = w /\
  forall all, res = Ok all ->
    all = all_logs ++ blocks plat (fs w) (matched dirs)
    /\ forall rf, In rf (matched dirs) ->
         exists d, read_bytes plat (fs w) (join (fst rf) (snd rf)) = inr d
                   /\ Codec.read_text Codec.ignore d = Some (text_of plat (fs w) rf).
Proof.
  induction dirs as [|[root files] rest IH]; intros all_logs w res w' H.
  - cbn in H. inversion H; subst. split; [reflexivity|].
    intros all Hall. inversion Hall; subst. cbn. split.
    + now rewrite append_nil_r.
    + intros rf [].
  - cbn [export_dirs] in H. unfold bind at 1 in H.
    destruct (export_files plat root files all_logs w) as [[mid|e] w1] eqn:Hf.
    + destruct (export_files_spec _ _ _ _ _ _ Hf) as [-> Hmid].
      destruct (Hmid mid eq_refl) as [Hmid_eq Hmid_read].
      destruct (IH _ _ _ _ H) as [-> Hrest]. split; [reflexivity|].
      intros all Hall. destruct (Hrest all Hall) as [Heq Hread].
      unfold matched, pairs. cbn [flat_map fst snd]. rewrite filter_app.
      split.
      * rewrite Heq, Hmid_eq. unfold blocks, matched, pairs.
        rewrite map_app, cat_app, append_assoc. reflexivity.
      * intros rf Hin. apply in_app_or in Hin as [Hin|Hin];
          [now apply Hmid_read|now apply Hread].
    + destruct (export_files_spec _ _ _ _ _ _ Hf) as [-> _].
      inversion H; subst. split; [reflexivity|]. intros all Hall. discriminate.
Qed.

(** Nothing to read: the walk goes through and gathers nothing. *)
Lemma export_files_none root files : forall all_logs w,
  (forall file, In file files -> endswith file ".log" = false) ->
  export_files plat root files all_logs w = (Ok all_logs, w).
Proof.
  induction files as [|file rest IH]; intros all_logs w H; [reflexivity|].
  cbn [export_files]. rewrite (H file (or_introl eq_refl)).
  apply IH. intros f Hf. apply H. now right.
Qed.

Lemma export_dirs_none dirs : forall all_logs w,
  (forall root file, In (root, file) (pairs dirs) -> endswith file ".log" = false) ->
  export_dirs plat dirs all_logs w = (Ok all_logs, w).
Proof.
  induction dirs as [|[root files] rest IH]; intros all_logs w H; [reflexivity|].
  cbn [export_dirs]. unfold bind at 1. rewrite export_files_none.
  - apply IH. intros r f Hin. apply (H r f). unfold pairs. cbn [flat_map].
    apply in_or_app. now right.
  - intros f Hf. apply (H root f). unfold pairs. cbn [flat_map fst snd].
    apply in_or_app. left. now apply in_map.
Qed.

Lemma export_run name w :
  let audit_path := join (AUDIT_FOLDER cfg) name in
  let shell_dir := join (join audit_path "logs") "shell" in
  let html_file := join audit_path "shell_log.html" in
  path_exists (cwd plat) (fs w) audit_path = true ->
  path_exists (cwd plat) (fs w) shell_dir = true ->
  export_shell_log cfg plat name w =
  match export_dirs plat (os_walk (cwd plat) (fs w) shell_dir) "" w with
  | (Ok all_logs, w0) =>
      match open_for_writing plat true html_file w0 with
      | (Ok p, w1) => (Ok tt, exported all_logs html_file p w1)
      | (Raise e, w1) => (Raise e, w1)
      end
  | (Raise e, w0) => (Raise e, w0)
  end.
Proof.
  intros audit_path shell_dir html_file Hp Hs. unfold export_shell_log.
  unfold bind at 1. rewrite (get_fullpath_ok _ _ _ _ _ Hp).
  fold audit_path. fold shell_dir. fold html_file.
  unfold bind at 1. unfold exists_ at 1. unfold bind at 1. unfold get_fs at 1, ret at 1.
  rewrite Hs. cbn [negb].
  unfold bind at 1. unfold get_fs at 1.
  unfold bind at 1.
  destruct (export_dirs plat (os_walk (cwd plat) (fs w) shell_dir) "" w)
    as [[all_logs|e] w0]; [|reflexivity].
  unfold bind at 1.
  destruct (open_for_writing plat true html_file w0) as [[p|e] w1]; [|reflexivity].
  unfold bind at 1. rewrite close_run. reflexivity.
Qed.

Lemma exists_parent_isdir cwd0 t a b :
  truthy a = true -> plain_name b = true ->
  path_exists cwd0 t (join a b) = true -> isdir cwd0 t a = true.
Proof.
  intros Ha Hb H. unfold path_exists in H.
  destruct (stat cwd0 t (join a b)) as [e|n] eqn:Hst; [discriminate|].
  destruct (stat_join _ _ _ _ _ Ha Hb Hst) as (q & Hq & Hd & _).
  eapply isdir_intro; eauto.
Qed.

End WithConfig.
End ExportFacts.

(* ================================================================== *)
(** * The properties *)
(* ================================================================== *)

(** The dispatcher, [init] on an existing name, and the inventory. *)
Module Claims.
Import Py OsPath Fs Sys Os Audit Notions More.
Import FsFacts PyFacts PathFacts TreeFacts Steps.
Local Open Scope list_scope.
Local Open Scope string_scope.

(** C6. When the project exists and has no [logs/shell], [export] prints an
    error and returns: the file system is what it was, so no HTML file is
    written and an earlier export is not touched. *)
Theorem export_without_shell_dir cfg plat name w :
  let audit_path := join (AUDIT_FOLDER cfg) name in
  let shell_dir := join (join audit_path "logs") "shell" in
  path_exists (cwd plat) (fs w) audit_path = true ->
  path_exists (cwd plat) (fs w) shell_dir = false ->
  export_shell_log cfg plat name w =
  (Ok tt, printed w (Print ("[X] No shell logs found in " ++ shell_dir) red)).
Proof.
  intros audit_path shell_dir Hp Hs. unfold export_shell_log.
  unfold bind at 1. rewrite (get_fullpath_ok _ _ _ _ _ Hp).
  run. fold audit_path. fold shell_dir. rewrite Hs. reflexivity.
Qed.

(** C3. [init] on a name whose project path exists raises the
    "already exists" error and leaves the world, files and console, as it
    was. *)
Theorem init_existing_target cfg plat name w :
  let fullpath := join (AUDIT_FOLDER cfg) name in
  path_exists (cwd plat) (fs w) (AUDIT_FOLDER cfg) = true ->
  path_exists (cwd plat) (fs w) fullpath = true ->
  init cfg plat name w =
  (Raise (Exception ("Audit folder already exists: " ++ fullpath)), w).
Proof.
  intros fullpath Hr Hp. unfold init.
  unfold bind at 1. unfold exists_ at 1. run. rewrite Hr. cbn [negb].
  rewrite get_fullpath_lax. fold fullpath. rewrite Hp. reflexivity.
Qed.

(** What the entry point does with an exception of the dispatched
    operation: it prints it and the process ends with status 0. *)
Lemma main_after_exception cfg plat args w e w1 :
  member (action args) ["init"; "start"; "stop"; "export"; "list"] = true ->
  (member (action args) ["init"; "start"; "stop"; "export"] = true ->
   given (audit_name args) = true) ->
  dispatch cfg plat (action args)
    (match audit_name args with
     | Some s => if truthy s then basename s else s
     | None => ""
     end) w = (Raise e, w1) ->
  main cfg plat args w = (0%Z, printed w1 (Print ("[X] " ++ str e) red)).
Proof.
  intros Hact Hname Hrun. unfold main. rewrite Hact. cbn [negb].
  destruct (member (action args) ["init"; "start"; "stop"; "export"]) eqn:E.
  - rewrite (Hname eq_refl). cbn [negb andb]. rewrite Hrun. reflexivity.
  - cbn [andb]. rewrite Hrun. reflexivity.
Qed.

(** C2. The entry point catches the exception of a failed operation,
    prints it, and falls off the end of the script: the exit status is 0,
    not 1.  Here [init] is run on a project that exists. *)
Theorem failed_init_exits_zero :
  init Demo.cfg0 Demo.plat0 "acme" Demo.w0 =
    (Raise (Exception "Audit folder already exists: /srv/audits/acme"), Demo.w0)
  /\ main Demo.cfg0 Demo.plat0 (mkArgs "init" (Some "acme")) Demo.w0 =
     (0%Z, printed Demo.w0
             (Print "[X] Audit folder already exists: /srv/audits/acme" red)).
Proof. split; vm_compute; reflexivity. Qed.

(** C1. The name [..] is its own base name, so it reaches the operations as
    it was given: [start ..] takes the parent of the root folder for the
    project and writes its inventory to [/srv/logs/audit_file_list.txt],
    a file that did not exist and that lies outside the root
    [/srv/audits]. *)
Theorem dotdot_escapes_root :
  let outside := ["srv"; "logs"; "audit_file_list.txt"] in
  let w' := snd (main Demo.cfg0 Demo.plat0 (mkArgs "start" (Some "..")) Demo.w0) in
  basename ".." = ".."
  /\ resolve (cwd Demo.plat0) (fs Demo.w0) (AUDIT_FOLDER Demo.cfg0) = inr ["srv"; "audits"]
  /\ within ["srv"; "audits"] outside = false
  /\ lookup outside (fs Demo.w0) = None
  /\ exists text, lookup outside (fs w') = Some (File text 100)
                  /\ startswith text
                       (nl ++ "=== Audit File Inventory (START SESSION) ===" ++ nl
                        ++ "Audit: .." ++ nl) = true.
Proof.
  cbv zeta. repeat split; try (vm_compute; reflexivity).
  eexists. split; vm_compute; reflexivity.
Qed.

(** C9. The scan leaves out a file by its name alone: the texts it writes
    are those of the files of the walk whose name is not
    [audit_file_list.txt], whichever directory lists them, in the order of
    the walk and up to the first that cannot be written; when the scan
    ends they are all written. *)
Theorem self_exclusion_is_by_name plat t audit_path buffer :
  let dirs := os_walk (cwd plat) t audit_path in
  let lines := map (line_of plat t audit_path) (inventory dirs) in
  scan_dirs plat t audit_path dirs buffer = write_all lines buffer
  /\ (exists done rest,
        lines = (done ++ rest)%list
        /\ snd (scan_dirs plat t audit_path dirs buffer) = buffer ++ cat done
        /\ (fst (scan_dirs plat t audit_path dirs buffer) = Ok tt -> rest = []))
  /\ (forall root file,
        In (root, file) (inventory dirs) <->
        In (root, file) (pairs dirs) /\ file <> log_name)
  /\ (forall root, ~ In (root, log_name) (inventory dirs)).
Proof.
  intros dirs lines. split; [apply scan_dirs_spec|].
  split.
  - rewrite scan_dirs_spec. fold lines.
    destruct (write_all lines buffer) as [r buffer'] eqn:H.
    destruct (write_all_inv _ _ _ _ H) as (done & rest & Hl & Hb & _ & Hr).
    exists done, rest. cbn [fst snd]. repeat split; [exact Hl|exact Hb|].
    intros ->. exact Hr.
  - split; [intros root file; apply inventory_in|].
    intros root H. apply inventory_in in H as [_ H]. now apply H.
Qed.

(** C8. A file that cannot be examined and whose name cannot be encoded
    ends the scan.  The project [odd] lists, after [.audit] and [a.txt], a
    link that leads nowhere and is named by the bytes 62 90, and then
    [z.txt].  [os.path.getsize] fails on the link, the handler of the
    error cannot write its line, for the name is in it, and the exception
    of that write leaves [start]: the log holds the header and the lines
    of the first two files, no error line and no line for [z.txt]. *)
Theorem undecodable_name_ends_scan :
  let run := start cfg_plain Demo.plat0 "odd" w_odd in
  let log := ["srv"; "audits"; "odd"; "logs"; "audit_file_list.txt"] in
  let files := inventory (os_walk [] (fs (snd run)) "/srv/audits/odd") in
  getsize Demo.plat0 t_odd ("/srv/audits/odd/" ++ odd_name)
  = inl (OSError ENOENT ("/srv/audits/odd/" ++ odd_name))
  /\ files = [("/srv/audits/odd", ".audit"); ("/srv/audits/odd", "a.txt");
              ("/srv/audits/odd", odd_name); ("/srv/audits/odd", "z.txt")]
  /\ fst run = Raise (UnicodeEncodeError (ascii_of_nat 144) 15 16)
  /\ (exists text,
        lookup log (fs (snd run)) = Some (File text 300)
        /\ text = header Demo.plat0 "start" "odd" 300
                  ++ line_of Demo.plat0 t_odd "/srv/audits/odd"
                       ("/srv/audits/odd", ".audit")
                  ++ line_of Demo.plat0 t_odd "/srv/audits/odd"
                       ("/srv/audits/odd", "a.txt")
        /\ contains text "ERROR reading" = false
        /\ contains text "z.txt" = false)
  /\ main cfg_plain Demo.plat0 (mkArgs "start" (Some "odd")) w_odd
     = (0%Z,
        printed (snd run)
          (Print ("[X] 'utf-8' codec can't encode character '"
                  ++ String backslash "udc90' in position 15: surrogates not allowed")
                 red)).
Proof.
  cbv zeta. split; [vm_compute; reflexivity|]. split; [vm_compute; reflexivity|].
  split; [vm_compute; reflexivity|]. split; [|vm_compute; reflexivity].
  eexists. split; [vm_compute; reflexivity|].
  split; [vm_compute; reflexivity|]. split; vm_compute; reflexivity.
Qed.



End Claims.

(** The export. *)
Module ExportClaims.
Import Py OsPath Fs Sys Os Audit Notions.
Import FsFacts PyFacts PathFacts TreeFacts Steps CodecFacts ExportFacts.
Local Open Scope list_scope.
Local Open Scope string_scope.

(** The page is written where [audit_path/shell_log.html] leads, over
    whatever regular file was there. *)
Lemma export_writes_page cfg plat name w all_logs :
  let audit_path := join (AUDIT_FOLDER cfg) name in
  let shell_dir := join (join audit_path "logs") "shell" in
  let html_file := join audit_path "shell_log.html" in
  path_exists (cwd plat) (fs w) audit_path = true ->
  path_exists (cwd plat) (fs w) shell_dir = true ->
  export_dirs plat (os_walk (cwd plat) (fs w) shell_dir) "" w = (Ok all_logs, w) ->
  forall res w',
  export_shell_log cfg plat name w = (res, w') ->
  exists p, resolve (cwd plat) (fs w) html_file = inr p /\
    (regular_or_absent (lstat (cwd plat) (fs w) html_file) = true ->
     res = Ok tt /\ lookup p (fs w') = Some (File (page all_logs) (clock w))) /\
    (res = Ok tt ->
     lookup p (fs w') = Some (File (page all_logs) (clock w))).
Proof.
  intros audit_path shell_dir html_file Hp Hs Hdirs res w' Hrun.
  pose proof (path_exists_truthy _ _ _ Hp) as Htr.
  assert (Hplain1 : plain_name "logs" = true) by reflexivity.
  assert (Hplain2 : plain_name "shell" = true) by reflexivity.
  assert (Hplain3 : plain_name "shell_log.html" = true) by reflexivity.
  pose proof (truthy_join _ _ Htr Hplain1) as Htr1.
  pose proof (exists_parent_isdir _ _ _ _ Htr1 Hplain2 Hs) as Hlogs.
  pose proof (isdir_parent _ _ _ _ Htr Hplain1 Hlogs) as Hap.
  destruct (isdir_inv _ _ _ Hap) as (q & Hq & Hqd).
  pose proof (resolve_in_dir _ _ _ _ _ Htr Hplain3 Hq Hqd) as Hres.
  fold html_file in Hres. set (p := (q ++ ["shell_log.html"])%list) in *.
  exists p. split; [exact Hres|].
  rewrite (export_run cfg plat name w Hp Hs) in Hrun.
  fold audit_path shell_dir html_file in Hrun. rewrite Hdirs in Hrun.
  pose proof (resolve_anchored _ _ _ _ Hres) as Ha.
  assert (Hdone : forall w1,
    regular_or_absent (lookup p (fs w)) = true ->
    fs w1 = opened true (clock w) p (fs w) -> clock w1 = clock w ->
    lookup p (fs (exported all_logs html_file p w1))
    = Some (File (page all_logs) (clock w))).
  { intros w1 Hreg Hfs Hclock.
    destruct (opened_lookup true (clock w) p (fs w) Ha Hreg) as [m Hm].
    unfold exported. cbn [fs]. rewrite Hclock, Hfs, Hm. cbn [content_of append].
    apply lookup_put_same. eapply anchored_same_dirs; [|exact Ha].
    intros q0. now apply opened_same_dirs. }
  split.
  - intros Hreg. unfold lstat in Hreg. rewrite Hres in Hreg.
    destruct (open_for_writing_ok plat true html_file w p Hres Hreg)
      as (w1 & Hopen & Hfs & Hclock & _).
    rewrite Hopen in Hrun. inversion Hrun; subst. split; [reflexivity|].
    now apply Hdone.
  - intros ->.
    destruct (open_for_writing plat true html_file w) as [[p0|e] w1] eqn:Hopen;
      [|discriminate].
    apply open_for_writing_inv in Hopen as (Hres0 & Hreg & Hfs & Hclock & _).
    rewrite Hres in Hres0. inversion Hres0; subst p0.
    inversion Hrun; subst. now apply Hdone.
Qed.

(** C10. With a [logs/shell] that holds no file ending in [.log], [export]
    writes [shell_log.html] in the project folder all the same, over any
    earlier export: the page holds the empty wrapper and nothing else. *)
Theorem export_without_logs cfg plat name w :
  let audit_path := join (AUDIT_FOLDER cfg) name in
  let shell_dir := join (join audit_path "logs") "shell" in
  let html_file := join audit_path "shell_log.html" in
  path_exists (cwd plat) (fs w) audit_path = true ->
  path_exists (cwd plat) (fs w) shell_dir = true ->
  (forall root file,
     In (root, file) (pairs (os_walk (cwd plat) (fs w) shell_dir)) ->
     endswith file ".log" = false) ->
  regular_or_absent (lstat (cwd plat) (fs w) html_file) = true ->
  exists p w',
    export_shell_log cfg plat name w = (Ok tt, w')
    /\ resolve (cwd plat) (fs w) html_file = inr p
    /\ lookup p (fs w') =
       Some (File "<html><body><pre></pre></body></html>" (clock w)).
Proof.
  intros audit_path shell_dir html_file Hp Hs Hnone Hreg.
  pose proof (export_dirs_none plat _ "" w Hnone) as Hdirs.
  destruct (export_shell_log cfg plat name w) as [res w'] eqn:Hrun.
  destruct (export_writes_page cfg plat name w "" Hp Hs Hdirs res w' Hrun)
    as (p & Hres & Hok & _).
  destruct (Hok Hreg) as [-> Hlook].
  exists p, w'. repeat split; assumption.
Qed.

(** C4, as the program has it. Reading a log never fails on its bytes: with
    [errors='ignore'] the bytes that cannot be decoded are left out, and the
    text that remains is what the page holds, each file under its separator
    lines and its name. *)
Theorem export_drops_undecodable_bytes cfg plat name w w' :
  let audit_path := join (AUDIT_FOLDER cfg) name in
  let shell_dir := join (join audit_path "logs") "shell" in
  let html_file := join audit_path "shell_log.html" in
  path_exists (cwd plat) (fs w) shell_dir = true ->
  export_shell_log cfg plat name w = (Ok tt, w') ->
  (forall bytes, exists text, Codec.read_text Codec.ignore bytes = Some text)
  /\ exists p,
      resolve (cwd plat) (fs w) html_file = inr p /\
      let logs := matched (os_walk (cwd plat) (fs w) shell_dir) in
      lookup p (fs w') = Some (File (page (blocks plat (fs w) logs)) (clock w))
      /\ forall rf, In rf logs ->
           exists bytes,
             read_bytes plat (fs w) (join (fst rf) (snd rf)) = inr bytes
             /\ Codec.read_text Codec.ignore bytes = Some (text_of plat (fs w) rf).
Proof.
  intros audit_path shell_dir html_file Hs Hrun.
  split; [exact read_text_ignore_total|].
  assert (Hp : path_exists (cwd plat) (fs w) audit_path = true).
  { destruct (path_exists (cwd plat) (fs w) audit_path) eqn:Hp; [reflexivity|].
    unfold export_shell_log in Hrun. unfold bind at 1 in Hrun.
    rewrite (get_fullpath_missing _ _ _ _ Hp) in Hrun. discriminate. }
  pose proof Hrun as Hrun'.
  rewrite (export_run cfg plat name w Hp Hs) in Hrun'.
  fold audit_path shell_dir html_file in Hrun'.
  destruct (export_dirs plat (os_walk (cwd plat) (fs w) shell_dir) "" w)
    as [[all_logs|e] w0] eqn:Hdirs; [|discriminate].
  destruct (export_dirs_spec plat _ _ _ _ _ Hdirs) as [-> Hall].
  destruct (Hall all_logs eq_refl) as [Heq Hread]. clear Hrun'.
  destruct (export_writes_page cfg plat name w all_logs Hp Hs Hdirs _ _ Hrun)
    as (p & Hres & _ & Hok).
  exists p. split; [exact Hres|]. cbv zeta. split.
  - rewrite (Hok eq_refl), Heq. reflexivity.
  - exact Hread.
Qed.

(** C4, against the claim. The log [b.log] holds the byte 0x90 between [a]
    and [b], a byte that stands for no character.  Were such bytes replaced,
    the page would hold the text of every log with U+FFFD in their place;
    for [b.log] that text is [a], U+FFFD, [b], and the page holds [ab]. *)
Lemma export_does_not_substitute :
  let w' := snd (export_shell_log Demo.cfg0 Demo.plat0 "acme" Demo.w0) in
  let shell_dir := "/srv/audits/acme/logs/shell" in
  let place := ["srv"; "audits"; "acme"; "shell_log.html"] in
  lookup place (fs w')
  = Some (File (page (log_block "a.log" "whoami" ++ log_block "b.log" "ab")) 100)
  /\ ~ (forall rf,
          In rf (matched (os_walk (cwd Demo.plat0) (fs Demo.w0) shell_dir)) ->
          exists bytes text html mtime,
            read_bytes Demo.plat0 (fs Demo.w0) (join (fst rf) (snd rf)) = inr bytes
            /\ Codec.read_text Codec.replace bytes = Some text
            /\ lookup place (fs w') = Some (File html mtime)
            /\ contains html (log_block (snd rf) text) = true).
Proof.
  cbv zeta. split; [vm_compute; reflexivity|].
  intros H.
  destruct (H ("/srv/audits/acme/logs/shell", "b.log"))
    as (bytes & text & html & mtime & Hb & Ht & Hl & Hc).
  { vm_compute. right. left. reflexivity. }
  vm_compute in Hb. inversion Hb; subst bytes; clear Hb.
  vm_compute in Ht. inversion Ht; subst text; clear Ht.
  vm_compute in Hl. inversion Hl; subst html mtime; clear Hl.
  vm_compute in Hc. discriminate.
Qed.

End ExportClaims.

(** [init] and version control. *)
Module InitClaims.
Import Py OsPath Fs Sys Os Audit Notions.
Import FsFacts PyFacts PathFacts TreeFacts Steps.
Local Open Scope list_scope.
Local Open Scope string_scope.

(** When [shutil.copytree] returns, its destination is there. *)
Lemma copytree_creates plat src dst w w1 :
  copytree plat src dst w = (Ok tt, w1) ->
  path_exists (cwd plat) (fs w1) dst = true
  /\ clock w1 = clock w /\ console w1 = console w.
Proof.
  unfold copytree. run.
  destruct (stat (cwd plat) (fs w) src) as [e|n]; [discriminate|].
  destruct n as [d m| |es]; try discriminate.
  destruct (makedirs (cwd plat) (fs w) dst) as [e|t1] eqn:Hmk; [discriminate|].
  destruct (makedirs_spec _ _ _ _ Hmk) as (_ & p & Hres & Hempty).
  rewrite Hres.
  destruct (copy_errors src dst (Dir es)); [|discriminate].
  intros H. inversion H; subst w1; clear H. cbn [fs clock console].
  repeat split.
  assert (Hx : is_dir (copy_of (Dir es)) = true) by reflexivity.
  pose proof (put_empty_dir_keeps_dirs p _ _ Hempty Hx) as Hkeep.
  pose proof (resolve_mono _ _ _ _ _ Hkeep Hres) as Hres'.
  apply (stat_dir_exists _ _ _ p Hres').
  eapply is_dir_at_lookup; [|exact Hx].
  apply lookup_put_same, dir_anchored.
  eapply is_dir_at_lookup; [exact Hempty|reflexivity].
Qed.

Section Git.
Variable plat : platform.
Variable fullpath : string.

(** Version control does not remove the folder it is run on. *)
Hypothesis keeps_folder : forall args t,
  path_exists (cwd plat) t fullpath = true ->
  path_exists (cwd plat) (fst (check_output plat args t)) fullpath = true.

Lemma check_output_keeps args w res w' :
  subprocess_check_output plat args w = (res, w') ->
  path_exists (cwd plat) (fs w) fullpath = true ->
  path_exists (cwd plat) (fs w') fullpath = true.
Proof.
  unfold subprocess_check_output. run. intros H Hp.
  pose proof (keeps_folder args (fs w) Hp) as Hk.
  destruct (check_output plat args (fs w)) as [t' [msg|]];
    inversion H; subst; exact Hk.
Qed.

Lemma git_setup_keeps w res w' :
  git_setup plat fullpath w = (res, w') ->
  path_exists (cwd plat) (fs w) fullpath = true ->
  path_exists (cwd plat) (fs w') fullpath = true.
Proof.
  unfold git_setup. intros H Hp.
  unfold bind at 1 in H.
  destruct (subprocess_check_output plat ["git"; "init"; fullpath] w)
    as [[[]|e1] wa] eqn:H1;
    pose proof (check_output_keeps _ _ _ _ H1 Hp) as Hpa;
    [|inversion H; subst; exact Hpa].
  unfold bind at 1 in H.
  destruct (subprocess_check_output plat ["git"; "-C"; fullpath; "add"; "."] wa)
    as [[[]|e2] wb] eqn:H2;
    pose proof (check_output_keeps _ _ _ _ H2 Hpa) as Hpb;
    [|inversion H; subst; exact Hpb].
  eapply check_output_keeps; eauto.
Qed.

End Git.

(** C5. With auto-commit on, a failure of the version-control commands
    does not fail [init]: the exception is caught, a warning is printed,
    and [init] returns; the project folder made by the copy is there. *)
Theorem init_survives_git_failure cfg plat name w w1 e w2 :
  let fullpath := join (AUDIT_FOLDER cfg) name in
  GIT_AUTOCOMMIT cfg = true ->
  (forall args t,
     path_exists (cwd plat) t fullpath = true ->
     path_exists (cwd plat) (fst (check_output plat args t)) fullpath = true) ->
  path_exists (cwd plat) (fs w) (AUDIT_FOLDER cfg) = true ->
  path_exists (cwd plat) (fs w) fullpath = false ->
  copytree plat (join (INSTALL_FOLDER plat) "skel") fullpath w = (Ok tt, w1) ->
  git_setup plat fullpath w1 = (Raise e, w2) ->
  init cfg plat name w =
    (Ok tt,
     printed (printed w2 (Print ("[!] Git initialization failed: " ++ str e) yellow))
             (Print ("[+] Created audit project in " ++ fullpath) green))
  /\ path_exists (cwd plat) (fs w2) fullpath = true.
Proof.
  intros fullpath Hauto Hkeep Hroot Hnew Hcopy Hgit.
  destruct (copytree_creates _ _ _ _ _ Hcopy) as (Hmade & _ & _).
  pose proof (git_setup_keeps plat fullpath Hkeep _ _ _ Hgit Hmade) as Hthere.
  split; [|exact Hthere].
  unfold init. unfold bind at 1, exists_ at 1. run. rewrite Hroot. cbn [negb].
  rewrite get_fullpath_lax. fold fullpath. rewrite Hnew, Hcopy, Hauto, Hgit.
  cbn [fs clock console].
  rewrite get_fullpath_ok by exact Hthere. reflexivity.
Qed.

End InitClaims.

(** The properties at work on the small installation. *)
Module Witnesses.
Import Py OsPath Fs Sys Os Audit Notions Demo.
Import Claims ExportClaims InitClaims.
Local Open Scope list_scope.
Local Open Scope string_scope.

Lemma init_existing_target_witness :
  path_exists (cwd plat0) (fs w0) "/srv/audits" = true
  /\ path_exists (cwd plat0) (fs w0) "/srv/audits/acme" = true
  /\ init cfg0 plat0 "acme" w0 =
     (Raise (Exception "Audit folder already exists: /srv/audits/acme"), w0).
Proof.
  split; [vm_compute; reflexivity|]. split; [vm_compute; reflexivity|].
  apply (init_existing_target cfg0 plat0 "acme" w0); vm_compute; reflexivity.
Defined.

Lemma export_without_shell_dir_witness :
  path_exists (cwd plat0) (fs w0) "/srv/audits/noshell" = true
  /\ path_exists (cwd plat0) (fs w0) "/srv/audits/noshell/logs/shell" = false
  /\ export_shell_log cfg0 plat0 "noshell" w0 =
     (Ok tt, printed w0 (Print "[X] No shell logs found in /srv/audits/noshell/logs/shell" red)).
Proof.
  split; [vm_compute; reflexivity|]. split; [vm_compute; reflexivity|].
  apply (export_without_shell_dir cfg0 plat0 "noshell" w0); vm_compute; reflexivity.
Defined.

Lemma init_survives_git_failure_witness :
  let w1 := snd (copytree plat0 "/opt/audit/skel" "/srv/audits/fresh" w0) in
  let e := SubprocessError "Command 'git' returned non-zero exit status 127." in
  copytree plat0 "/opt/audit/skel" "/srv/audits/fresh" w0 = (Ok tt, w1)
  /\ git_setup plat0 "/srv/audits/fresh" w1 = (Raise e, w1)
  /\ init cfg0 plat0 "fresh" w0 =
     (Ok tt,
      printed (printed w1 (Print ("[!] Git initialization failed: " ++ str e) yellow))
              (Print "[+] Created audit project in /srv/audits/fresh" green))
  /\ path_exists (cwd plat0) (fs w1) "/srv/audits/fresh" = true.
Proof.
  intros w1 e. split; [vm_compute; reflexivity|]. split; [vm_compute; reflexivity|].
  apply (init_survives_git_failure cfg0 plat0 "fresh" w0 w1 e w1).
  - reflexivity.
  - intros args t H. exact H.
  - vm_compute; reflexivity.
  - vm_compute; reflexivity.
  - vm_compute; reflexivity.
  - vm_compute; reflexivity.
Defined.


Lemma export_without_logs_witness :
  path_exists (cwd plat0) (fs w0) "/srv/audits/bare" = true
  /\ path_exists (cwd plat0) (fs w0) "/srv/audits/bare/logs/shell" = true
  /\ matched (os_walk (cwd plat0) (fs w0) "/srv/audits/bare/logs/shell") = []
  /\ lookup ["srv"; "audits"; "bare"; "shell_log.html"] (fs w0)
     = Some (File "<html>an older export</html>" 12)
  /\ exists w',
       export_shell_log cfg0 plat0 "bare" w0 = (Ok tt, w')
       /\ lookup ["srv"; "audits"; "bare"; "shell_log.html"] (fs w')
          = Some (File "<html><body><pre></pre></body></html>" 100).
Proof.
  assert (Hproject : path_exists (cwd plat0) (fs w0) "/srv/audits/bare" = true)
    by (vm_compute; reflexivity).
  assert (Hshell : path_exists (cwd plat0) (fs w0) "/srv/audits/bare/logs/shell" = true)
    by (vm_compute; reflexivity).
  assert (Hold : lookup ["srv"; "audits"; "bare"; "shell_log.html"] (fs w0)
                 = Some (File "<html>an older export</html>" 12))
    by (vm_compute; reflexivity).
  split; [exact Hproject|]. split; [exact Hshell|].
  split; [vm_compute; reflexivity|]. split; [exact Hold|].
  destruct (export_without_logs cfg0 plat0 "bare" w0 Hproject Hshell)
    as (p & w' & Hrun & Hres & Hlook).
  - intros root file Hin. vm_compute in Hin.
    destruct Hin as [Hin|[]]. inversion Hin; subst. vm_compute; reflexivity.
  - vm_compute; reflexivity.
  - assert (Hp : p = ["srv"; "audits"; "bare"; "shell_log.html"]).
    { vm_compute in Hres. now inversion Hres. }
    subst p. exists w'. split; [exact Hrun|exact Hlook].
Defined.

Lemma export_drops_undecodable_bytes_witness :
  let w' := snd (export_shell_log cfg0 plat0 "acme" w0) in
  path_exists (cwd plat0) (fs w0) "/srv/audits/acme/logs/shell" = true
  /\ export_shell_log cfg0 plat0 "acme" w0 = (Ok tt, w')
  /\ lookup ["srv"; "audits"; "acme"; "shell_log.html"] (fs w')
     = Some (File (page (log_block "a.log" "whoami" ++ log_block "b.log" "ab")) 100).
Proof.
  intros w'.
  assert (Hs : path_exists (cwd plat0) (fs w0) "/srv/audits/acme/logs/shell" = true)
    by (vm_compute; reflexivity).
  assert (Hrun : export_shell_log cfg0 plat0 "acme" w0 = (Ok tt, w'))
    by (vm_compute; reflexivity).
  split; [exact Hs|]. split; [exact Hrun|].
  destruct (export_drops_undecodable_bytes cfg0 plat0 "acme" w0 w' Hs Hrun)
    as (_ & p & Hres & Hlook & _).
  assert (Hp : p = ["srv"; "audits"; "acme"; "shell_log.html"]).
  { vm_compute in Hres. now inversion Hres. }
  subst p. rewrite Hlook. vm_compute. reflexivity.
Defined.

End Witnesses.

(* ================================================================== *)
(** * Examples *)
(* ================================================================== *)

Module Examples.
Import Py OsPath Fs Sys Os Audit Notions Demo.
Local Open Scope list_scope.
Local Open Scope string_scope.

Example basename_traversal : basename "../x" = "x".
Proof. reflexivity. Qed.

Example basename_dotdot : basename ".." = "..".
Proof. reflexivity. Qed.

Example basename_trailing : basename "x/" = "".
Proof. reflexivity. Qed.

Example join_plain : join "/srv/audits" "acme" = "/srv/audits/acme".
Proof. reflexivity. Qed.

Example join_absolute : join "/srv/audits" "/etc" = "/etc".
Proof. reflexivity. Qed.

Example relpath_nested :
  relpath "/" "/srv/audits/acme/logs/shell/a.log" "/srv/audits/acme"
  = Some "logs/shell/a.log".
Proof. reflexivity. Qed.

Example normpath_dots : normpath "/srv//audits/./x/../acme/" = "/srv/audits/acme".
Proof. reflexivity. Qed.

Example fmt_kb_half_even : fmt_kb 128 = "      0.12".
Proof. reflexivity. Qed.

Example fmt_kb_2048 : fmt_kb 2048 = "      2.00".
Proof. reflexivity. Qed.

Example decode_ignore_drops :
  Codec.utf8_decode Codec.ignore ("a" ++ byte_90 ++ "b") = Some "ab".
Proof. reflexivity. Qed.

Example decode_strict_raises :
  Codec.utf8_decode Codec.strict ("a" ++ byte_90 ++ "b") = None.
Proof. reflexivity. Qed.

Example newlines_translated :
  Codec.read_text Codec.ignore
    ("a" ++ String Codec.CR (String Codec.LF "b") ++ String Codec.CR "c")
  = Some ("a" ++ nl ++ "b" ++ nl ++ "c").
Proof. reflexivity. Qed.

(** The walk of the project [acme], and what of it is inventoried: the link
    that cannot be examined is, the copy of the log kept under [evidence]
    is not. *)
Example acme_walk :
  pairs (os_walk (cwd plat0) t0 "/srv/audits/acme")
  = [("/srv/audits/acme", ".audit");
     ("/srv/audits/acme/logs/shell", "a.log");
     ("/srv/audits/acme/logs/shell", "b.log");
     ("/srv/audits/acme/logs/shell", "readme.txt");
     ("/srv/audits/acme/evidence", "link");
     ("/srv/audits/acme/evidence", "shot.png");
     ("/srv/audits/acme/evidence", "audit_file_list.txt")].
Proof. vm_compute. reflexivity. Qed.

Example acme_inventory :
  inventory (os_walk (cwd plat0) t0 "/srv/audits/acme")
  = [("/srv/audits/acme", ".audit");
     ("/srv/audits/acme/logs/shell", "a.log");
     ("/srv/audits/acme/logs/shell", "b.log");
     ("/srv/audits/acme/logs/shell", "readme.txt");
     ("/srv/audits/acme/evidence", "link");
     ("/srv/audits/acme/evidence", "shot.png")].
Proof. vm_compute. reflexivity. Qed.

Example acme_link_line :
  line_of plat0 t0 "/srv/audits/acme" ("/srv/audits/acme/evidence", "link")
  = "ERROR reading link: [Errno 2] No such file or directory: "
    ++ "'/srv/audits/acme/evidence/link'" ++ nl.
Proof. vm_compute. reflexivity. Qed.

Example acme_shot_line :
  line_of plat0 t0 "/srv/audits/acme" ("/srv/audits/acme/evidence", "shot.png")
  = ljust 80 "evidence/shot.png" ++ "        0.00 KB   Modified: T+10" ++ nl.
Proof. vm_compute. reflexivity. Qed.

(** The usage errors end the process with status 1. *)
Example invalid_action_exits_one :
  fst (main cfg0 plat0 (mkArgs "delete" (Some "acme")) w0) = 1%Z.
Proof. reflexivity. Qed.

Example missing_name_exits_one :
  main cfg0 plat0 (mkArgs "start" None) w0
  = (1%Z, printed w0 (Print "[X] Specify an audit name." red)).
Proof. reflexivity. Qed.

Example list_prints_projects :
  main cfg0 plat0 (mkArgs "list" None) w0
  = (0%Z, mkWorld t0 100 [Print "[+] acme" green; Print "[+] bare" green;
                          Print "[+] noshell" green]).
Proof. vm_compute. reflexivity. Qed.

End Examples.

(* ================================================================== *)
(** * More facts about trees *)
(* ================================================================== *)

(** What a write leaves alone, and what a copy holds. *)
Module FrameFacts.
Import Py OsPath Fs Notions FsFacts PyFacts PathFacts TreeFacts.
Local Open Scope list_scope.

(** Induction over a tree and the entries of its directories. *)
Lemma node_induction (P : node -> Prop) :
  (forall d m, P (File d m)) ->
  P Dangling ->
  (forall es, Forall (fun e => P (snd e)) es -> P (Dir es)) ->
  forall n, P n.
Proof.
  intros HF HL HD.
  fix IH 1. intros [d m| |es].
  - apply HF.
  - apply HL.
  - apply HD. induction es as [|[k c] es IHes]; constructor.
    + apply IH.
    + exact IHes.
Qed.

Lemma within_nil_r q : within q [] = true -> q = [].
Proof. destruct q; [reflexivity|discriminate]. Qed.

Lemma within_app_same a x y : within (a ++ x) (a ++ y) = within x y.
Proof.
  induction a as [|s a IH]; [reflexivity|].
  cbn. now rewrite String.eqb_refl, IH.
Qed.

Lemma lookup_app p : forall r t,
  lookup (p ++ r) t =
  match lookup p t with Some n => lookup r n | None => None end.
Proof.
  induction p as [|s p IH]; intros r t; [reflexivity|].
  cbn [app lookup]. destruct t as [| |es]; try reflexivity.
  destruct (assoc s es); [apply IH|reflexivity].
Qed.


(** A regular file written where there was none, or another, changes what
    is found at its place and above it, and nothing else. *)
Lemma put_file_frame p d m : forall t q,
  regular_or_absent (lookup p t) = true ->
  within q p = false ->
  lookup q (put p (File d m) t) = lookup q t.
Proof.
  induction p as [|s r IH]; intros t q Hreg Hqp.
  { destruct q as [|s' q']; [discriminate|].
    cbn in Hreg. destruct t; try discriminate. reflexivity. }
  destruct q as [|s' q']; [discriminate|].
  destruct t as [d0 m0| |es]; try reflexivity.
  cbn [within] in Hqp. cbn [put]. cbn [lookup] in Hreg.
  destruct (String.eqb s' s) eqn:E.
  - apply String.eqb_eq in E; subst s'. cbn [andb] in Hqp.
    destruct (assoc s es) as [c|] eqn:Hs.
    + cbn [lookup]. rewrite assoc_replace_same, Hs. now apply IH.
    + destruct r as [|s2 r2]; [|reflexivity].
      cbn [lookup]. rewrite (assoc_app_new _ _ _ _ Hs), String.eqb_refl, Hs.
      destruct q'; [discriminate|reflexivity].
  - assert (Hne : s' <> s) by (now apply String.eqb_neq).
    destruct (assoc s es) as [c|] eqn:Hs.
    + cbn [lookup]. now rewrite (assoc_replace_other _ _ _ _ Hne).
    + destruct r as [|s2 r2]; [|reflexivity].
      cbn [lookup]. rewrite (assoc_app_new _ _ _ _ Hs).
      rewrite String.eqb_sym, E. reflexivity.
Qed.






End FrameFacts.

(* ================================================================== *)
(** * The entry point and the listing *)
(* ================================================================== *)

Module EntryFacts.
Import Py OsPath Fs Sys Os Audit Notions More.
Import FsFacts PyFacts PathFacts TreeFacts Steps.
Local Open Scope list_scope.
Local Open Scope string_scope.

Lemma basename_plain b : has_char sep_char b = false -> basename b = b.
Proof. intros H. unfold basename. now rewrite (split_sep_plain _ H). Qed.

Lemma basename_idempotent p : basename (basename p) = basename p.
Proof. apply basename_plain, basename_no_sep. Qed.

Lemma basename_trailing_sep p : endswith p "/" = true -> basename p = "".
Proof.
  intros H. apply endswith_split in H as [p0 ->]. unfold basename.
  replace (p0 ++ "/") with (p0 ++ "/" ++ "") by reflexivity.
  rewrite split_sep_app_sep. cbn [split_sep]. apply last_last.
Qed.

Lemma endswith_truthy p s : endswith p s = true -> truthy s = true -> truthy p = true.
Proof.
  intros H Hs. apply endswith_split in H as [p0 ->].
  destruct p0; [exact Hs|reflexivity].
Qed.

(** X2. A usage error runs no operation and ends the process with status
    1, the files and the clock as they were.  An action that is not one of
    the five prints the message on the actions and then the help text; one
    of the four that take a project, given no name or an empty one, prints
    the message on the name and nothing else. *)
Theorem usage_error_runs_nothing cfg plat act name w :
  (member act ["init"; "start"; "stop"; "export"; "list"] = false ->
   main cfg plat (mkArgs act name) w =
   (1%Z, mkWorld (fs w) (clock w)
           (console w
            ++ [Print "[X] Invalid action. Use one of: init|start|stop|export|list" red;
                PrintHelp])%list))
  /\ (member act ["init"; "start"; "stop"; "export"] = true ->
      given name = false ->
      main cfg plat (mkArgs act name) w =
      (1%Z, mkWorld (fs w) (clock w)
              (console w ++ [Print "[X] Specify an audit name." red])%list)).
Proof.
  split.
  - intros H. unfold main. cbn [action]. rewrite H. cbn.
    rewrite <- app_assoc. reflexivity.
  - intros H Hname. unfold main. cbn [action audit_name].
    assert (Hall : member act ["init"; "start"; "stop"; "export"; "list"] = true).
    { unfold member in *. cbn [existsb] in *.
      destruct (String.eqb act "init"), (String.eqb act "start"),
        (String.eqb act "stop"), (String.eqb act "export");
        cbn in *; try reflexivity; discriminate. }
    rewrite Hall, H, Hname. reflexivity.
Qed.

(** X3. A name reaches the operations as its last component: a name with
    directories before it is run as that component alone would be. *)
Theorem name_runs_as_basename cfg plat act raw w :
  truthy (basename raw) = true ->
  main cfg plat (mkArgs act (Some raw)) w
  = main cfg plat (mkArgs act (Some (basename raw))) w.
Proof.
  intros Hb.
  assert (Hraw : truthy raw = true).
  { destruct raw; [discriminate|reflexivity]. }
  unfold main. cbn [action audit_name given]. rewrite Hraw, Hb.
  now rewrite basename_idempotent.
Qed.

(** X4. A name that ends in a separator is not missing, yet its last
    component is empty: the operations are given the empty name, and the
    project path they build is the root folder itself. *)
Theorem trailing_separator_names_root cfg plat raw w q :
  endswith raw "/" = true ->
  resolve (cwd plat) (fs w) (AUDIT_FOLDER cfg) = inr q ->
  is_dir_at (fs w) q = true ->
  given (Some raw) = true
  /\ basename raw = ""
  /\ get_fullpath cfg plat (basename raw) true w
     = (Ok (join (AUDIT_FOLDER cfg) ""), w)
  /\ resolve (cwd plat) (fs w) (join (AUDIT_FOLDER cfg) "") = inr q.
Proof.
  intros He Hq Hd.
  assert (Hroot : truthy (AUDIT_FOLDER cfg) = true).
  { unfold resolve in Hq. destruct (truthy (AUDIT_FOLDER cfg)); [reflexivity|discriminate]. }
  assert (Hres : resolve (cwd plat) (fs w) (join (AUDIT_FOLDER cfg) "") = inr q).
  { rewrite (resolve_join _ _ _ "" Hroot eq_refl), Hq, walk_stay.
    unfold is_dir_at in Hd. destruct (lookup q (fs w)) as [[| |]|]; try discriminate.
    reflexivity. }
  split; [exact (endswith_truthy _ _ He eq_refl)|].
  rewrite (basename_trailing_sep _ He). split; [reflexivity|]. split; [|exact Hres].
  apply get_fullpath_ok, (stat_dir_exists _ _ _ q Hres Hd).
Qed.

Section Listing.
Variable cfg : config.
Variable plat : platform.

Lemma list_each_run files : forall w,
  list_each cfg plat files w =
  (Ok tt, mkWorld (fs w) (clock w)
            (console w ++ map listed_line (filter (marked cfg plat (fs w)) files))%list).
Proof.
  induction files as [|file rest IH]; intros w.
  - cbn. rewrite app_nil_r. destruct w; reflexivity.
  - cbn [list_each filter]. unfold bind at 1, exists_ at 1.
    unfold bind at 1, get_fs at 1, ret at 1. unfold bind at 1.
    fold (marked cfg plat (fs w) file).
    destruct (marked cfg plat (fs w) file); cbn [when].
    + unfold log_info, emit. rewrite IH. cbn [fs clock console map].
      rewrite <- app_assoc. reflexivity.
    + unfold ret. apply IH.
Qed.

End Listing.

(** X5. [list] prints, in the order of the listing of the root folder, the
    entries that hold a marker file [.audit], and changes nothing. *)
Theorem list_prints_marked cfg plat w :
  isdir (cwd plat) (fs w) (AUDIT_FOLDER cfg) = true ->
  exists files,
    listdir (cwd plat) (fs w) (AUDIT_FOLDER cfg) = inr files
    /\ list_audits cfg plat w =
       (Ok tt, mkWorld (fs w) (clock w)
                 (console w
                  ++ map listed_line (filter (marked cfg plat (fs w)) files))%list).
Proof.
  intros Hd. unfold isdir in Hd. unfold listdir.
  destruct (stat (cwd plat) (fs w) (AUDIT_FOLDER cfg)) as [e|[| |es]] eqn:Hst;
    try discriminate.
  exists (map fst es). split; [reflexivity|].
  unfold list_audits. unfold bind at 1, exists_ at 1.
  unfold bind at 1, get_fs at 1, ret at 1. unfold path_exists. rewrite Hst.
  cbn [negb]. unfold bind at 1, get_fs at 1. unfold bind at 1.
  unfold listdir. rewrite Hst. unfold os_call, ret.
  apply list_each_run.
Qed.

(** X6. When the root folder is not a directory [list] raises and prints
    nothing: the missing-folder error when nothing is there, the error of
    [os.listdir] when a file is. *)
Theorem list_without_root_directory cfg plat w :
  isdir (cwd plat) (fs w) (AUDIT_FOLDER cfg) = false ->
  list_audits cfg plat w =
  (Raise (if path_exists (cwd plat) (fs w) (AUDIT_FOLDER cfg)
          then OSError ENOTDIR (AUDIT_FOLDER cfg)
          else Exception ("Main folder " ++ AUDIT_FOLDER cfg ++ " does not exist.")),
   w).
Proof.
  intros Hd. unfold isdir in Hd.
  unfold list_audits. unfold bind at 1, exists_ at 1.
  unfold bind at 1, get_fs at 1, ret at 1. unfold path_exists.
  destruct (stat (cwd plat) (fs w) (AUDIT_FOLDER cfg)) as [e|[d m| |es]] eqn:Hst;
    try discriminate; cbn [negb]; try reflexivity.
  - unfold bind at 1, get_fs at 1. unfold bind at 1.
    unfold listdir. rewrite Hst. reflexivity.
  - unfold stat in Hst.
    destruct (resolve (cwd plat) (fs w) (AUDIT_FOLDER cfg)) as [e|p]; [discriminate|].
    destruct (lookup p (fs w)) as [[| |]|]; discriminate.
Qed.

End EntryFacts.

(* ================================================================== *)
(** * The scaffolding of a project *)
(* ================================================================== *)

Module InitFacts.
Import Py OsPath Fs Sys Os Audit Notions More.
Import FsFacts PyFacts PathFacts TreeFacts Steps FrameFacts EntryFacts.
Local Open Scope list_scope.
Local Open Scope string_scope.

Lemma replace_replace s a b es : replace s a (replace s b es) = replace s a es.
Proof.
  induction es as [|[k v] es IH]; [reflexivity|]. cbn [replace].
  destruct (String.eqb k s) eqn:E; cbn [replace]; rewrite E; [reflexivity|].
  now rewrite IH.
Qed.

Lemma replace_new s x y es :
  assoc s es = None -> replace s x (es ++ [(s, y)])%list = (es ++ [(s, x)])%list.
Proof.
  induction es as [|[k v] es IH]; cbn; intros H.
  - now rewrite String.eqb_refl.
  - destruct (String.eqb k s); [discriminate|]. now rewrite IH.
Qed.


Section WithConfig.
Variable cfg : config.
Variable plat : platform.




(** [init] up to the copy: the two checks pass and [shutil.copytree] is
    run. *)
Lemma init_until_copy name w :
  path_exists (cwd plat) (fs w) (AUDIT_FOLDER cfg) = true ->
  path_exists (cwd plat) (fs w) (join (AUDIT_FOLDER cfg) name) = false ->
  init cfg plat name w =
  match copytree plat (join (INSTALL_FOLDER plat) "skel")
                 (join (AUDIT_FOLDER cfg) name) w with
  | (Ok _, w1) =>
      bind (when (GIT_AUTOCOMMIT cfg)
              (try_except (git_setup plat (join (AUDIT_FOLDER cfg) name))
                 (fun e => log_warning ("Git initialization failed: " ++ str e))))
           (fun _ =>
              bind (get_fullpath cfg plat name true)
                   (fun created => log_info ("Created audit project in " ++ created)))
           w1
  | (Raise e, w1) => (Raise e, w1)
  end.
Proof.
  intros Hr Hp. unfold init.
  unfold bind at 1. unfold exists_ at 1.
  unfold bind at 1, get_fs at 1, ret at 1. rewrite Hr. cbn [negb].
  unfold bind at 1. rewrite get_fullpath_lax.
  unfold bind at 1. unfold exists_ at 1.
  unfold bind at 1, get_fs at 1, ret at 1. rewrite Hp.
  unfold bind at 1.
  destruct (copytree plat _ _ w) as [[[]|e] w1]; reflexivity.
Qed.






End WithConfig.
End InitFacts.

(** What [init] makes, and what it leaves when it fails. *)
Module InitExtras.
Import Py OsPath Fs Sys Os Audit Notions More.
Import FsFacts PyFacts PathFacts TreeFacts Steps FrameFacts EntryFacts InitFacts.
Local Open Scope list_scope.
Local Open Scope string_scope.



(** X9. Without a skeleton directory [init] raises before anything is made:
    the world is as it was. *)
Theorem init_without_skeleton cfg plat name w :
  let skel := join (INSTALL_FOLDER plat) "skel" in
  path_exists (cwd plat) (fs w) (AUDIT_FOLDER cfg) = true ->
  path_exists (cwd plat) (fs w) (join (AUDIT_FOLDER cfg) name) = false ->
  isdir (cwd plat) (fs w) skel = false ->
  init cfg plat name w =
  (Raise (OSError (match stat (cwd plat) (fs w) skel with
                   | inl code => code
                   | inr _ => ENOTDIR
                   end) skel), w).
Proof.
  intros skel Hr Hp Hd. rewrite (init_until_copy cfg plat name w Hr Hp).
  fold skel. unfold copytree. run. unfold isdir in Hd.
  destruct (stat (cwd plat) (fs w) skel) as [code|[| |es]]; try reflexivity.
  discriminate.
Qed.


End InitExtras.

(* ================================================================== *)
(** * More on the inventory and the export *)
(* ================================================================== *)

Module SessionFacts.
Import Py OsPath Fs Sys Os Audit Notions More.
Import FsFacts PyFacts PathFacts TreeFacts CodecFacts Steps ExportFacts.
Import FrameFacts EntryFacts InitFacts.
Local Open Scope list_scope.
Local Open Scope string_scope.

(* ---- decoding what is well formed ---- *)

Lemma lead_expects b n l h : Codec.lead b = Some (n, l, h) -> n <> 0.
Proof.
  unfold Codec.lead.
  repeat match goal with
         | |- (if ?c then _ else _) = _ -> _ => destruct c
         end; intros H; inversion H; discriminate.
Qed.

(** What the strict decoder accepts, it returns as it is. *)
Lemma decode_strict_exact bs : forall need lo hi pend text,
  Codec.decode Codec.strict need lo hi pend bs = Some text ->
  text = (match need with O => EmptyString | S _ => pend end) ++ bs.
Proof.
  induction bs as [|c r IH]; intros need lo hi pend text H.
  - destruct need; cbn in H; [|discriminate]. now inversion H.
  - cbn [Codec.decode] in H.
    assert (Hfresh : forall text0,
      (if Nat.ltb (nat_of_ascii c) 128
       then option_map (String c) (Codec.decode Codec.strict 0 0 0 EmptyString r)
       else match Codec.lead (nat_of_ascii c) with
            | Some (n, l, h) => Codec.decode Codec.strict n l h (String c EmptyString) r
            | None => Codec.on_error Codec.strict
                        (Codec.decode Codec.strict 0 0 0 EmptyString r)
            end) = Some text0 -> text0 = String c r).
    { intros text0 H0. destruct (Nat.ltb (nat_of_ascii c) 128).
      - destruct (Codec.decode Codec.strict 0 0 0 EmptyString r) as [x|] eqn:Hx;
          [|discriminate].
        apply IH in Hx. cbn in Hx, H0. inversion H0. now subst.
      - destruct (Codec.lead (nat_of_ascii c)) as [[[n l] h]|] eqn:Hl; [|discriminate].
        apply lead_expects in Hl. destruct n as [|n']; [congruence|].
        apply IH in H0. exact H0. }
    destruct need as [|k].
    + cbn [append]. now apply Hfresh.
    + destruct (Codec.between lo (nat_of_ascii c) hi); [|discriminate].
      destruct k as [|k'].
      * destruct (Codec.decode Codec.strict 0 0 0 EmptyString r) as [x|] eqn:Hx;
          [|discriminate].
        apply IH in Hx. cbn in Hx, H. inversion H. subst.
        now rewrite append_assoc.
      * apply IH in H. rewrite H. now rewrite append_assoc.
Qed.

(** On bytes the strict decoder accepts, the error policy makes no
    difference. *)
Lemma decode_any_policy pol bs : forall need lo hi pend text,
  Codec.decode Codec.strict need lo hi pend bs = Some text ->
  Codec.decode pol need lo hi pend bs = Some text.
Proof.
  induction bs as [|c r IH]; intros need lo hi pend text H.
  - destruct need; cbn in H |- *; [exact H|discriminate].
  - cbn [Codec.decode] in H |- *.
    assert (Hfresh : forall text0,
      (if Nat.ltb (nat_of_ascii c) 128
       then option_map (String c) (Codec.decode Codec.strict 0 0 0 EmptyString r)
       else match Codec.lead (nat_of_ascii c) with
            | Some (n, l, h) => Codec.decode Codec.strict n l h (String c EmptyString) r
            | None => Codec.on_error Codec.strict
                        (Codec.decode Codec.strict 0 0 0 EmptyString r)
            end) = Some text0 ->
      (if Nat.ltb (nat_of_ascii c) 128
       then option_map (String c) (Codec.decode pol 0 0 0 EmptyString r)
       else match Codec.lead (nat_of_ascii c) with
            | Some (n, l, h) => Codec.decode pol n l h (String c EmptyString) r
            | None => Codec.on_error pol (Codec.decode pol 0 0 0 EmptyString r)
            end) = Some text0).
    { intros text0 H0. destruct (Nat.ltb (nat_of_ascii c) 128).
      - destruct (Codec.decode Codec.strict 0 0 0 EmptyString r) as [x|] eqn:Hx;
          [|discriminate].
        now rewrite (IH _ _ _ _ _ Hx).
      - destruct (Codec.lead (nat_of_ascii c)) as [[[n l] h]|]; [|discriminate].
        now apply IH. }
    destruct need as [|k]; [now apply Hfresh|].
    destruct (Codec.between lo (nat_of_ascii c) hi); [|discriminate].
    destruct k as [|k'].
    + destruct (Codec.decode Codec.strict 0 0 0 EmptyString r) as [x|] eqn:Hx;
        [|discriminate].
      now rewrite (IH _ _ _ _ _ Hx).
    + now apply IH.
Qed.

Lemma universal_newlines_plain s :
  has_char Codec.CR s = false -> Codec.universal_newlines s = s.
Proof.
  induction s as [|c r IH]; [reflexivity|]. cbn [has_char Codec.universal_newlines].
  intros H. apply orb_false_iff in H as [Hc Hr].
  rewrite Ascii.eqb_sym, Hc. now rewrite (IH Hr).
Qed.

(** A text that is well-formed UTF-8 and holds no carriage return is read
    as it is, whatever the policy. *)
Lemma read_text_exact pol bytes text :
  Codec.utf8_decode Codec.strict bytes = Some text ->
  has_char Codec.CR bytes = false ->
  Codec.read_text pol bytes = Some bytes.
Proof.
  unfold Codec.read_text, Codec.utf8_decode. intros H Hcr.
  pose proof (decode_strict_exact _ _ _ _ _ _ H) as Hx. cbn in Hx. subst text.
  rewrite (decode_any_policy pol _ _ _ _ _ _ H). cbn.
  now rewrite universal_newlines_plain.
Qed.

(* ---- the walk ---- *)

Lemma truthy_join_left a b : truthy a = true -> truthy (join a b) = true.
Proof.
  intros Ha. unfold join. destruct (startswith b "/") eqn:Hb.
  - destruct b; [discriminate|reflexivity].
  - destruct (_ || _); now apply truthy_app.
Qed.

(** The directories of a walk have names that are not empty. *)
Lemma walk_node_roots n : forall top root files,
  truthy top = true -> In (root, files) (walk_node top n) -> truthy root = true.
Proof.
  induction n as [d m| |es IH] using node_induction; intros top root files Htop Hin;
    try contradiction.
  cbn [walk_node] in Hin. destruct Hin as [Hin|Hin]; [now inversion Hin; subst|].
  induction es as [|[k c] es IHes]; [contradiction|].
  inversion IH as [|? ? Hc Hes]; subst. cbn [snd] in Hc.
  apply in_app_or in Hin as [Hin|Hin].
  - destruct c as [| |es']; try contradiction.
    eapply Hc; [|exact Hin]. now apply truthy_join_left.
  - now apply IHes.
Qed.

Lemma os_walk_roots cwd0 t top root files :
  In (root, files) (os_walk cwd0 t top) -> truthy root = true.
Proof.
  unfold os_walk. destruct (stat cwd0 t top) as [e|n] eqn:Hst; [contradiction|].
  apply walk_node_roots.
  unfold stat, resolve in Hst. destruct (truthy top); [reflexivity|discriminate].
Qed.

Lemma in_pairs dirs root file :
  In (root, file) (pairs dirs) <->
  exists files, In (root, files) dirs /\ In file files.
Proof.
  unfold pairs. rewrite in_flat_map. split.
  - intros ([r fl] & Hd & Hin). cbn [fst snd] in Hin.
    apply in_map_iff in Hin as (f & Hf & Hin). inversion Hf; subst. eauto.
  - intros (files & Hd & Hin). exists (root, files). split; [exact Hd|].
    cbn [fst snd]. now apply in_map.
Qed.

(* ---- start and stop around the inventory ---- *)

Section WithConfig.
Variable cfg : config.
Variable plat : platform.

Lemma start_of_generate name w res wg :
  generate_audit_file_log cfg plat name "start" (start_announced name w) = (res, wg) ->
  exists w', start cfg plat name w = (res, w')
             /\ fs w' = fs wg /\ clock w' = clock wg.
Proof.
  intros Hgen. unfold start.
  unfold bind at 1, log_info at 1, emit at 1. cbv beta iota.
  unfold bind at 1, log_info at 1, emit at 1. cbv beta iota.
  cbn [fs clock console]. unfold bind at 1.
  change (mkWorld (fs w) (clock w) _) with (start_announced name w). rewrite Hgen.
  destruct res as [[]|e]; [|eexists; repeat split].
  run. destruct (SCREENSHOTS cfg), (GIT_AUTOCOMMIT cfg);
    eexists; repeat split.
Qed.

Lemma stop_of_generate name w res wg :
  generate_audit_file_log cfg plat name "stop" (stop_announced name w) = (res, wg) ->
  exists w', stop cfg plat name w = (res, w')
             /\ fs w' = fs wg /\ clock w' = clock wg.
Proof.
  intros Hgen. unfold stop.
  unfold bind at 1, log_info at 1, emit at 1. cbv beta iota.
  change (mkWorld (fs w) (clock w) _) with (stop_announced name w).
  unfold bind at 1. rewrite Hgen.
  destruct res as [[]|e]; eexists; repeat split.
Qed.

(** The inventory on a project that is not there. *)
Lemma generate_missing name mode w :
  path_exists (cwd plat) (fs w) (join (AUDIT_FOLDER cfg) name) = false ->
  generate_audit_file_log cfg plat name mode w =
  (Raise (Exception ("Audit folder does not exist : " ++ join (AUDIT_FOLDER cfg) name)), w).
Proof. intros H. rewrite generate_run. cbv zeta. now rewrite H. Qed.

Lemma open_for_writing_fails truncate path w code :
  resolve (cwd plat) (fs w) path = inl code ->
  open_for_writing plat truncate path w = (Raise (OSError code path), w).
Proof. intros H. unfold open_for_writing. run. now rewrite H. Qed.

(** The inventory on a project folder without a [logs] directory. *)
Lemma generate_without_logs name mode w :
  let audit_path := join (AUDIT_FOLDER cfg) name in
  let logs := join audit_path "logs" in
  let log_file := join logs log_name in
  isdir (cwd plat) (fs w) audit_path = true ->
  isdir (cwd plat) (fs w) logs = false ->
  generate_audit_file_log cfg plat name mode w =
  (Raise (OSError (if path_exists (cwd plat) (fs w) logs then ENOTDIR else ENOENT)
                  log_file), w).
Proof.
  intros audit_path logs log_file Hap Hlogs.
  pose proof (isdir_exists _ _ _ Hap) as Hex.
  pose proof (path_exists_truthy _ _ _ Hex) as Htr.
  destruct (isdir_inv _ _ _ Hap) as (qa & Hqa & Hda).
  pose proof (resolve_in_dir _ _ _ "logs" _ Htr eq_refl Hqa Hda) as Hrl.
  fold audit_path logs in Hrl.
  rewrite generate_run. fold audit_path logs log_file. rewrite Hex.
  assert (Hres : resolve (cwd plat) (fs w) log_file =
                 inl (if path_exists (cwd plat) (fs w) logs then ENOTDIR else ENOENT)).
  { unfold log_file.
    rewrite (resolve_join _ _ _ log_name (truthy_join _ "logs" Htr eq_refl) eq_refl).
    fold audit_path logs. rewrite Hrl, walk_from_cons.
    unfold isdir, stat in Hlogs. unfold path_exists, stat. rewrite Hrl in *.
    destruct (lookup (qa ++ ["logs"])%list (fs w)) as [[| |]|]; try reflexivity.
    discriminate. }
  now rewrite (open_for_writing_fails _ _ _ _ Hres).
Qed.

(** What [open] and the write of a regular file at [p] leave alone. *)
Lemma opened_frame truncate now p t q :
  regular_or_absent (lookup p t) = true -> within q p = false ->
  lookup q (opened truncate now p t) = lookup q t.
Proof.
  intros Hreg Hq. unfold opened.
  destruct (lookup p t) as [[d m| |es]|] eqn:Hp; try discriminate.
  - destruct truncate; [|reflexivity]. apply put_file_frame; [now rewrite Hp|exact Hq].
  - apply put_file_frame; [now rewrite Hp|exact Hq].
Qed.

Lemma written_frame truncate now p t d m q :
  anchored t p -> regular_or_absent (lookup p t) = true -> within q p = false ->
  lookup q (put p (File d m) (opened truncate now p t)) = lookup q t.
Proof.
  intros Ha Hreg Hq.
  destruct (opened_lookup truncate now p t Ha Hreg) as [m' Hm].
  rewrite put_file_frame; [now apply opened_frame| |exact Hq].
  now rewrite Hm.
Qed.

(** The inventory changes the log, and nothing that is not above it. *)
Lemma generate_frame name mode w w' :
  let log_file := join (join (join (AUDIT_FOLDER cfg) name) "logs") log_name in
  generate_audit_file_log cfg plat name mode w = (Ok tt, w') ->
  exists p,
    resolve (cwd plat) (fs w) log_file = inr p
    /\ forall q, within q p = false -> lookup q (fs w') = lookup q (fs w).
Proof.
  intros log_file H. rewrite generate_run in H. cbv zeta in H. fold log_file in H.
  destruct (path_exists (cwd plat) (fs w) _); [|discriminate].
  destruct (open_for_writing plat false log_file w) as [[p|e] w1] eqn:Hopen;
    [|discriminate].
  apply open_for_writing_inv in Hopen as (Hres & Hreg & Hfs & Hclock & _).
  destruct (logged_inv _ _ _ _ _ _ _ _ _ H) as (text & _ & Hfs' & _).
  exists p. split; [exact Hres|].
  intros q Hq. rewrite Hfs'.
  set (d := (content_of _ ++ _)%string). rewrite Hfs.
  apply written_frame; [eapply resolve_anchored; eauto|exact Hreg|exact Hq].
Qed.

End WithConfig.
End SessionFacts.

Module SessionExtras.
Import Py OsPath Fs Sys Os Audit Notions More.
Import FsFacts PyFacts PathFacts TreeFacts CodecFacts Steps ExportFacts.
Import FrameFacts EntryFacts InitFacts SessionFacts.
Local Open Scope list_scope.
Local Open Scope string_scope.

(** X11. [start], [stop] and [export] on a name whose folder does not exist
    raise the "does not exist" error and leave the file system as it was. *)
Theorem missing_project_is_refused cfg plat name w :
  let fullpath := join (AUDIT_FOLDER cfg) name in
  let refusal := Exception ("Audit folder does not exist : " ++ fullpath) in
  path_exists (cwd plat) (fs w) fullpath = false ->
  export_shell_log cfg plat name w = (Raise refusal, w)
  /\ (exists w', start cfg plat name w = (Raise refusal, w') /\ fs w' = fs w)
  /\ (exists w', stop cfg plat name w = (Raise refusal, w') /\ fs w' = fs w).
Proof.
  intros fullpath refusal H. split; [|split].
  - unfold export_shell_log. unfold bind at 1.
    now rewrite (get_fullpath_missing _ _ _ _ H).
  - destruct (start_of_generate cfg plat name w _ _
                (generate_missing cfg plat name "start" (start_announced name w) H)) as (w' & Hs & Hfs & _).
    exists w'. split; [exact Hs|exact Hfs].
  - destruct (stop_of_generate cfg plat name w _ _
                (generate_missing cfg plat name "stop" (stop_announced name w) H)) as (w' & Hs & Hfs & _).
    exists w'. split; [exact Hs|exact Hfs].
Qed.

(** X12. On a project folder without a [logs] directory, [start] and [stop]
    fail on opening the log and write nothing. *)
Theorem session_needs_logs_directory cfg plat name w :
  let audit_path := join (AUDIT_FOLDER cfg) name in
  let logs := join audit_path "logs" in
  let failure :=
    OSError (if path_exists (cwd plat) (fs w) logs then ENOTDIR else ENOENT)
            (join logs log_name) in
  isdir (cwd plat) (fs w) audit_path = true ->
  isdir (cwd plat) (fs w) logs = false ->
  (exists w', start cfg plat name w = (Raise failure, w') /\ fs w' = fs w)
  /\ (exists w', stop cfg plat name w = (Raise failure, w') /\ fs w' = fs w).
Proof.
  intros audit_path logs failure Hap Hlogs. split.
  - destruct (start_of_generate cfg plat name w _ _
                (generate_without_logs cfg plat name "start" (start_announced name w) Hap Hlogs))
      as (w' & Hs & Hfs & _).
    exists w'. split; [exact Hs|exact Hfs].
  - destruct (stop_of_generate cfg plat name w _ _
                (generate_without_logs cfg plat name "stop" (stop_announced name w) Hap Hlogs))
      as (w' & Hs & Hfs & _).
    exists w'. split; [exact Hs|exact Hfs].
Qed.

(** X13. A [start] or a [stop] that returns has changed the inventory log
    and no other file: every place that is not the log or a directory above
    it holds what it held. *)
Theorem session_touches_only_the_log cfg plat name w w' :
  let log_file := join (join (join (AUDIT_FOLDER cfg) name) "logs") log_name in
  start cfg plat name w = (Ok tt, w') \/ stop cfg plat name w = (Ok tt, w') ->
  exists p,
    resolve (cwd plat) (fs w) log_file = inr p
    /\ forall q, within q p = false -> lookup q (fs w') = lookup q (fs w).
Proof.
  intros log_file [H|H].
  - destruct (generate_audit_file_log cfg plat name "start" (start_announced name w))
      as [res wg] eqn:Hgen.
    destruct (start_of_generate cfg plat name w _ _ Hgen) as (w0 & Hs & Hfs & _).
    rewrite H in Hs. inversion Hs; subst res w0.
    destruct (generate_frame cfg plat name "start" _ _ Hgen) as (p & Hres & Hframe).
    exists p. split; [exact Hres|]. intros q Hq. rewrite Hfs. now apply Hframe.
  - destruct (generate_audit_file_log cfg plat name "stop" (stop_announced name w))
      as [res wg] eqn:Hgen.
    destruct (stop_of_generate cfg plat name w _ _ Hgen) as (w0 & Hs & Hfs & _).
    rewrite H in Hs. inversion Hs; subst res w0.
    destruct (generate_frame cfg plat name "stop" _ _ Hgen) as (p & Hres & Hframe).
    exists p. split; [exact Hres|]. intros q Hq. rewrite Hfs. now apply Hframe.
Qed.

End SessionExtras.

(** The export run again, and what it leaves alone. *)
Module ExportMore.
Import Py OsPath Fs Sys Os Audit Notions More.
Import FsFacts PyFacts PathFacts TreeFacts CodecFacts Steps ExportFacts.
Import FrameFacts EntryFacts InitFacts SessionFacts.
Local Open Scope string_scope.
Local Open Scope list_scope.

Lemma put_put_any p x y : forall t, put p x (put p y t) = put p x t.
Proof.
  induction p as [|s r IH]; intros t; [reflexivity|].
  destruct t as [d m| |es]; try reflexivity.
  cbn [put]. destruct (assoc s es) as [c|] eqn:Hs.
  - cbn [put]. rewrite assoc_replace_same, Hs, replace_replace. now rewrite IH.
  - destruct r as [|s2 r2].
    + cbn [put]. rewrite (assoc_app_new _ _ _ _ Hs), String.eqb_refl.
      now rewrite (replace_new _ _ _ _ Hs).
    + cbn [put]. now rewrite Hs.
Qed.

Lemma opened_for_write now p t :
  regular_or_absent (lookup p t) = true ->
  opened true now p t = put p (File "" now) t.
Proof.
  intros H. unfold opened. destruct (lookup p t) as [[| |]|]; try discriminate; reflexivity.
Qed.

Lemma within_inv a : forall b, within a b = true -> exists c, b = a ++ c.
Proof.
  induction a as [|s a IH]; intros b H; [now exists b|].
  destruct b as [|s' b]; [discriminate|]. cbn in H.
  apply andb_true_iff in H as [Hs Hb]. apply String.eqb_eq in Hs; subst s'.
  destruct (IH _ Hb) as [c ->]. now exists c.
Qed.

(** Nothing lies below a regular file. *)
Lemma below_a_file t a d m c n :
  lookup a t = Some (File d m) -> lookup (a ++ c) t = Some n -> c = [].
Proof.
  intros Ha Hc. rewrite lookup_app, Ha in Hc.
  destruct c; [reflexivity|discriminate].
Qed.

Section WithConfig.
Variable cfg : config.
Variable plat : platform.

(** The reading of the logs depends on the world through the bytes of the
    files read, and on nothing else. *)
Lemma export_files_ext root files : forall all_logs all w1 w2,
  export_files plat root files all_logs w1 = (Ok all, w1) ->
  (forall file, In file files -> endswith file ".log" = true ->
     read_bytes plat (fs w2) (join root file) = read_bytes plat (fs w1) (join root file)) ->
  export_files plat root files all_logs w2 = (Ok all, w2).
Proof.
  induction files as [|file rest IH]; intros all_logs all w1 w2 H Hsame.
  - cbn in H |- *. inversion H. reflexivity.
  - cbn [export_files] in H |- *.
    destruct (endswith file ".log") eqn:E.
    + unfold bind at 1 in H. unfold bind at 1.
      rewrite read_file_run in H. rewrite read_file_run.
      rewrite (Hsame file (or_introl eq_refl) E).
      destruct (read_bytes plat (fs w1) (join root file)) as [e|d]; [discriminate|].
      destruct (Codec.read_text Codec.ignore d) as [text|]; [|discriminate].
      apply (IH _ _ _ _ H). intros f Hf. apply Hsame. now right.
    + apply (IH _ _ _ _ H). intros f Hf. apply Hsame. now right.
Qed.

Lemma export_dirs_ext dirs : forall all_logs all w1 w2,
  export_dirs plat dirs all_logs w1 = (Ok all, w1) ->
  (forall rf, In rf (matched dirs) ->
     read_bytes plat (fs w2) (join (fst rf) (snd rf))
     = read_bytes plat (fs w1) (join (fst rf) (snd rf))) ->
  export_dirs plat dirs all_logs w2 = (Ok all, w2).
Proof.
  induction dirs as [|[root files] rest IH]; intros all_logs all w1 w2 H Hsame.
  - cbn in H |- *. inversion H. reflexivity.
  - cbn [export_dirs] in H |- *. unfold bind at 1 in H. unfold bind at 1.
    destruct (export_files plat root files all_logs w1) as [[mid|e] w1'] eqn:Hf.
    + destruct (export_files_spec _ _ _ _ _ _ _ Hf) as [-> _].
      assert (Hhere : forall file, In file files -> endswith file ".log" = true ->
                read_bytes plat (fs w2) (join root file)
                = read_bytes plat (fs w1) (join root file)).
      { intros file Hin He. apply (Hsame (root, file)).
        unfold matched, pairs. cbn [flat_map fst snd]. rewrite filter_app.
        apply in_or_app. left. apply filter_In. split; [now apply in_map|exact He]. }
      rewrite (export_files_ext _ _ _ _ _ _ Hf Hhere).
      apply (IH _ _ _ _ H). intros rf Hin. apply Hsame.
      unfold matched, pairs. cbn [flat_map fst snd]. rewrite filter_app.
      apply in_or_app. now right.
    + destruct (export_files_spec _ _ _ _ _ _ _ Hf) as [-> _]. discriminate.
Qed.

(** What an [export] that returns has done. *)
Lemma export_ok_inv name w w' :
  let audit_path := join (AUDIT_FOLDER cfg) name in
  let shell_dir := join (join audit_path "logs") "shell" in
  let html_file := join audit_path "shell_log.html" in
  path_exists (cwd plat) (fs w) shell_dir = true ->
  export_shell_log cfg plat name w = (Ok tt, w') ->
  exists all p,
    path_exists (cwd plat) (fs w) audit_path = true
    /\ export_dirs plat (os_walk (cwd plat) (fs w) shell_dir) "" w = (Ok all, w)
    /\ resolve (cwd plat) (fs w) html_file = inr p
    /\ regular_or_absent (lookup p (fs w)) = true
    /\ fs w' = put p (File (page all) (clock w)) (fs w)
    /\ clock w' = clock w.
Proof.
  intros audit_path shell_dir html_file Hs Hrun.
  assert (Hp : path_exists (cwd plat) (fs w) audit_path = true).
  { destruct (path_exists (cwd plat) (fs w) audit_path) eqn:Hp; [reflexivity|].
    unfold export_shell_log in Hrun. unfold bind at 1 in Hrun.
    rewrite (get_fullpath_missing _ _ _ _ Hp) in Hrun. discriminate. }
  rewrite (export_run cfg plat name w Hp Hs) in Hrun.
  fold audit_path shell_dir html_file in Hrun.
  destruct (export_dirs plat (os_walk (cwd plat) (fs w) shell_dir) "" w)
    as [[all|e] w0] eqn:Hdirs; [|discriminate].
  destruct (export_dirs_spec plat _ _ _ _ _ Hdirs) as [-> _].
  destruct (open_for_writing plat true html_file w) as [[p|e] w1] eqn:Hopen;
    [|discriminate].
  apply open_for_writing_inv in Hopen as (Hres & Hreg & Hfs & Hclock & _).
  inversion Hrun; subst w'; clear Hrun.
  exists all, p. repeat split; try assumption.
  - unfold exported. cbn [fs]. rewrite Hclock, Hfs.
    destruct (opened_lookup true (clock w) p (fs w)
                (resolve_anchored _ _ _ _ Hres) Hreg) as [m Hm].
    rewrite Hm. cbn [content_of append].
    rewrite (opened_for_write _ _ _ Hreg). apply put_put_any.
Qed.

(** Where the shell directory and the page of a project are. *)
Lemma export_places name w :
  let audit_path := join (AUDIT_FOLDER cfg) name in
  let shell_dir := join (join audit_path "logs") "shell" in
  let html_file := join audit_path "shell_log.html" in
  path_exists (cwd plat) (fs w) audit_path = true ->
  path_exists (cwd plat) (fs w) shell_dir = true ->
  exists qa,
    resolve (cwd plat) (fs w) audit_path = inr qa
    /\ is_dir_at (fs w) qa = true
    /\ resolve (cwd plat) (fs w) shell_dir = inr ((qa ++ ["logs"]) ++ ["shell"])
    /\ resolve (cwd plat) (fs w) html_file = inr (qa ++ ["shell_log.html"]).
Proof.
  intros audit_path shell_dir html_file Hp Hs.
  pose proof (path_exists_truthy _ _ _ Hp) as Htr.
  pose proof (truthy_join _ "logs" Htr eq_refl) as Htr1.
  pose proof (exists_parent_isdir _ _ _ "shell" Htr1 eq_refl Hs) as Hlogs.
  pose proof (isdir_parent _ _ _ "logs" Htr eq_refl Hlogs) as Hap.
  destruct (isdir_inv _ _ _ Hap) as (qa & Hqa & Hqd).
  destruct (isdir_inv _ _ _ Hlogs) as (ql & Hql & Hqld).
  pose proof (resolve_in_dir _ _ _ "logs" _ Htr eq_refl Hqa Hqd) as Hql'.
  fold audit_path in Hql'. rewrite Hql in Hql'. inversion Hql'; subst ql.
  exists qa. split; [exact Hqa|]. split; [exact Hqd|]. split.
  - now apply resolve_in_dir.
  - now apply resolve_in_dir.
Qed.

End WithConfig.
End ExportMore.

(** What [export] does beyond the page of a project without logs. *)
Module ExportExtras.
Import Py OsPath Fs Sys Os Audit Notions More.
Import FsFacts PyFacts PathFacts TreeFacts CodecFacts Steps ExportFacts.
Import FrameFacts EntryFacts InitFacts SessionFacts ExportMore.
Local Open Scope string_scope.
Local Open Scope list_scope.

(** X14. A log that cannot be opened ends the export: the exception leaves
    [export] before the page is opened, and nothing is written. *)
Theorem export_unreadable_log_writes_nothing cfg plat name w rf e :
  let audit_path := join (AUDIT_FOLDER cfg) name in
  let shell_dir := join (join audit_path "logs") "shell" in
  path_exists (cwd plat) (fs w) audit_path = true ->
  path_exists (cwd plat) (fs w) shell_dir = true ->
  In rf (matched (os_walk (cwd plat) (fs w) shell_dir)) ->
  read_bytes plat (fs w) (join (fst rf) (snd rf)) = inl e ->
  exists e', export_shell_log cfg plat name w = (Raise e', w).
Proof.
  intros audit_path shell_dir Hp Hs Hin Hbad.
  rewrite (export_run cfg plat name w Hp Hs). fold audit_path shell_dir.
  destruct (export_dirs plat (os_walk (cwd plat) (fs w) shell_dir) "" w)
    as [[all|e'] w0] eqn:Hdirs;
    destruct (export_dirs_spec plat _ _ _ _ _ Hdirs) as [-> Hall].
  - destruct (Hall all eq_refl) as [_ Hread].
    destruct (Hread rf Hin) as (d & Hd & _). congruence.
  - now exists e'.
Qed.

(** X15. An [export] that returns has written the page and changed no other
    file: every place that is not the page or a directory above it holds
    what it held. *)
Theorem export_touches_only_the_page cfg plat name w w' :
  let audit_path := join (AUDIT_FOLDER cfg) name in
  let shell_dir := join (join audit_path "logs") "shell" in
  let html_file := join audit_path "shell_log.html" in
  path_exists (cwd plat) (fs w) shell_dir = true ->
  export_shell_log cfg plat name w = (Ok tt, w') ->
  exists p,
    resolve (cwd plat) (fs w) html_file = inr p
    /\ forall q, within q p = false -> lookup q (fs w') = lookup q (fs w).
Proof.
  intros audit_path shell_dir html_file Hs Hrun.
  destruct (export_ok_inv cfg plat name w w' Hs Hrun)
    as (all & p & _ & _ & Hres & Hreg & Hfs & _).
  exists p. split; [exact Hres|]. intros q Hq. rewrite Hfs.
  now apply put_file_frame.
Qed.

(** X16. A log that is well-formed UTF-8 and holds no carriage return is on
    the page byte for byte, under its separator lines and its name: nothing
    in it is escaped or left out. *)
Theorem export_keeps_well_formed_text cfg plat name w w' rf bytes text :
  let audit_path := join (AUDIT_FOLDER cfg) name in
  let shell_dir := join (join audit_path "logs") "shell" in
  let html_file := join audit_path "shell_log.html" in
  path_exists (cwd plat) (fs w) shell_dir = true ->
  export_shell_log cfg plat name w = (Ok tt, w') ->
  In rf (matched (os_walk (cwd plat) (fs w) shell_dir)) ->
  read_bytes plat (fs w) (join (fst rf) (snd rf)) = inr bytes ->
  Codec.utf8_decode Codec.strict bytes = Some text ->
  has_char Codec.CR bytes = false ->
  exists p before after,
    resolve (cwd plat) (fs w) html_file = inr p
    /\ lookup p (fs w') =
       Some (File (page (before ++ log_block (snd rf) bytes ++ after)%string) (clock w)).
Proof.
  intros audit_path shell_dir html_file Hs Hrun Hin Hbytes Hvalid Hcr.
  subst audit_path shell_dir html_file.
  destruct (export_ok_inv cfg plat name w w' Hs Hrun)
    as (all & p & _ & Hdirs & Hres & Hreg & Hfs & _).
  destruct (export_dirs_spec plat _ _ _ _ _ Hdirs) as [_ Hall].
  destruct (Hall all eq_refl) as [Heq _]. cbn [append] in Heq.
  assert (Htext : text_of plat (fs w) rf = bytes).
  { unfold text_of. rewrite Hbytes.
    now rewrite (read_text_exact Codec.ignore _ _ Hvalid Hcr). }
  apply in_split in Hin as (l1 & l2 & Hl).
  exists p, (blocks plat (fs w) l1), (blocks plat (fs w) l2).
  split; [exact Hres|].
  rewrite Hfs, (lookup_put_same _ _ _ (resolve_anchored _ _ _ _ Hres)).
  rewrite Heq, Hl. unfold blocks. rewrite map_app, cat_app. cbn [map cat].
  now rewrite Htext.
Qed.

(** X17. [export] run again, at any later time, on what it left writes
    the same page: it returns, the page holds the text it held, under the
    time of the second run, and no other place has changed.  The names of
    the logs are taken to be plain names, as those of a file system are. *)
Theorem export_twice cfg plat name w w' :
  let audit_path := join (AUDIT_FOLDER cfg) name in
  let shell_dir := join (join audit_path "logs") "shell" in
  let html_file := join audit_path "shell_log.html" in
  path_exists (cwd plat) (fs w) shell_dir = true ->
  (forall rf, In rf (matched (os_walk (cwd plat) (fs w) shell_dir)) ->
     plain_name (snd rf) = true) ->
  export_shell_log cfg plat name w = (Ok tt, w') ->
  exists p all,
    resolve (cwd plat) (fs w) html_file = inr p
    /\ lookup p (fs w') = Some (File (page all) (clock w))
    /\ forall now, exists w'',
         export_shell_log cfg plat name (later now w') = (Ok tt, w'')
         /\ fs w'' = put p (File (page all) now) (fs w').
Proof.
  intros audit_path shell_dir html_file Hs Hplain Hrun. subst audit_path shell_dir html_file.
  destruct (export_ok_inv cfg plat name w w' Hs Hrun)
    as (all & p & Hp & Hdirs & Hres & Hreg & Hfs & Hclock).
  destruct (export_places cfg plat name w Hp Hs) as (qa & Hqa & Hqd & Hqs & Hqh).
  rewrite Hres in Hqh. inversion Hqh; subst p; clear Hqh.
  set (audit_path := join (AUDIT_FOLDER cfg) name) in *.
  set (shell_dir := join (join audit_path "logs") "shell") in *.
  set (p := qa ++ ["shell_log.html"]) in *.
  pose proof (resolve_anchored _ _ _ _ Hres) as Ha.
  assert (Hsame : forall q, is_dir_at (fs w') q = is_dir_at (fs w) q).
  { intros q. rewrite Hfs. apply put_file_is_dir.
    destruct (lookup p (fs w)) as [[| |]|]; try discriminate; exact I. }
  assert (Hframe : forall q, within q p = false -> lookup q (fs w') = lookup q (fs w)).
  { intros q Hq. rewrite Hfs. now apply put_file_frame. }
  assert (Hlookp : lookup p (fs w') = Some (File (page all) (clock w))).
  { rewrite Hfs. now apply lookup_put_same. }
  (* the shell directory is what it was *)
  assert (Hstat : stat (cwd plat) (fs w') shell_dir = stat (cwd plat) (fs w) shell_dir).
  { unfold stat. rewrite (resolve_same_dirs _ _ _ _ _ Hsame Hqs), Hqs.
    rewrite Hframe; [reflexivity|].
    unfold p. rewrite <- app_assoc, within_app_same. reflexivity. }
  assert (Hwalk : os_walk (cwd plat) (fs w') shell_dir
                  = os_walk (cwd plat) (fs w) shell_dir).
  { unfold os_walk. now rewrite Hstat. }
  assert (Hs' : path_exists (cwd plat) (fs w') shell_dir = true).
  { unfold path_exists. rewrite Hstat. exact Hs. }
  assert (Hp' : path_exists (cwd plat) (fs w') audit_path = true).
  { apply (stat_dir_exists _ _ _ qa (resolve_same_dirs _ _ _ _ _ Hsame Hqa)).
    now rewrite Hsame. }
  (* the logs read are what they were *)
  destruct (export_dirs_spec plat _ _ _ _ _ Hdirs) as [_ Hall].
  destruct (Hall all eq_refl) as [_ Hread].
  assert (Hbytes : forall rf,
            In rf (matched (os_walk (cwd plat) (fs w) shell_dir)) ->
            read_bytes plat (fs w') (join (fst rf) (snd rf))
            = read_bytes plat (fs w) (join (fst rf) (snd rf))).
  { intros [root file] Hin. cbn [fst snd].
    destruct (Hread _ Hin) as (d & Hd & _). cbn [fst snd] in Hd.
    pose proof (Hplain _ Hin) as Hpl. cbn [snd] in Hpl.
    assert (Hlog : endswith file ".log" = true).
    { unfold matched in Hin. apply filter_In in Hin as [_ H]. exact H. }
    assert (Hroot : truthy root = true).
    { unfold matched in Hin. apply filter_In in Hin as [Hin _].
      apply in_pairs in Hin as (files & Hin & _).
      eapply os_walk_roots; eauto. }
    unfold read_bytes, stat in Hd |- *.
    rewrite (resolve_join _ _ _ _ Hroot (plain_nosep _ Hpl)) in Hd.
    destruct (resolve (cwd plat) (fs w) root) as [c|qr] eqn:Hqr; [discriminate|].
    rewrite (walk_plain _ _ _ Hpl) in Hd.
    destruct (lookup qr (fs w)) as [[| |es]|] eqn:Hdir; try discriminate.
    assert (Hqrd : is_dir_at (fs w) qr = true) by (unfold is_dir_at; now rewrite Hdir).
    pose proof (resolve_in_dir _ _ _ _ _ Hroot Hpl Hqr Hqrd) as Hrf.
    rewrite (resolve_same_dirs _ _ _ _ _ Hsame Hrf), Hrf.
    destruct (lookup (qr ++ [file]) (fs w)) as [[d0 m0| |es0]|] eqn:Hfile;
      try discriminate.
    rewrite Hframe; [now rewrite Hfile|].
    destruct (within (qr ++ [file]) p) eqn:Hw; [exfalso|reflexivity].
    apply within_inv in Hw as [c Hc].
    destruct c as [|k c] using rev_ind.
    - rewrite app_nil_r in Hc. unfold p in Hc.
      apply app_inj_tail in Hc as [_ Hc]. subst file. discriminate.
    - clear IHc. rewrite app_assoc in Hc. unfold p in Hc.
      apply app_inj_tail in Hc as [Hc _].
      unfold is_dir_at in Hqd. rewrite Hc in Hqd.
      destruct (lookup ((qr ++ [file]) ++ c) (fs w)) as [nn|] eqn:Hn; [|discriminate].
      pose proof (below_a_file _ _ _ _ _ _ Hfile Hn) as ->.
      rewrite app_nil_r in Hn. rewrite Hfile in Hn. inversion Hn; subst nn.
      discriminate. }
  (* the second run *)
  exists p, all. split; [exact Hres|]. split; [exact Hlookp|]. intros now.
  assert (Hdirs' : export_dirs plat (os_walk (cwd plat) (fs (later now w')) shell_dir) ""
                     (later now w')
                   = (Ok all, later now w')).
  { cbn [later fs]. rewrite Hwalk.
    apply (export_dirs_ext plat _ _ _ _ _ Hdirs). intros rf Hin. cbn [later fs].
    now apply Hbytes. }
  assert (Hres' : resolve (cwd plat) (fs (later now w')) (join audit_path "shell_log.html")
                  = inr p)
    by exact (resolve_same_dirs _ _ _ _ _ Hsame Hres).
  assert (Hreg' : regular_or_absent (lookup p (fs (later now w'))) = true)
    by (cbn [later fs]; now rewrite Hlookp).
  destruct (open_for_writing_ok plat true _ (later now w') p Hres' Hreg')
    as (w1 & Hopen & Hfs1 & Hclock1 & _).
  eexists. split.
  - rewrite (export_run cfg plat name (later now w') Hp' Hs').
    fold audit_path. fold shell_dir.
    rewrite Hdirs', Hopen. reflexivity.
  - unfold exported. cbn [fs]. rewrite Hclock1, Hfs1. cbn [later fs clock].
    rewrite (opened_for_write _ _ _ Hreg').
    rewrite (lookup_put_same _ _ _ (anchored_same_dirs _ _ _ Hsame Ha)).
    cbn [content_of append]. now rewrite put_put_any.
Qed.

End ExportExtras.

(** A project from its making to its first session. *)
Module LifeCycle.
Import Py OsPath Fs Sys Os Audit Notions More.
Import FsFacts PyFacts PathFacts TreeFacts CodecFacts Steps ExportFacts.
Import FrameFacts EntryFacts InitFacts SessionFacts ExportMore.
Local Open Scope string_scope.
Local Open Scope list_scope.


End LifeCycle.

(* ================================================================== *)
(** * The inventory and the log it is written to *)

(** A file whose bytes change: paths resolve as before, a walk lists what
    it listed, and every other file is what it was. *)
Module InventoryFacts.
Import Py OsPath Fs Sys Os Audit Notions More.
Import FsFacts PyFacts PathFacts TreeFacts CodecFacts Steps ExportFacts.
Import FrameFacts EntryFacts InitFacts SessionFacts ExportMore.
Local Open Scope string_scope.
Local Open Scope list_scope.

Lemma lookup_some_anchored p : forall t n, lookup p t = Some n -> anchored t p.
Proof.
  induction p as [|s r IH] using rev_ind; intros t n H; [now left|].
  right. unfold parent. rewrite removelast_last.
  rewrite lookup_app in H. unfold is_dir_at.
  destruct (lookup r t) as [[| |es]|]; try discriminate; reflexivity.
Qed.

(** Rewriting a file leaves every place the kind of entry it had. *)
Lemma rewritten_kind p d m d' m' t q :
  lookup p t = Some (File d m) ->
  match lookup q (put p (File d' m') t), lookup q t with
  | Some (Dir _), Some (Dir _) => True
  | Some (File _ _), Some (File _ _) => True
  | Some Dangling, Some Dangling => True
  | None, None => True
  | _, _ => False
  end.
Proof.
  intros Hp.
  assert (Hreg : regular_or_absent (lookup p t) = true) by now rewrite Hp.
  destruct (within q p) eqn:Hw.
  - apply within_inv in Hw as [c ->].
    destruct c as [|s c].
    + rewrite app_nil_r in *.
      rewrite (lookup_put_same _ _ _ (lookup_some_anchored _ _ _ Hp)), Hp. exact I.
    + pose proof (put_file_is_dir (q ++ s :: c) d' m' t q) as Hd.
      rewrite Hp in Hd. specialize (Hd I). unfold is_dir_at in Hd.
      rewrite lookup_app in Hp.
      destruct (lookup q t) as [[| |es]|]; try discriminate.
      destruct (lookup q (put (q ++ s :: c) (File d' m') t)) as [[| |es']|];
        try discriminate; exact I.
  - rewrite (put_file_frame _ _ _ _ _ Hreg Hw).
    destruct (lookup q t) as [[| |]|]; exact I.
Qed.

Lemma rewritten_walk_from p d m d' m' t segs : forall cur,
  lookup p t = Some (File d m) ->
  walk_from (put p (File d' m') t) cur segs = walk_from t cur segs.
Proof.
  induction segs as [|s r IH]; intros cur Hp; [reflexivity|].
  rewrite !walk_from_cons.
  pose proof (rewritten_kind p d m d' m' t cur Hp) as Hk.
  destruct (lookup cur (put p (File d' m') t)) as [[| |]|],
           (lookup cur t) as [[| |]|]; try contradiction; try reflexivity.
  rewrite !IH by exact Hp. reflexivity.
Qed.

Lemma rewritten_resolve cwd0 p d m d' m' t path :
  lookup p t = Some (File d m) ->
  resolve cwd0 (put p (File d' m') t) path = resolve cwd0 t path.
Proof.
  intros Hp. unfold resolve.
  destruct (negb (truthy path)); [reflexivity|].
  now apply rewritten_walk_from with (d := d) (m := m).
Qed.

(** What [os.stat] tells of a path that does not lead to the rewritten
    file. *)
Lemma rewritten_stat cwd0 p d m d' m' t path :
  lookup p t = Some (File d m) ->
  resolve cwd0 t path <> inr p ->
  match stat cwd0 (put p (File d' m') t) path, stat cwd0 t path with
  | inl e', inl e => e' = e
  | inr (Dir _), inr (Dir _) => True
  | inr n', inr n => n' = n
  | _, _ => False
  end.
Proof.
  intros Hp Hne. unfold stat.
  rewrite (rewritten_resolve cwd0 p d m d' m' t path Hp).
  destruct (resolve cwd0 t path) as [e|q]; [reflexivity|].
  assert (Hreg : regular_or_absent (lookup p t) = true) by now rewrite Hp.
  destruct (within q p) eqn:Hw.
  - apply within_inv in Hw as [c Hc].
    destruct c as [|s c].
    + rewrite app_nil_r in Hc. subst q. congruence.
    + pose proof (rewritten_kind p d m d' m' t q Hp) as Hk.
      rewrite Hc, lookup_app in Hp.
      destruct (lookup q t) as [[| |es]|]; try discriminate.
      destruct (lookup q (put p (File d' m') t)) as [[| |es']|];
        try contradiction; exact I.
  - rewrite (put_file_frame _ _ _ _ _ Hreg Hw).
    destruct (lookup q t) as [[| |]|]; try reflexivity; exact I.
Qed.

Lemma rewritten_is_dir r x : forall c d m,
  lookup r c = Some (File d m) -> is_dir x = false ->
  is_dir (put r x c) = is_dir c.
Proof.
  destruct r as [|s r]; intros c d m Hl Hx.
  - cbn in Hl. inversion Hl; subst c. exact Hx.
  - destruct c as [| |es]; try discriminate. cbn [lookup] in Hl. cbn [put].
    destruct (assoc s es); [reflexivity|discriminate].
Qed.

(** [os.walk] reports names, not bytes. *)
Lemma rewritten_walk_node rel : forall n top d m x,
  lookup rel n = Some (File d m) -> is_dir x = false ->
  walk_node top (put rel x n) = walk_node top n.
Proof.
  induction rel as [|s r IH]; intros n top d m x Hl Hx.
  - cbn in Hl. inversion Hl; subst n. cbn [put].
    destruct x; try discriminate; reflexivity.
  - destruct n as [| |es]; try discriminate. cbn [lookup] in Hl. cbn [put].
    destruct (assoc s es) as [c|] eqn:Ha; [|discriminate].
    pose proof (rewritten_is_dir r x c d m Hl Hx) as Hd.
    assert (Hwk : forall top', walk_node top' (put r x c) = walk_node top' c)
      by (intros top'; eapply IH; eauto).
    revert Hd Hwk. generalize (put r x c). intros c' Hd Hwk.
    cbn [walk_node]. f_equal; [f_equal|].
    + clear - Ha Hd. unfold files_of.
      induction es as [|[k v] es IHes]; [discriminate|].
      cbn [assoc] in Ha. cbn [replace].
      destruct (String.eqb k s).
      * inversion Ha; subst v. cbn [filter snd]. rewrite Hd.
        destruct (negb (is_dir c)); reflexivity.
      * cbn [filter snd]. destruct (negb (is_dir v)); cbn [map]; now rewrite (IHes Ha).
    + clear - Ha Hd Hwk.
      induction es as [|[k v] es IHes]; [discriminate|].
      cbn [assoc] in Ha. cbn [replace].
      destruct (String.eqb k s).
      * inversion Ha; subst v. f_equal.
        destruct c', c; try discriminate; try reflexivity. apply Hwk.
      * f_equal. exact (IHes Ha).
Qed.

Lemma lookup_put_below qa x rel : forall t n,
  lookup qa t = Some n ->
  lookup qa (put (qa ++ rel) x t) = Some (put rel x n).
Proof.
  induction qa as [|s r IH]; intros t n Hl.
  - cbn in Hl. now inversion Hl.
  - destruct t as [| |es]; try discriminate. cbn [lookup] in Hl.
    cbn [app put]. destruct (assoc s es) as [c|] eqn:Ha; [|discriminate].
    cbn [lookup]. rewrite assoc_replace_same, Ha. now apply IH.
Qed.

(** The walk of a directory with a rewritten file below it. *)
Lemma rewritten_os_walk cwd0 p d m d' m' t top :
  lookup p t = Some (File d m) ->
  os_walk cwd0 (put p (File d' m') t) top = os_walk cwd0 t top.
Proof.
  intros Hp. unfold os_walk, stat.
  rewrite (rewritten_resolve cwd0 p d m d' m' t top Hp).
  destruct (resolve cwd0 t top) as [e|q]; [reflexivity|].
  assert (Hreg : regular_or_absent (lookup p t) = true) by now rewrite Hp.
  destruct (within q p) eqn:Hw.
  - apply within_inv in Hw as [c ->].
    rewrite lookup_app in Hp.
    destruct (lookup q t) as [n|] eqn:Hq; [|discriminate].
    rewrite (lookup_put_below q (File d' m') c t n Hq).
    pose proof (rewritten_walk_node c n top d m (File d' m') Hp eq_refl) as Hwk.
    pose proof (rewritten_is_dir c (File d' m') n d m Hp eq_refl) as Hd.
    destruct (put c (File d' m') n) as [| |es'], n as [| |es]; try discriminate;
      try reflexivity; exact Hwk.
  - rewrite (put_file_frame _ _ _ _ _ Hreg Hw). reflexivity.
Qed.

Section WithPlatform.
Variable plat : platform.

(** The line of a file other than the log does not depend on what the log
    holds. *)
Lemma rewritten_line q d m d' m' t audit_path root file :
  lookup (q ++ [log_name]) t = Some (File d m) ->
  truthy root = true -> plain_name file = true -> file <> log_name ->
  line_of plat (put (q ++ [log_name]) (File d' m') t) audit_path (root, file)
  = line_of plat t audit_path (root, file).
Proof.
  intros Hp Hroot Hplain Hne.
  assert (Hother : resolve (cwd plat) t (join root file) <> inr (q ++ [log_name])).
  { rewrite (resolve_join _ _ _ _ Hroot (plain_nosep _ Hplain)).
    destruct (resolve (cwd plat) t root) as [e|qr]; [discriminate|].
    rewrite (walk_plain _ _ _ Hplain).
    destruct (lookup qr t) as [[| |es]|]; try discriminate.
    intros H. inversion H as [H1]. apply app_inj_tail in H1 as [_ H1]. congruence. }
  pose proof (rewritten_stat (cwd plat) _ d m d' m' t _ Hp Hother) as Hstat.
  unfold line_of, describe, getsize, getmtime. cbn [fst snd].
  destruct (stat (cwd plat) (put (q ++ [log_name]) (File d' m') t) (join root file))
    as [e'|[| |es']],
    (stat (cwd plat) t (join root file)) as [e|[| |es]];
    try contradiction; try discriminate; try (inversion Hstat; subst); reflexivity.
Qed.

(** The inventory does not see the bytes of its own log. *)
Lemma inventory_lines_blind q d m d' m' t audit_path :
  lookup (q ++ [log_name]) t = Some (File d m) ->
  (forall rf, In rf (inventory (os_walk (cwd plat) t audit_path)) ->
     plain_name (snd rf) = true) ->
  map (line_of plat (put (q ++ [log_name]) (File d' m') t) audit_path)
      (inventory (os_walk (cwd plat) (put (q ++ [log_name]) (File d' m') t) audit_path))
  = map (line_of plat t audit_path) (inventory (os_walk (cwd plat) t audit_path)).
Proof.
  intros Hp Hplain.
  rewrite (rewritten_os_walk (cwd plat) _ d m d' m' t audit_path Hp).
  apply map_ext_in. intros [root file] Hin.
  pose proof (Hplain _ Hin) as Hpl. cbn [snd] in Hpl.
  apply inventory_in in Hin as [Hin Hne].
  apply in_pairs in Hin as (files & Hin & _).
  apply rewritten_line with (d := d) (m := m); auto.
  eapply os_walk_roots; eauto.
Qed.

Lemma inventory_blind q d m d' m' t audit_path :
  lookup (q ++ [log_name]) t = Some (File d m) ->
  (forall rf, In rf (inventory (os_walk (cwd plat) t audit_path)) ->
     plain_name (snd rf) = true) ->
  inventory_body plat (put (q ++ [log_name]) (File d' m') t) audit_path
  = inventory_body plat t audit_path.
Proof.
  intros Hp Hplain. unfold inventory_body.
  now rewrite (inventory_lines_blind q d m d' m' t audit_path Hp Hplain).
Qed.

End WithPlatform.
End InventoryFacts.

(** The two inventories of a session. *)
Module InventoryExtras.
Import Py OsPath Fs Sys Os Audit Notions More.
Import FsFacts PyFacts PathFacts TreeFacts CodecFacts Steps ExportFacts.
Import FrameFacts EntryFacts InitFacts SessionFacts ExportMore InventoryFacts.
Local Open Scope list_scope.
Local Open Scope string_scope.

(** X19. A [stop] that follows a [start] succeeds and records the inventory
    that [start] recorded: the log, which alone has changed in between, has
    no line of its own, and the lines of the other files do not depend on
    it.  Entry names are single path components.  The same holds of a
    [stop] at any later time, once the text of that time can be written. *)
Theorem stop_repeats_start_inventory cfg plat name w w1 :
  let audit_path := join (AUDIT_FOLDER cfg) name in
  let log_file := join (join audit_path "logs") log_name in
  let body := inventory_body plat (fs w1) audit_path in
  (forall rf, In rf (inventory (os_walk (cwd plat) (fs w1) audit_path)) ->
     plain_name (snd rf) = true) ->
  start cfg plat name w = (Ok tt, w1) ->
  exists p w2,
    resolve (cwd plat) (fs w) log_file = inr p
    /\ lookup p (fs w1) =
       Some (File (content_of (lookup p (fs w))
                   ++ header plat "start" name (clock w) ++ body) (clock w))
    /\ stop cfg plat name w1 = (Ok tt, w2)
    /\ lookup p (fs w2) =
       Some (File (content_of (lookup p (fs w))
                   ++ header plat "start" name (clock w) ++ body
                   ++ header plat "stop" name (clock w) ++ body) (clock w))
    /\ forall now,
         Codec.encodable ("Generated: " ++ ctime plat now ++ nl ++ nl) = true ->
         exists w3,
           stop cfg plat name (later now w1) = (Ok tt, w3)
           /\ lookup p (fs w3) =
              Some (File (content_of (lookup p (fs w))
                          ++ header plat "start" name (clock w) ++ body
                          ++ header plat "stop" name now ++ body) now).
Proof.
  intros audit_path log_file body Hplain Hstart.
  (* the run of start *)
  destruct (generate_audit_file_log cfg plat name "start" (start_announced name w))
    as [res wg] eqn:Hgen.
  destruct (start_of_generate cfg plat name w _ _ Hgen) as (w0 & Hs & Hfs1 & Hclock1).
  rewrite Hstart in Hs. inversion Hs; subst res w0; clear Hs.
  rewrite generate_run in Hgen. cbv zeta in Hgen.
  fold audit_path in Hgen. fold log_file in Hgen.
  destruct (path_exists (cwd plat) (fs (start_announced name w)) audit_path) eqn:Hp;
    [|discriminate].
  destruct (open_for_writing plat false log_file (start_announced name w))
    as [[p|e] wo] eqn:Hopen; [|discriminate].
  apply open_for_writing_inv in Hopen as (Hres & Hreg & Hfso & Hclocko & _).
  cbn [start_announced printed fs clock] in Hp, Hres, Hreg, Hfso, Hclocko.
  destruct (logged_inv _ _ _ _ _ _ _ _ _ Hgen) as (text & Hw & Hfsg & Hclockg & _).
  fold audit_path in Hw. rewrite Hclocko in Hw, Hfsg, Hclockg.
  rewrite Hfsg in Hfs1. rewrite Hclockg in Hclock1. clear Hfsg Hclockg Hgen.
  pose proof (block_whole _ _ _ _ _ _ _ Hw) as Htext.
  destruct (write_all_inv _ _ _ _ Hw) as (done & rest & Hall & _ & Hdone & Hrest).
  subst rest. rewrite app_nil_r in Hall. subst done.
  unfold block_texts in Hdone.
  pose proof (Forall_inv_tail Hdone) as Hdone1.
  pose proof (Forall_inv Hdone1) as Hname.
  pose proof (Forall_inv_tail Hdone1) as Hdone2.
  pose proof (Forall_inv Hdone2) as Htime.
  pose proof (Forall_inv_tail Hdone2) as Hlines.
  cbv beta in Hname, Htime. clear Hdone Hdone1 Hdone2.
  (* the place of the log *)
  pose proof (path_exists_truthy _ _ _ Hp) as Htr.
  assert (Hplain1 : plain_name "logs" = true) by reflexivity.
  assert (Hplain2 : plain_name log_name = true) by reflexivity.
  pose proof (truthy_join _ _ Htr Hplain1) as Htr1.
  assert (Hq : exists q, p = (q ++ [log_name])%list
                         /\ isdir (cwd plat) (fs w) (join audit_path "logs") = true).
  { unfold log_file in Hres.
    rewrite (resolve_join _ _ _ _ Htr1 (plain_nosep _ Hplain2)) in Hres.
    destruct (resolve (cwd plat) (fs w) (join audit_path "logs")) as [e|q] eqn:Hq;
      [discriminate|].
    rewrite (walk_plain _ _ _ Hplain2) in Hres.
    destruct (lookup q (fs w)) as [[| |es]|] eqn:Hd; try discriminate.
    inversion Hres. exists q. split; [reflexivity|].
    apply (isdir_intro _ _ _ q Hq). unfold is_dir_at. now rewrite Hd. }
  destruct Hq as (q & Hpq & Hlogs).
  pose proof (resolve_anchored _ _ _ _ Hres) as Ha.
  destruct (opened_lookup false (clock w) p (fs w) Ha Hreg) as [m0 Hm0].
  rewrite <- Hfso in Hm0.
  assert (Hsame_o : forall q0, is_dir_at (fs wo) q0 = is_dir_at (fs w) q0).
  { intros q0. rewrite Hfso. now apply opened_same_dirs. }
  assert (Hsame : forall q0, is_dir_at (fs w1) q0 = is_dir_at (fs w) q0).
  { intros q0. rewrite Hfs1, <- Hsame_o. apply put_file_is_dir. now rewrite Hm0. }
  rewrite Hm0 in Hfs1. cbn [content_of] in Hfs1.
  (* the lines of start, read from the tree it left *)
  assert (Hwo : lookup (q ++ [log_name])%list (fs wo)
                = Some (File (content_of (lookup p (fs w))) m0)) by now rewrite <- Hpq.
  assert (Hplain_o : forall rf,
             In rf (inventory (os_walk (cwd plat) (fs wo) audit_path)) ->
             plain_name (snd rf) = true).
  { intros rf Hin. apply Hplain. rewrite Hfs1, Hpq.
    rewrite (rewritten_os_walk (cwd plat) _ (content_of (lookup p (fs w))) m0);
      [exact Hin|exact Hwo]. }
  assert (Hsame_lines :
            map (line_of plat (fs w1) audit_path)
                (inventory (os_walk (cwd plat) (fs w1) audit_path))
            = map (line_of plat (fs wo) audit_path)
                  (inventory (os_walk (cwd plat) (fs wo) audit_path))).
  { rewrite Hfs1, Hpq. now apply inventory_lines_blind with (d := content_of (lookup p (fs w)))
                                                       (m := m0). }
  assert (Hbody : inventory_body plat (fs wo) audit_path = body).
  { unfold body, inventory_body. now rewrite Hsame_lines. }
  rewrite Htext, Hbody in Hfs1.
  assert (Hlook1 : lookup p (fs w1) =
                   Some (File (content_of (lookup p (fs w))
                               ++ header plat "start" name (clock w) ++ body) (clock w))).
  { rewrite Hfs1. apply lookup_put_same.
    eapply anchored_same_dirs; [exact Hsame_o|exact Ha]. }
  (* a stop, at any time whose text can be written *)
  assert (Hlater : forall now,
             Codec.encodable ("Generated: " ++ ctime plat now ++ nl ++ nl) = true ->
             exists w3,
               stop cfg plat name (later now w1) = (Ok tt, w3)
               /\ lookup p (fs w3) =
                  Some (File (content_of (lookup p (fs w))
                              ++ header plat "start" name (clock w) ++ body
                              ++ header plat "stop" name now ++ body) now)).
  { intros now Hnow.
    assert (Hp1 : path_exists (cwd plat) (fs (stop_announced name (later now w1)))
                    audit_path = true).
    { cbn [stop_announced later printed fs].
      apply isdir_exists, (isdir_same_dirs _ (fs w)); [exact Hsame|].
      exact (isdir_parent _ _ _ "logs" Htr Hplain1 Hlogs). }
    assert (Hres1 : resolve (cwd plat) (fs (stop_announced name (later now w1))) log_file
                    = inr p).
    { cbn [stop_announced later printed fs]. eapply resolve_same_dirs; eauto. }
    assert (Hreg1 : regular_or_absent (lookup p (fs (stop_announced name (later now w1))))
                    = true).
    { cbn [stop_announced later printed fs]. now rewrite Hlook1. }
    destruct (generate_ok cfg plat name "stop" _ p Hp1 Hres1 Hreg1)
      as (wb1 & r2 & text2 & wb' & Hgen2 & Hfs2 & Hw2 & _ & Hlook2 & _ & _ & _).
    cbn [stop_announced later printed fs clock] in Hfs2, Hw2, Hlook2.
    fold audit_path in Hw2.
    unfold opened in Hfs2. rewrite Hlook1 in Hfs2. rewrite Hfs2 in Hw2.
    rewrite Hlook1 in Hlook2. cbn [content_of] in Hlook2.
    assert (Hok : write_all (block_texts plat (fs w1) "stop" name audit_path now)
                    EmptyString
                  = (Ok tt, EmptyString
                            ++ cat (block_texts plat (fs w1) "stop" name audit_path now))).
    { apply write_all_ok. unfold block_texts.
      constructor; [vm_compute; reflexivity|].
      constructor; [exact Hname|]. constructor; [exact Hnow|].
      rewrite Hsame_lines. exact Hlines. }
    assert (Hr2 : r2 = Ok tt) by (rewrite Hok in Hw2; now inversion Hw2).
    subst r2. clear Hok.
    pose proof (block_whole _ _ _ _ _ _ _ Hw2) as Htext2.
    destruct (stop_of_generate cfg plat name (later now w1) _ _ Hgen2)
      as (w3 & Hstop & Hfsw3 & _).
    exists w3. split; [exact Hstop|].
    rewrite Hfsw3, Hlook2, Htext2. fold body.
    now rewrite !append_assoc. }
  assert (Hsame_w : later (clock w) w1 = w1).
  { destruct w1 as [t c o]. cbn in Hclock1. unfold later. cbn. now rewrite Hclock1. }
  destruct (Hlater (clock w) Htime) as (w2 & Hstop & Hlook2).
  rewrite Hsame_w in Hstop.
  exists p, w2. split; [exact Hres|]. split; [exact Hlook1|].
  split; [exact Hstop|]. split; [exact Hlook2|exact Hlater].
Qed.

End InventoryExtras.

(* ================================================================== *)
(** * What a session prints *)

Module MessageFacts.
Import Py OsPath Fs Sys Os Audit Notions More.
Import FsFacts PyFacts PathFacts TreeFacts CodecFacts Steps ExportFacts.
Import FrameFacts EntryFacts InitFacts SessionFacts.
Local Open Scope string_scope.
Local Open Scope list_scope.

Section WithConfig.
Variable cfg : config.
Variable plat : platform.

(** An [open] that fails has changed nothing. *)
Lemma open_for_writing_raise truncate path w e w1 :
  open_for_writing plat truncate path w = (Raise e, w1) -> w1 = w.
Proof.
  unfold open_for_writing. run.
  destruct (resolve (cwd plat) (fs w) path) as [c|p]; [now inversion 1|].
  destruct (lookup p (fs w)) as [[d m| |es]|]; try (now inversion 1).
  - destruct truncate; discriminate.
  - destruct (lookup (parent p) (fs w)) as [[| |]|]; try discriminate;
      now inversion 1.
Qed.

(** The inventory prints its one line when it is done, and nothing when it
    fails. *)
Lemma generate_console name mode w res w' :
  generate_audit_file_log cfg plat name mode w = (res, w') ->
  console w' =
  console w ++
  match res with
  | Ok _ => [Print ("[+] Generated audit file list (" ++ mode ++ ") at: "
                    ++ join (join (join (AUDIT_FOLDER cfg) name) "logs") log_name)%string
                   green]
  | Raise _ => []
  end.
Proof.
  rewrite generate_run. cbv zeta.
  destruct (path_exists (cwd plat) (fs w) (join (AUDIT_FOLDER cfg) name)).
  - destruct (open_for_writing plat false _ w) as [[p|e] wo] eqn:Hopen.
    + apply open_for_writing_inv in Hopen as (_ & _ & _ & _ & Hc).
      intros H. destruct (logged_inv _ _ _ _ _ _ _ _ _ H) as (text & _ & _ & _ & Hc').
      now rewrite Hc', Hc.
    + apply open_for_writing_raise in Hopen. subst wo.
      intros H; inversion H; subst. now rewrite app_nil_r.
  - intros H; inversion H; subst. now rewrite app_nil_r.
Qed.

End WithConfig.
End MessageFacts.

Module MessageExtras.
Import Py OsPath Fs Sys Os Audit Notions More.
Import FsFacts PyFacts PathFacts TreeFacts CodecFacts Steps ExportFacts.
Import FrameFacts EntryFacts InitFacts SessionFacts MessageFacts.
Local Open Scope string_scope.
Local Open Scope list_scope.

(** X20. What [start] prints.  The two opening lines come first, whatever
    follows: a [start] that raises has printed them and nothing more.  A
    [start] that returns has then printed the line of the inventory, the
    screenshot warning when [SCREENSHOTS] is set, the line on the automatic
    commits when [GIT_AUTOCOMMIT] is set, and the two closing lines. *)
Theorem start_messages cfg plat name w :
  console (snd (start cfg plat name w)) =
  console w
  ++ [Print ("[+] Starting audit session: " ++ name)%string green;
      Print "[+] Logging of activities and evidence capture simulated (Windows mode)"
            green]
  ++ match fst (start cfg plat name w) with
     | Raise _ => []
     | Ok _ =>
         [Print ("[+] Generated audit file list (start) at: "
                 ++ join (join (join (AUDIT_FOLDER cfg) name) "logs") log_name)%string
                green]
         ++ (if SCREENSHOTS cfg
             then [Print "[!] Screenshot automation not supported natively on Windows in this version." yellow]
             else [])
         ++ (if GIT_AUTOCOMMIT cfg
             then [Print "[+] Git auto-commit active (manual Windows scheduling required)." green]
             else [])
         ++ [Print "[+] Audit session started. You can now perform your tasks." green;
             Print "[+] Use 'python audit.py stop <audit_name>' to end the session."
                   green]
     end.
Proof.
  rewrite start_run.
  destruct (generate_audit_file_log cfg plat name "start" (start_announced name w))
    as [res wg] eqn:Hgen.
  pose proof (generate_console cfg plat name "start" _ _ _ Hgen) as Hc.
  cbn [start_announced printed console] in Hc.
  destruct res as [[]|e]; cbn [fst snd console]; rewrite Hc.
  - repeat rewrite <- app_assoc. reflexivity.
  - rewrite app_nil_r. repeat rewrite <- app_assoc. reflexivity.
Qed.

(** X21. What [stop] prints: its opening line, and after it, only when the
    inventory is written, the line of the inventory and the closing line. *)
Theorem stop_messages cfg plat name w :
  console (snd (stop cfg plat name w)) =
  console w
  ++ [Print ("[+] Stopping audit session: " ++ name)%string green]
  ++ match fst (stop cfg plat name w) with
     | Raise _ => []
     | Ok _ =>
         [Print ("[+] Generated audit file list (stop) at: "
                 ++ join (join (join (AUDIT_FOLDER cfg) name) "logs") log_name)%string
                green;
          Print "[+] Audit stopped. All evidence logs and notes remain in the project folder."
                green]
     end.
Proof.
  rewrite stop_run.
  destruct (generate_audit_file_log cfg plat name "stop" (stop_announced name w))
    as [res wg] eqn:Hgen.
  pose proof (generate_console cfg plat name "stop" _ _ _ Hgen) as Hc.
  cbn [stop_announced printed console] in Hc.
  destruct res as [[]|e]; cbn [fst snd console]; rewrite Hc.
  - repeat rewrite <- app_assoc. reflexivity.
  - rewrite app_nil_r. reflexivity.
Qed.

End MessageExtras.

(* ================================================================== *)
(** * Texts that can be written *)

(** Which texts UTF-8 can encode: the ASCII ones, those put together from
    texts that can, and what [repr] and [str] make of any text. *)
Module EncodeFacts.
Import Py OsPath Fs Codec Sys Os Audit Notions.
Import PathFacts Steps.

Lemma first_escape_none ps : forall i,
  first_escape ps i = None <-> forallb scalar ps = true.
Proof.
  induction ps as [|[bytes|c] ps IH]; intros i; cbn [first_escape forallb scalar andb].
  - tauto.
  - apply IH.
  - split; discriminate.
Qed.

Lemma encodable_points text :
  encodable text = true <-> forallb scalar (code_points text) = true.
Proof.
  unfold encodable, encode_error. rewrite <- (first_escape_none _ 0).
  destruct (first_escape (code_points text) 0); split; congruence.
Qed.

Lemma escapes_none pend : forallb scalar (escapes pend) = true -> pend = EmptyString.
Proof. destruct pend; [reflexivity|discriminate]. Qed.

Lemma points_idle lo hi bs : points 0 lo hi EmptyString bs = points 0 0 0 EmptyString bs.
Proof. destruct bs; reflexivity. Qed.

(** A text that can be encoded leaves the decoder between two
    characters. *)
Lemma points_app a b : forall need lo hi pend,
  need = 0 \/ pend <> EmptyString ->
  forallb scalar (points need lo hi pend a) = true ->
  points need lo hi pend (a ++ b) = (points need lo hi pend a ++ code_points b)%list.
Proof.
  induction a as [|c r IH]; intros need lo hi pend Hst Hok.
  - cbn [points] in Hok. apply escapes_none in Hok. subst pend.
    destruct Hst as [->|Hst]; [|congruence].
    cbn [append points escapes app]. apply points_idle.
  - cbn [append]. cbn [points] in Hok |- *.
    assert (Hfresh :
      forallb scalar
        (if Nat.ltb (nat_of_ascii c) 128
         then Scalar (String c EmptyString) :: points 0 0 0 EmptyString r
         else match lead (nat_of_ascii c) with
              | Some (n, l, h) => points n l h (String c EmptyString) r
              | None => Escaped c :: points 0 0 0 EmptyString r
              end) = true ->
      (if Nat.ltb (nat_of_ascii c) 128
       then Scalar (String c EmptyString) :: points 0 0 0 EmptyString (r ++ b)
       else match lead (nat_of_ascii c) with
            | Some (n, l, h) => points n l h (String c EmptyString) (r ++ b)
            | None => Escaped c :: points 0 0 0 EmptyString (r ++ b)
            end)
      = ((if Nat.ltb (nat_of_ascii c) 128
          then Scalar (String c EmptyString) :: points 0 0 0 EmptyString r
          else match lead (nat_of_ascii c) with
               | Some (n, l, h) => points n l h (String c EmptyString) r
               | None => Escaped c :: points 0 0 0 EmptyString r
               end) ++ code_points b)%list).
    { destruct (Nat.ltb (nat_of_ascii c) 128).
      - cbn [forallb scalar andb app]. intros H. f_equal. apply IH; [now left|exact H].
      - destruct (lead (nat_of_ascii c)) as [[[n l] h]|].
        + intros H. apply IH; [right; discriminate|exact H].
        + discriminate. }
    destruct need as [|k]; [now apply Hfresh|].
    destruct (between lo (nat_of_ascii c) hi).
    + destruct k as [|k'].
      * cbn [forallb scalar andb app] in Hok |- *. f_equal.
        apply IH; [now left|exact Hok].
      * apply IH; [right; destruct pend; discriminate|exact Hok].
    + destruct Hst as [Hst|Hst]; [discriminate|].
      destruct pend as [|p0 pend]; [congruence|]. discriminate.
Qed.

Lemma code_points_app a b :
  encodable a = true -> code_points (a ++ b) = (code_points a ++ code_points b)%list.
Proof.
  intros H. apply encodable_points in H. unfold code_points.
  apply points_app; [now left|exact H].
Qed.

Lemma encodable_app a b :
  encodable a = true -> encodable b = true -> encodable (a ++ b) = true.
Proof.
  intros Ha Hb. apply encodable_points. rewrite (code_points_app a b Ha).
  rewrite forallb_app. apply encodable_points in Ha, Hb. now rewrite Ha, Hb.
Qed.

Lemma encodable_cat xs :
  Forall (fun x => encodable x = true) xs -> encodable (cat xs) = true.
Proof.
  induction 1 as [|x xs Hx _ IH]; [reflexivity|]. cbn [cat]. now apply encodable_app.
Qed.

Lemma ascii_points s :
  ascii_text s = true -> forallb scalar (code_points s) = true.
Proof.
  unfold code_points. induction s as [|c r IH]; [reflexivity|].
  cbn [ascii_text points]. intros H. apply andb_prop in H as [Hc Hr].
  rewrite Hc. cbn [forallb scalar andb]. now apply IH.
Qed.

Lemma ascii_encodable s : ascii_text s = true -> encodable s = true.
Proof. intros H. apply encodable_points. now apply ascii_points. Qed.

Lemma ascii_app a b :
  ascii_text a = true -> ascii_text b = true -> ascii_text (a ++ b) = true.
Proof.
  induction a as [|c r IH]; [auto|]. cbn [append ascii_text]. intros H Hb.
  apply andb_prop in H as [Hc Hr]. rewrite Hc. cbn. now apply IH.
Qed.

Lemma escapes_alone pend : Forall alone (escapes pend).
Proof. induction pend; constructor; [exact I|assumption]. Qed.

Lemma points_alone bs : forall need lo hi pend,
  need = 0 \/ (forall r, code_points (pend ++ r) = points need lo hi pend r) ->
  Forall alone (points need lo hi pend bs).
Proof.
  induction bs as [|c r IH]; intros need lo hi pend Hst; cbn [points].
  - apply escapes_alone.
  - assert (Hfresh : Forall alone
      (if Nat.ltb (nat_of_ascii c) 128
       then Scalar (String c EmptyString) :: points 0 0 0 EmptyString r
       else match lead (nat_of_ascii c) with
            | Some (n, l, h) => points n l h (String c EmptyString) r
            | None => Escaped c :: points 0 0 0 EmptyString r
            end)).
    { destruct (Nat.ltb (nat_of_ascii c) 128) eqn:Hc.
      - constructor; [|apply IH; now left].
        unfold alone, code_points. cbn [points]. now rewrite Hc.
      - destruct (lead (nat_of_ascii c)) as [[[n l] h]|] eqn:Hl.
        + apply IH. right. intros r0. unfold code_points. cbn [append points].
          now rewrite Hc, Hl.
        + constructor; [exact I|apply IH; now left]. }
    destruct need as [|k]; [exact Hfresh|].
    destruct Hst as [Hst|Hst]; [discriminate|].
    destruct (between lo (nat_of_ascii c) hi) eqn:Hb.
    + destruct k as [|k'].
      * constructor; [|apply IH; now left].
        unfold alone. rewrite Hst. cbn [points]. now rewrite Hb.
      * apply IH. right. intros r0. rewrite append_assoc. cbn [append].
        rewrite Hst. cbn [points]. now rewrite Hb.
    + apply Forall_app. split; [apply escapes_alone|exact Hfresh].
Qed.

Lemma code_points_alone s : Forall alone (code_points s).
Proof. apply points_alone. now left. Qed.

Lemma alone_encodable bytes : alone (Scalar bytes) -> encodable bytes = true.
Proof. intros H. apply encodable_points. cbn in H. now rewrite H. Qed.

(* ---- digits ---- *)

Lemma hex_digit_ascii n : n < 16 -> Nat.ltb (nat_of_ascii (hex_digit n)) 128 = true.
Proof.
  intros H. do 16 (destruct n as [|n]; [reflexivity|]). lia.
Qed.

Lemma hex2_ascii c : ascii_text (hex2 (nat_of_ascii c)) = true.
Proof.
  pose proof (nat_ascii_bounded c) as Hb. unfold hex2. cbn [ascii_text].
  rewrite !hex_digit_ascii; [reflexivity| |].
  - apply Nat.mod_upper_bound. discriminate.
  - apply Nat.Div0.div_lt_upper_bound. exact Hb.
Qed.

Lemma uint_ascii d : ascii_text (NilEmpty.string_of_uint d) = true.
Proof. induction d; cbn [NilEmpty.string_of_uint ascii_text]; auto. Qed.

Lemma str_of_nat_ascii n : ascii_text (str_of_nat n) = true.
Proof.
  unfold str_of_nat, NilZero.string_of_uint.
  destruct (Nat.to_uint n); try apply uint_ascii. reflexivity.
Qed.

(* ---- repr and str ---- *)

Lemma string_cons c s : String c s = String c EmptyString ++ s.
Proof. reflexivity. Qed.

Lemma escape_ascii s :
  ascii_text s = true -> ascii_text (String backslash s) = true.
Proof. intros H. cbn [ascii_text]. now rewrite H. Qed.

Lemma repr_point_encodable q p : alone p -> encodable (repr_point q p) = true.
Proof.
  destruct p as [bytes|c]; intros Hp.
  - pose proof (alone_encodable _ Hp) as He.
    destruct bytes as [|c1 [|c2 [|c3 r]]]; cbn [repr_point]; try exact He.
    + destruct (_ || _).
      { rewrite string_cons. apply encodable_app; [reflexivity|exact He]. }
      destruct (Nat.eqb _ 9); [reflexivity|].
      destruct (Nat.eqb _ 10); [reflexivity|].
      destruct (Nat.eqb _ 13); [reflexivity|].
      destruct (_ || _); [|exact He].
      apply ascii_encodable, escape_ascii. cbn [append ascii_text]. apply hex2_ascii.
    + destruct (_ && _); [|exact He].
      apply ascii_encodable, escape_ascii. cbn [append ascii_text]. apply hex2_ascii.
  - cbn [repr_point]. apply ascii_encodable, escape_ascii.
    cbn [append ascii_text]. apply hex2_ascii.
Qed.

Lemma quoted_encodable q body :
  encodable (String q EmptyString) = true -> encodable body = true ->
  encodable (String q body ++ String q EmptyString) = true.
Proof.
  intros Hq Hb. rewrite string_cons, append_assoc.
  apply encodable_app; [exact Hq|]. now apply encodable_app.
Qed.

Lemma repr_points_encodable q s :
  encodable (cat (map (repr_point q) (code_points s))) = true.
Proof.
  apply encodable_cat. apply Forall_map.
  pose proof (code_points_alone s) as H.
  induction H as [|p ps Hp _ IH]; constructor; [|exact IH].
  now apply repr_point_encodable.
Qed.

(** [repr] escapes what cannot be encoded. *)
Lemma repr_encodable s : encodable (repr s) = true.
Proof.
  unfold repr. cbv zeta.
  destruct (has_char "'"%char s && negb (has_char (ascii_of_nat 34) s));
    apply quoted_encodable; try reflexivity; apply repr_points_encodable.
Qed.

Lemma strerror_ascii code : ascii_text (strerror code) = true.
Proof. destruct code; reflexivity. Qed.

Lemma str_encodable e : scan_error e -> encodable (str e) = true.
Proof.
  destruct e as [msg|code filename|failed|msg|msg|c a b]; cbn [scan_error str];
    try contradiction.
  - intros _. unfold str_oserror.
    apply encodable_app; [apply ascii_encodable, strerror_ascii|].
    apply encodable_app; [reflexivity|apply repr_encodable].
  - auto.
  - intros _. apply ascii_encodable.
    destruct (Nat.eqb b (S a)).
    + apply ascii_app; [reflexivity|]. apply ascii_app.
      { apply escape_ascii. cbn [append ascii_text]. apply hex2_ascii. }
      apply ascii_app; [reflexivity|]. apply ascii_app; [apply str_of_nat_ascii|reflexivity].
    + apply ascii_app; [reflexivity|]. apply ascii_app; [apply str_of_nat_ascii|].
      apply ascii_app; [reflexivity|]. apply ascii_app; [apply str_of_nat_ascii|reflexivity].
Qed.

Section WithPlatform.
Variable plat : platform.

Lemma describe_error t audit_path file_path e :
  describe plat t audit_path file_path = inl e -> scan_error e.
Proof.
  unfold describe, getsize, getmtime.
  destruct (stat (cwd plat) t file_path) as [code|[d m| |es]].
  - intros H; inversion H; exact I.
  - destruct (relpath _ _ _); intros H; inversion H. reflexivity.
  - destruct (relpath _ _ _); intros H; inversion H. reflexivity.
  - destruct (relpath _ _ _); intros H; inversion H. reflexivity.
Qed.

Lemma error_line_encodable file e :
  encodable file = true -> scan_error e -> encodable (error_line file e) = true.
Proof.
  intros Hf He. unfold error_line.
  apply encodable_app; [reflexivity|]. apply encodable_app; [exact Hf|].
  apply encodable_app; [reflexivity|]. apply encodable_app; [|reflexivity].
  now apply str_encodable.
Qed.

(** The scan can write the text of every file whose name it can write. *)
Lemma line_of_encodable t audit_path root file :
  encodable file = true ->
  encodable (line_of plat t audit_path (root, file)) = true.
Proof.
  intros Hf. unfold line_of. cbn [fst snd].
  destruct (describe plat t audit_path (join root file)) as [e|line] eqn:Hd.
  - apply error_line_encodable; [exact Hf|]. eapply describe_error; eauto.
  - destruct (encode_error line) as [[[c a] b]|] eqn:He.
    + now apply error_line_encodable.
    + unfold encodable. now rewrite He.
Qed.

End WithPlatform.
End EncodeFacts.

(** The scan and the files it cannot examine. *)
Module ScanExtras.
Import Py OsPath Fs Codec Sys Os Audit Notions.
Import PathFacts Steps EncodeFacts.

(** X22. A file whose name can be encoded never ends the scan.  When every
    file of the walk that is not named as the log has such a name, the
    scan returns and writes one text for each, in the order of the walk.
    For a file that [os.stat] fails on, the text is the error line of that
    failure, and the files after it get their texts all the same; for a
    regular file it is the line of its relative path, size and time, when
    that line can be encoded. *)
Theorem scan_survives_file_errors plat t audit_path buffer :
  let dirs := os_walk (cwd plat) t audit_path in
  (forall rf, In rf (inventory dirs) -> encodable (snd rf) = true) ->
  scan_dirs plat t audit_path dirs buffer
  = (Ok tt, buffer ++ cat (map (line_of plat t audit_path) (inventory dirs)))
  /\ (forall root file code,
        stat (cwd plat) t (join root file) = inl code ->
        ascii_text (join root file) = true ->
        line_of plat t audit_path (root, file)
        = "ERROR reading " ++ file ++ ": " ++ strerror code ++ ": "
          ++ repr (join root file) ++ nl)
  /\ (forall root file d m rel,
        stat (cwd plat) t (join root file) = inr (File d m) ->
        relpath (getcwd plat) (join root file) audit_path = Some rel ->
        let line := ljust 80 rel ++ "  " ++ fmt_kb (Z.of_nat (String.length d))
                    ++ " KB   Modified: " ++ ctime plat m ++ nl in
        encodable line = true ->
        line_of plat t audit_path (root, file) = line).
Proof.
  intros dirs Hnames. split; [|split].
  - rewrite scan_dirs_spec. apply write_all_ok. apply Forall_map.
    apply Forall_forall. intros [root file] Hin.
    apply line_of_encodable. exact (Hnames _ Hin).
  - intros root file code Hst _. rewrite (line_of_unreadable plat _ _ _ _ _ Hst).
    cbn [str]. unfold str_oserror. now rewrite !append_assoc.
  - intros root file d m rel Hst Hrel line Hline.
    unfold line_of, describe, getsize, getmtime. cbn [fst snd].
    rewrite Hst, Hrel. fold line. unfold encodable in Hline.
    destruct (encode_error line); [discriminate|reflexivity].
Qed.

End ScanExtras.

(** The further properties at work on the small installations. *)
Module MoreWitnesses.
Import Py OsPath Fs Sys Os Audit Notions Demo More.
Import EntryFacts InitExtras SessionExtras ExportExtras LifeCycle InventoryExtras.
Import ScanExtras.
Local Open Scope string_scope.
Local Open Scope list_scope.

Lemma usage_error_runs_nothing_witness :
  (member "delete" ["init"; "start"; "stop"; "export"; "list"] = false
   /\ main cfg0 plat0 (mkArgs "delete" (Some "acme")) w0 =
      (1%Z, mkWorld (fs w0) (clock w0)
              [Print "[X] Invalid action. Use one of: init|start|stop|export|list" red;
               PrintHelp]))
  /\ (member "start" ["init"; "start"; "stop"; "export"] = true
      /\ given None = false
      /\ main cfg0 plat0 (mkArgs "start" None) w0 =
         (1%Z, mkWorld (fs w0) (clock w0) [Print "[X] Specify an audit name." red])).
Proof.
  assert (H1 : member "delete" ["init"; "start"; "stop"; "export"; "list"] = false)
    by reflexivity.
  assert (H2 : member "start" ["init"; "start"; "stop"; "export"] = true) by reflexivity.
  assert (H3 : given None = false) by reflexivity.
  split.
  - split; [exact H1|].
    exact (proj1 (usage_error_runs_nothing cfg0 plat0 "delete" (Some "acme") w0) H1).
  - split; [exact H2|]. split; [exact H3|].
    exact (proj2 (usage_error_runs_nothing cfg0 plat0 "start" None w0) H2 H3).
Defined.

Lemma name_runs_as_basename_witness :
  truthy (basename "../../srv/audits/acme") = true
  /\ main cfg0 plat0 (mkArgs "export" (Some "../../srv/audits/acme")) w0
     = main cfg0 plat0 (mkArgs "export" (Some "acme")) w0.
Proof.
  assert (H : truthy (basename "../../srv/audits/acme") = true) by reflexivity.
  split; [exact H|].
  exact (name_runs_as_basename cfg0 plat0 "export" "../../srv/audits/acme" w0 H).
Defined.

Lemma trailing_separator_names_root_witness :
  endswith "acme/" "/" = true
  /\ get_fullpath cfg0 plat0 (basename "acme/") true w0 = (Ok "/srv/audits/", w0)
  /\ resolve (cwd plat0) (fs w0) "/srv/audits/" = inr ["srv"; "audits"].
Proof.
  assert (H1 : endswith "acme/" "/" = true) by reflexivity.
  assert (H2 : resolve (cwd plat0) (fs w0) (AUDIT_FOLDER cfg0) = inr ["srv"; "audits"])
    by (vm_compute; reflexivity).
  assert (H3 : is_dir_at (fs w0) ["srv"; "audits"] = true) by (vm_compute; reflexivity).
  split; [exact H1|].
  exact (proj2 (proj2 (trailing_separator_names_root cfg0 plat0 "acme/" w0
                         ["srv"; "audits"] H1 H2 H3))).
Defined.

Lemma list_prints_marked_witness :
  isdir (cwd plat_broken) (fs w_broken) "/srv/audits" = true
  /\ exists files,
       listdir (cwd plat_broken) (fs w_broken) "/srv/audits" = inr files
       /\ list_audits cfg_plain plat_broken w_broken =
          (Ok tt, mkWorld t_broken 200
                    (map listed_line (filter (marked cfg_plain plat_broken t_broken) files))).
Proof.
  assert (H : isdir (cwd plat_broken) (fs w_broken) (AUDIT_FOLDER cfg_plain) = true)
    by (vm_compute; reflexivity).
  split; [exact H|].
  exact (list_prints_marked cfg_plain plat_broken w_broken H).
Defined.

Lemma list_without_root_directory_witness :
  isdir (cwd plat_broken) (fs w_broken) "/srv/audits/stray.txt" = false
  /\ list_audits (mkConfig "/srv/audits/stray.txt" false false) plat_broken w_broken =
     (Raise (if path_exists (cwd plat_broken) (fs w_broken) "/srv/audits/stray.txt"
             then OSError ENOTDIR "/srv/audits/stray.txt"
             else Exception ("Main folder " ++ "/srv/audits/stray.txt"
                             ++ " does not exist.")%string),
      w_broken).
Proof.
  assert (H : isdir (cwd plat_broken) (fs w_broken)
                (AUDIT_FOLDER (mkConfig "/srv/audits/stray.txt" false false)) = false)
    by (vm_compute; reflexivity).
  split; [exact H|].
  exact (list_without_root_directory (mkConfig "/srv/audits/stray.txt" false false)
           plat_broken w_broken H).
Defined.



Lemma init_without_skeleton_witness :
  isdir [] (fs w0) "/nowhere/skel" = false
  /\ init cfg_plain (mkPlatform [] "/nowhere" ctime0 4096 0 no_git) "fresh" w0
     = (Raise (OSError (match stat [] (fs w0) "/nowhere/skel" with
                        | inl code => code
                        | inr _ => ENOTDIR
                        end) "/nowhere/skel"), w0).
Proof.
  set (plat := mkPlatform [] "/nowhere" ctime0 4096 0 no_git).
  assert (H1 : path_exists (cwd plat) (fs w0) (AUDIT_FOLDER cfg_plain) = true)
    by (vm_compute; reflexivity).
  assert (H2 : path_exists (cwd plat) (fs w0) (join (AUDIT_FOLDER cfg_plain) "fresh") = false)
    by (vm_compute; reflexivity).
  assert (H3 : isdir (cwd plat) (fs w0) (join (INSTALL_FOLDER plat) "skel") = false)
    by (vm_compute; reflexivity).
  split; [exact H3|].
  exact (init_without_skeleton cfg_plain plat "fresh" w0 H1 H2 H3).
Defined.


Lemma missing_project_is_refused_witness :
  path_exists (cwd plat0) (fs w0) "/srv/audits/ghost" = false
  /\ export_shell_log cfg0 plat0 "ghost" w0 =
     (Raise (Exception "Audit folder does not exist : /srv/audits/ghost"), w0).
Proof.
  assert (H : path_exists (cwd plat0) (fs w0) (join (AUDIT_FOLDER cfg0) "ghost") = false)
    by (vm_compute; reflexivity).
  split; [exact H|].
  exact (proj1 (missing_project_is_refused cfg0 plat0 "ghost" w0 H)).
Defined.

Lemma session_needs_logs_directory_witness :
  isdir (cwd plat_broken) (fs w_broken) "/srv/audits/nologs" = true
  /\ isdir (cwd plat_broken) (fs w_broken) "/srv/audits/nologs/logs" = false
  /\ exists w',
       stop cfg_plain plat_broken "nologs" w_broken =
         (Raise (OSError (if path_exists (cwd plat_broken) (fs w_broken)
                               "/srv/audits/nologs/logs"
                          then ENOTDIR else ENOENT)
                   "/srv/audits/nologs/logs/audit_file_list.txt"), w')
       /\ fs w' = fs w_broken.
Proof.
  assert (H1 : isdir (cwd plat_broken) (fs w_broken)
                 (join (AUDIT_FOLDER cfg_plain) "nologs") = true)
    by (vm_compute; reflexivity).
  assert (H2 : isdir (cwd plat_broken) (fs w_broken)
                 (join (join (AUDIT_FOLDER cfg_plain) "nologs") "logs") = false)
    by (vm_compute; reflexivity).
  split; [exact H1|]. split; [exact H2|].
  exact (proj2 (session_needs_logs_directory cfg_plain plat_broken "nologs" w_broken H1 H2)).
Defined.

Lemma session_touches_only_the_log_witness :
  start cfg0 plat0 "acme" w0 = (Ok tt, snd (start cfg0 plat0 "acme" w0))
  /\ exists p,
       resolve (cwd plat0) (fs w0) "/srv/audits/acme/logs/audit_file_list.txt" = inr p
       /\ forall q, within q p = false ->
            lookup q (fs (snd (start cfg0 plat0 "acme" w0))) = lookup q (fs w0).
Proof.
  assert (Hrun : start cfg0 plat0 "acme" w0 = (Ok tt, snd (start cfg0 plat0 "acme" w0)))
    by (vm_compute; reflexivity).
  split; [exact Hrun|].
  exact (session_touches_only_the_log cfg0 plat0 "acme" w0 _ (or_introl Hrun)).
Defined.

Lemma export_unreadable_log_writes_nothing_witness :
  read_bytes plat_broken (fs w_broken) "/srv/audits/badlog/logs/shell/gone.log"
  = inl (OSError ENOENT "/srv/audits/badlog/logs/shell/gone.log")
  /\ exists e, export_shell_log cfg_plain plat_broken "badlog" w_broken
               = (Raise e, w_broken).
Proof.
  assert (H1 : path_exists (cwd plat_broken) (fs w_broken)
                 (join (AUDIT_FOLDER cfg_plain) "badlog") = true)
    by (vm_compute; reflexivity).
  assert (H2 : path_exists (cwd plat_broken) (fs w_broken)
                 (join (join (join (AUDIT_FOLDER cfg_plain) "badlog") "logs") "shell")
               = true)
    by (vm_compute; reflexivity).
  assert (H3 : In ("/srv/audits/badlog/logs/shell", "gone.log")
                  (matched (os_walk (cwd plat_broken) (fs w_broken)
                              (join (join (join (AUDIT_FOLDER cfg_plain) "badlog") "logs")
                                    "shell"))))
    by (vm_compute; left; reflexivity).
  assert (H4 : read_bytes plat_broken (fs w_broken)
                 (join (fst ("/srv/audits/badlog/logs/shell", "gone.log"))
                       (snd ("/srv/audits/badlog/logs/shell", "gone.log")))
               = inl (OSError ENOENT "/srv/audits/badlog/logs/shell/gone.log"))
    by (vm_compute; reflexivity).
  split; [exact H4|].
  exact (export_unreadable_log_writes_nothing cfg_plain plat_broken "badlog" w_broken
           _ _ H1 H2 H3 H4).
Defined.

Lemma export_touches_only_the_page_witness :
  export_shell_log cfg0 plat0 "acme" w0
  = (Ok tt, snd (export_shell_log cfg0 plat0 "acme" w0))
  /\ exists p,
       resolve (cwd plat0) (fs w0) "/srv/audits/acme/shell_log.html" = inr p
       /\ forall q, within q p = false ->
            lookup q (fs (snd (export_shell_log cfg0 plat0 "acme" w0))) = lookup q (fs w0).
Proof.
  assert (Hs : path_exists (cwd plat0) (fs w0)
                 (join (join (join (AUDIT_FOLDER cfg0) "acme") "logs") "shell") = true)
    by (vm_compute; reflexivity).
  assert (Hrun : export_shell_log cfg0 plat0 "acme" w0
                 = (Ok tt, snd (export_shell_log cfg0 plat0 "acme" w0)))
    by (vm_compute; reflexivity).
  split; [exact Hrun|].
  exact (export_touches_only_the_page cfg0 plat0 "acme" w0 _ Hs Hrun).
Defined.

Lemma export_keeps_well_formed_text_witness :
  read_bytes plat0 (fs w0) "/srv/audits/acme/logs/shell/a.log" = inr "whoami"
  /\ exists p before after,
       resolve (cwd plat0) (fs w0) "/srv/audits/acme/shell_log.html" = inr p
       /\ lookup p (fs (snd (export_shell_log cfg0 plat0 "acme" w0)))
          = Some (File (page (before ++ log_block "a.log" "whoami" ++ after)%string) 100).
Proof.
  assert (Hs : path_exists (cwd plat0) (fs w0)
                 (join (join (join (AUDIT_FOLDER cfg0) "acme") "logs") "shell") = true)
    by (vm_compute; reflexivity).
  assert (Hrun : export_shell_log cfg0 plat0 "acme" w0
                 = (Ok tt, snd (export_shell_log cfg0 plat0 "acme" w0)))
    by (vm_compute; reflexivity).
  assert (Hin : In ("/srv/audits/acme/logs/shell", "a.log")
                   (matched (os_walk (cwd plat0) (fs w0)
                               (join (join (join (AUDIT_FOLDER cfg0) "acme") "logs")
                                     "shell"))))
    by (vm_compute; left; reflexivity).
  assert (Hb : read_bytes plat0 (fs w0)
                 (join (fst ("/srv/audits/acme/logs/shell", "a.log"))
                       (snd ("/srv/audits/acme/logs/shell", "a.log"))) = inr "whoami")
    by (vm_compute; reflexivity).
  assert (Hd : Codec.utf8_decode Codec.strict "whoami" = Some "whoami")
    by (vm_compute; reflexivity).
  assert (Hc : has_char Codec.CR "whoami" = false) by reflexivity.
  split; [exact Hb|].
  exact (export_keeps_well_formed_text cfg0 plat0 "acme" w0 _
           ("/srv/audits/acme/logs/shell", "a.log") "whoami" "whoami"
           Hs Hrun Hin Hb Hd Hc).
Defined.

Lemma export_twice_witness :
  export_shell_log cfg0 plat0 "acme" w0
  = (Ok tt, snd (export_shell_log cfg0 plat0 "acme" w0))
  /\ exists p all w'',
       resolve (cwd plat0) (fs w0) "/srv/audits/acme/shell_log.html" = inr p
       /\ lookup p (fs (snd (export_shell_log cfg0 plat0 "acme" w0)))
          = Some (File (page all) 100)
       /\ export_shell_log cfg0 plat0 "acme"
            (later 160 (snd (export_shell_log cfg0 plat0 "acme" w0))) = (Ok tt, w'')
       /\ fs w'' = put p (File (page all) 160)
                     (fs (snd (export_shell_log cfg0 plat0 "acme" w0))).
Proof.
  assert (Hs : path_exists (cwd plat0) (fs w0)
                 (join (join (join (AUDIT_FOLDER cfg0) "acme") "logs") "shell") = true)
    by (vm_compute; reflexivity).
  assert (Hrun : export_shell_log cfg0 plat0 "acme" w0
                 = (Ok tt, snd (export_shell_log cfg0 plat0 "acme" w0)))
    by (vm_compute; reflexivity).
  assert (Hnames : forall rf,
             In rf (matched (os_walk (cwd plat0) (fs w0)
                               (join (join (join (AUDIT_FOLDER cfg0) "acme") "logs")
                                     "shell"))) ->
             plain_name (snd rf) = true).
  { intros rf Hin. vm_compute in Hin.
    destruct Hin as [<-|[<-|[]]]; reflexivity. }
  split; [exact Hrun|].
  destruct (export_twice cfg0 plat0 "acme" w0 _ Hs Hnames Hrun)
    as (p & all & Hres & Hlook & Hlater).
  destruct (Hlater 160%Z) as (w'' & Hagain & Hfs).
  exists p, all, w''. split; [exact Hres|]. split; [exact Hlook|].
  split; [exact Hagain|exact Hfs].
Defined.


Lemma stop_repeats_start_inventory_witness :
  start cfg0 plat0 "acme" w0 = (Ok tt, snd (start cfg0 plat0 "acme" w0))
  /\ Codec.encodable ("Generated: " ++ ctime plat0 140 ++ nl ++ nl) = true
  /\ exists p w3,
       resolve (cwd plat0) (fs w0) "/srv/audits/acme/logs/audit_file_list.txt" = inr p
       /\ stop cfg0 plat0 "acme" (later 140 (snd (start cfg0 plat0 "acme" w0)))
          = (Ok tt, w3)
       /\ lookup p (fs w3) =
          Some (File (header plat0 "start" "acme" 100
                      ++ inventory_body plat0 (fs (snd (start cfg0 plat0 "acme" w0)))
                           "/srv/audits/acme"
                      ++ header plat0 "stop" "acme" 140
                      ++ inventory_body plat0 (fs (snd (start cfg0 plat0 "acme" w0)))
                           "/srv/audits/acme")%string 140).
Proof.
  assert (Hrun : start cfg0 plat0 "acme" w0 = (Ok tt, snd (start cfg0 plat0 "acme" w0)))
    by (vm_compute; reflexivity).
  assert (Hnames : forall rf,
             In rf (inventory (os_walk (cwd plat0) (fs (snd (start cfg0 plat0 "acme" w0)))
                                 (join (AUDIT_FOLDER cfg0) "acme"))) ->
             plain_name (snd rf) = true).
  { intros rf Hin. vm_compute in Hin.
    repeat (destruct Hin as [<-|Hin]; [reflexivity|]). contradiction. }
  assert (Htime : Codec.encodable ("Generated: " ++ ctime plat0 140 ++ nl ++ nl) = true)
    by (vm_compute; reflexivity).
  split; [exact Hrun|]. split; [exact Htime|].
  destruct (stop_repeats_start_inventory cfg0 plat0 "acme" w0 _ Hnames Hrun)
    as (p & w2 & Hres & _ & _ & _ & Hlater).
  destruct (Hlater 140%Z Htime) as (w3 & Hstop & Hlook).
  exists p, w3. split; [exact Hres|]. split; [exact Hstop|].
  assert (Hp : p = ["srv"; "audits"; "acme"; "logs"; "audit_file_list.txt"]).
  { vm_compute in Hres. now inversion Hres. }
  rewrite Hlook. subst p. reflexivity.
Defined.

Lemma scan_survives_file_errors_witness :
  (forall rf, In rf (inventory (os_walk (cwd plat0) t0 "/srv/audits/acme")) ->
     Codec.encodable (snd rf) = true)
  /\ stat (cwd plat0) t0 "/srv/audits/acme/evidence/link" = inl ENOENT
  /\ scan_dirs plat0 t0 "/srv/audits/acme" (os_walk (cwd plat0) t0 "/srv/audits/acme") ""
     = (Ok tt, cat (map (line_of plat0 t0 "/srv/audits/acme")
                      (inventory (os_walk (cwd plat0) t0 "/srv/audits/acme"))))
  /\ line_of plat0 t0 "/srv/audits/acme" ("/srv/audits/acme/evidence", "link")
     = ("ERROR reading link: [Errno 2] No such file or directory: "
        ++ "'/srv/audits/acme/evidence/link'" ++ nl)%string
  /\ line_of plat0 t0 "/srv/audits/acme" ("/srv/audits/acme/evidence", "shot.png")
     = (ljust 80 "evidence/shot.png" ++ "  " ++ fmt_kb 3 ++ " KB   Modified: "
        ++ ctime plat0 10 ++ nl)%string.
Proof.
  assert (Hnames : forall rf,
             In rf (inventory (os_walk (cwd plat0) t0 "/srv/audits/acme")) ->
             Codec.encodable (snd rf) = true).
  { intros rf Hin. vm_compute in Hin.
    repeat (destruct Hin as [<-|Hin]; [reflexivity|]). contradiction. }
  assert (Hlink : stat (cwd plat0) t0 (join "/srv/audits/acme/evidence" "link")
                  = inl ENOENT) by (vm_compute; reflexivity).
  assert (Hascii : Codec.ascii_text (join "/srv/audits/acme/evidence" "link") = true)
    by (vm_compute; reflexivity).
  assert (Hshot : stat (cwd plat0) t0 (join "/srv/audits/acme/evidence" "shot.png")
                  = inr (File "PNG" 10)) by (vm_compute; reflexivity).
  assert (Hrel : relpath (getcwd plat0) (join "/srv/audits/acme/evidence" "shot.png")
                   "/srv/audits/acme" = Some "evidence/shot.png")
    by (vm_compute; reflexivity).
  assert (Hline : Codec.encodable
                    (ljust 80 "evidence/shot.png" ++ "  "
                     ++ fmt_kb (Z.of_nat (String.length "PNG"))
                     ++ " KB   Modified: " ++ ctime plat0 10 ++ nl)%string = true)
    by (vm_compute; reflexivity).
  destruct (scan_survives_file_errors plat0 t0 "/srv/audits/acme" "" Hnames)
    as (Hscan & Herr & Hfile).
  split; [exact Hnames|]. split; [exact Hlink|]. split; [exact Hscan|].
  split.
  - rewrite (Herr _ _ _ Hlink Hascii). vm_compute. reflexivity.
  - exact (Hfile _ _ _ _ _ Hshot Hrel Hline).
Defined.

End MoreWitnesses.

